(** * The map tool subsystem of the Omnara MCP server ([src/tools/amap.py])

    A shallow embedding of the location resolver, the route planner with its
    two narrators and the POI search dispatcher, and the properties the
    specification states about them.

    Conventions of the embedding.
    - A Python [str] is a [string] holding its UTF-8 encoding; a character of
      the [str] is one group of bytes (a lead byte and its continuation
      bytes).  Substring tests, prefixes and concatenation on the encoding
      agree with the ones on code points.
    - Parsed JSON is the type [json]; a JSON object is the list of its items,
      keys distinct, in the order of the document.
    - A Python exception is a value of [exn]; code that may raise returns a
      [result].
    - The HTTP client is an oracle answering each request from the requests
      made so far; a computation threads the log of requests. *)

From Stdlib Require Import String Ascii List ZArith Bool Lia.
From Stdlib Require Import Floats.SpecFloat.
Import ListNotations.

Local Open Scope string_scope.
Local Open Scope list_scope.
Local Open Scope Z_scope.

(* ================================================================== *)
(** * Python strings *)
(* ================================================================== *)

Module PyStr.

(** [sub in s] for two strings. *)
Fixpoint contains (sub s : string) : bool :=
  String.prefix sub s ||
  match s with
  | EmptyString => false
  | String _ rest => contains sub rest
  end.

Definition startswith (s p : string) : bool := String.prefix p s.

(** [sep.join(parts)]. *)
Definition join (sep : string) (parts : list string) : string :=
  String.concat sep parts.

(** [s.split(sep)[0]] for a one-byte separator: the text before its first
    occurrence, the whole string when there is none. *)
Fixpoint split_head (sep : ascii) (s : string) : string :=
  match s with
  | EmptyString => EmptyString
  | String c rest =>
      if Ascii.eqb c sep then EmptyString else String c (split_head sep rest)
  end.

(** [s.replace(old, "")] for a one-byte [old]. *)
Fixpoint remove_char (old : ascii) (s : string) : string :=
  match s with
  | EmptyString => EmptyString
  | String c rest =>
      if Ascii.eqb c old then remove_char old rest
      else String c (remove_char old rest)
  end.

(** [s.split(sep)] for a one-byte separator: the pieces between its
    occurrences, empty pieces included; one piece when there is none. *)
Fixpoint split (sep : ascii) (s : string) : list string :=
  match s with
  | EmptyString => [EmptyString]
  | String c rest =>
      if Ascii.eqb c sep then EmptyString :: split sep rest
      else
        match split sep rest with
        | piece :: pieces => String c piece :: pieces
        | [] => [String c EmptyString]
        end
  end.

(** ** Characters: the UTF-8 groups of a string *)

Definition byte_val (c : ascii) : Z := Z.of_N (N_of_ascii c).

(** A continuation byte, [10xxxxxx]. *)
Definition is_cont (c : ascii) : bool :=
  (128 <=? byte_val c) && (byte_val c <? 192).

Definition starts_with_cont (s : string) : bool :=
  match s with
  | EmptyString => false
  | String c _ => is_cont c
  end.

(** The characters of a string, in order: every byte that is not a
    continuation byte opens a new character. *)
Fixpoint chars (s : string) : list string :=
  match s with
  | EmptyString => []
  | String c rest =>
      match chars rest with
      | h :: t =>
          if starts_with_cont h then String c h :: t
          else String c EmptyString :: h :: t
      | [] => [String c EmptyString]
      end
  end.

Definition unchars (cs : list string) : string := String.concat "" cs.

(** The code point a character encodes. *)
Definition code_point (ch : string) : Z :=
  match ch with
  | EmptyString => 0
  | String c rest =>
      let b := byte_val c in
      let lead :=
        if b <? 128 then b
        else if b <? 224 then Z.land b 31
        else if b <? 240 then Z.land b 15
        else Z.land b 7 in
      (fix go (acc : Z) (r : string) : Z :=
         match r with
         | EmptyString => acc
         | String d r' => go (Z.lor (Z.shiftl acc 6) (Z.land (byte_val d) 63)) r'
         end) lead rest
  end.

(** [str.isspace] on one character (the table of the Unicode database). *)
Definition is_space_cp (c : Z) : bool :=
  ((9 <=? c) && (c <=? 13)) || ((28 <=? c) && (c <=? 32)) ||
  (c =? 133) || (c =? 160) || (c =? 5760) ||
  ((8192 <=? c) && (c <=? 8202)) ||
  (c =? 8232) || (c =? 8233) || (c =? 8239) || (c =? 8287) || (c =? 12288).

Definition is_space (ch : string) : bool := is_space_cp (code_point ch).

(** The code points of the digit zero of every script of category Nd
    (Unicode 14, the database of CPython 3.11); the nine code points after
    each are its digits one to nine. *)
Definition decimal_zeros : list Z :=
  [48; 1632; 1776; 1984; 2406; 2534; 2662; 2790; 2918; 3046; 3174; 3302;
   3430; 3558; 3664; 3792; 3872; 4160; 4240; 6112; 6160; 6470; 6608; 6784;
   6800; 6992; 7088; 7232; 7248; 42528; 43216; 43264; 43472; 43504; 43600;
   44016; 65296; 66720; 68912; 69734; 69872; 69942; 70096; 70384; 70736;
   70864; 71248; 71360; 71472; 71904; 72016; 72784; 73040; 73120; 92768;
   92864; 93008; 120782; 120792; 120802; 120812; 120822; 123200; 123632;
   125264; 130032].

(** The value of a decimal digit character ([\d] of [re], the digits [int]
    and [float] accept). *)
Definition digit_value (ch : string) : option Z :=
  let c := code_point ch in
  match find (fun z => (z <=? c) && (c <? z + 10)) decimal_zeros with
  | Some z => Some (c - z)
  | None => None
  end.

Definition is_digit (ch : string) : bool :=
  match digit_value ch with Some _ => true | None => false end.

(** ** [str.strip] *)

Fixpoint drop_while {A} (p : A -> bool) (l : list A) : list A :=
  match l with
  | [] => []
  | x :: t => if p x then drop_while p t else l
  end.

Definition drop_while_end {A} (p : A -> bool) (l : list A) : list A :=
  rev (drop_while p (rev l)).

Definition strip (s : string) : string :=
  unchars (drop_while_end is_space (drop_while is_space (chars s))).

(** ** Decimal text of an integer ([str(n)]) *)

Definition digit_char (d : Z) : ascii := ascii_of_N (Z.to_N (48 + d)).

Fixpoint pos_digits (fuel : nat) (n : Z) (acc : string) : string :=
  match fuel with
  | O => acc
  | S fuel' =>
      let acc' := String (digit_char (n mod 10)) acc in
      if n <? 10 then acc' else pos_digits fuel' (n / 10) acc'
  end.

(** The decimal digits of [n >= 0]; the fuel, the binary size of [n], is
    never exhausted. *)
Definition nat_text (n : Z) : string :=
  pos_digits (S (Z.to_nat (Z.log2 n))) n EmptyString.

(** [str(n)] of an integer.  (CPython's limit on the number of digits, a
    setting of the interpreter, 4300 unless changed, is left out: what is
    stated of the text of an integer that may be large bounds it.) *)
Definition int_text (n : Z) : string :=
  if n <? 0 then "-" ++ nat_text (- n) else nat_text n.

(** ** Regular expressions ([re]) on characters *)

Inductive regex : Type :=
| ReFail : regex
| ReEps : regex
| ReChar : (string -> bool) -> regex
| ReCat : regex -> regex -> regex
| ReAlt : regex -> regex -> regex
| ReStar : regex -> regex.

Definition ReLit (c : string) : regex := ReChar (String.eqb c).
Definition ReOpt (r : regex) : regex := ReAlt r ReEps.
Definition RePlus (r : regex) : regex := ReCat r (ReStar r).

Fixpoint nullable (r : regex) : bool :=
  match r with
  | ReFail => false
  | ReEps => true
  | ReChar _ => false
  | ReCat a b => nullable a && nullable b
  | ReAlt a b => nullable a || nullable b
  | ReStar _ => true
  end.

(** The derivative of [r] by the character [ch]. *)
Fixpoint deriv (ch : string) (r : regex) : regex :=
  match r with
  | ReFail => ReFail
  | ReEps => ReFail
  | ReChar p => if p ch then ReEps else ReFail
  | ReCat a b =>
      if nullable a then ReAlt (ReCat (deriv ch a) b) (deriv ch b)
      else ReCat (deriv ch a) b
  | ReAlt a b => ReAlt (deriv ch a) (deriv ch b)
  | ReStar a => ReCat (deriv ch a) (ReStar a)
  end.

(** [r] matches the whole list of characters. *)
Fixpoint matches (r : regex) (cs : list string) : bool :=
  match cs with
  | [] => nullable r
  | ch :: rest => matches (deriv ch r) rest
  end.

Definition newline : string := String (ascii_of_N 10) EmptyString.

(** [re.match("^" r "$", s)]: [r] matches [s] up to its end, where [$] also
    stands before a newline that ends the string. *)
Definition re_match_anchored (r : regex) (s : string) : bool :=
  let cs := chars s in
  matches r cs ||
  match rev cs with
  | last :: front => String.eqb last newline && matches r (rev front)
  | [] => false
  end.

(** ** [str.isdigit] *)

(** The characters of numeric type Digit that are not decimal digits
    (superscripts, circled digits and the like), as ranges of code points. *)
Definition other_digit_ranges : list (Z * Z) :=
  [(178, 179); (185, 185); (4969, 4977); (6618, 6618); (8304, 8304);
   (8308, 8313); (8320, 8329); (9312, 9320); (9332, 9340); (9352, 9360);
   (9450, 9450); (9461, 9469); (9471, 9471); (10102, 10110); (10112, 10120);
   (10122, 10130); (68160, 68163); (69216, 69224); (69714, 69722);
   (127232, 127242)].

Definition isdigit_char (ch : string) : bool :=
  is_digit ch ||
  existsb (fun '(lo, hi) => (lo <=? code_point ch) && (code_point ch <=? hi))
          other_digit_ranges.

Definition isdigit (s : string) : bool :=
  match chars s with
  | [] => false
  | cs => forallb isdigit_char cs
  end.

(** ** [str.isprintable] *)

(** The code points outside ASCII that are not printable (separators other
    than the blank, control and format characters, surrogates, private use
    and unassigned code points), as ranges: the table of the Unicode
    database in its version 14, the one of CPython 3.11. *)
Definition unprintable_ranges : list (Z * Z) :=
  [(128, 160); (173, 173); (888, 889); (896, 899); (907, 907); (909, 909);
   (930, 930); (1328, 1328); (1367, 1368); (1419, 1420); (1424, 1424);
   (1480, 1487); (1515, 1518); (1525, 1541); (1564, 1564); (1757, 1757);
   (1806, 1807); (1867, 1868); (1970, 1983); (2043, 2044); (2094, 2095);
   (2111, 2111); (2140, 2141); (2143, 2143); (2155, 2159); (2191, 2199);
   (2274, 2274); (2436, 2436); (2445, 2446); (2449, 2450); (2473, 2473);
   (2481, 2481); (2483, 2485); (2490, 2491); (2501, 2502); (2505, 2506);
   (2511, 2518); (2520, 2523); (2526, 2526); (2532, 2533); (2559, 2560);
   (2564, 2564); (2571, 2574); (2577, 2578); (2601, 2601); (2609, 2609);
   (2612, 2612); (2615, 2615); (2618, 2619); (2621, 2621); (2627, 2630);
   (2633, 2634); (2638, 2640); (2642, 2648); (2653, 2653); (2655, 2661);
   (2679, 2688); (2692, 2692); (2702, 2702); (2706, 2706); (2729, 2729);
   (2737, 2737); (2740, 2740); (2746, 2747); (2758, 2758); (2762, 2762);
   (2766, 2767); (2769, 2783); (2788, 2789); (2802, 2808); (2816, 2816);
   (2820, 2820); (2829, 2830); (2833, 2834); (2857, 2857); (2865, 2865);
   (2868, 2868); (2874, 2875); (2885, 2886); (2889, 2890); (2894, 2900);
   (2904, 2907); (2910, 2910); (2916, 2917); (2936, 2945); (2948, 2948);
   (2955, 2957); (2961, 2961); (2966, 2968); (2971, 2971); (2973, 2973);
   (2976, 2978); (2981, 2983); (2987, 2989); (3002, 3005); (3011, 3013);
   (3017, 3017); (3022, 3023); (3025, 3030); (3032, 3045); (3067, 3071);
   (3085, 3085); (3089, 3089); (3113, 3113); (3130, 3131); (3141, 3141);
   (3145, 3145); (3150, 3156); (3159, 3159); (3163, 3164); (3166, 3167);
   (3172, 3173); (3184, 3190); (3213, 3213); (3217, 3217); (3241, 3241);
   (3252, 3252); (3258, 3259); (3269, 3269); (3273, 3273); (3278, 3284);
   (3287, 3292); (3295, 3295); (3300, 3301); (3312, 3312); (3315, 3327);
   (3341, 3341); (3345, 3345); (3397, 3397); (3401, 3401); (3408, 3411);
   (3428, 3429); (3456, 3456); (3460, 3460); (3479, 3481); (3506, 3506);
   (3516, 3516); (3518, 3519); (3527, 3529); (3531, 3534); (3541, 3541);
   (3543, 3543); (3552, 3557); (3568, 3569); (3573, 3584); (3643, 3646);
   (3676, 3712); (3715, 3715); (3717, 3717); (3723, 3723); (3748, 3748);
   (3750, 3750); (3774, 3775); (3781, 3781); (3783, 3783); (3790, 3791);
   (3802, 3803); (3808, 3839); (3912, 3912); (3949, 3952); (3992, 3992);
   (4029, 4029); (4045, 4045); (4059, 4095); (4294, 4294); (4296, 4300);
   (4302, 4303); (4681, 4681); (4686, 4687); (4695, 4695); (4697, 4697);
   (4702, 4703); (4745, 4745); (4750, 4751); (4785, 4785); (4790, 4791);
   (4799, 4799); (4801, 4801); (4806, 4807); (4823, 4823); (4881, 4881);
   (4886, 4887); (4955, 4956); (4989, 4991); (5018, 5023); (5110, 5111);
   (5118, 5119); (5760, 5760); (5789, 5791); (5881, 5887); (5910, 5918);
   (5943, 5951); (5972, 5983); (5997, 5997); (6001, 6001); (6004, 6015);
   (6110, 6111); (6122, 6127); (6138, 6143); (6158, 6158); (6170, 6175);
   (6265, 6271); (6315, 6319); (6390, 6399); (6431, 6431); (6444, 6447);
   (6460, 6463); (6465, 6467); (6510, 6511); (6517, 6527); (6572, 6575);
   (6602, 6607); (6619, 6621); (6684, 6685); (6751, 6751); (6781, 6782);
   (6794, 6799); (6810, 6815); (6830, 6831); (6863, 6911); (6989, 6991);
   (7039, 7039); (7156, 7163); (7224, 7226); (7242, 7244); (7305, 7311);
   (7355, 7356); (7368, 7375); (7419, 7423); (7958, 7959); (7966, 7967);
   (8006, 8007); (8014, 8015); (8024, 8024); (8026, 8026); (8028, 8028);
   (8030, 8030); (8062, 8063); (8117, 8117); (8133, 8133); (8148, 8149);
   (8156, 8156); (8176, 8177); (8181, 8181); (8191, 8207); (8232, 8239);
   (8287, 8303); (8306, 8307); (8335, 8335); (8349, 8351); (8385, 8399);
   (8433, 8447); (8588, 8591); (9255, 9279); (9291, 9311); (11124, 11125);
   (11158, 11158); (11508, 11512); (11558, 11558); (11560, 11564);
   (11566, 11567); (11624, 11630); (11633, 11646); (11671, 11679);
   (11687, 11687); (11695, 11695); (11703, 11703); (11711, 11711);
   (11719, 11719); (11727, 11727); (11735, 11735); (11743, 11743);
   (11870, 11903); (11930, 11930); (12020, 12031); (12246, 12271);
   (12284, 12288); (12352, 12352); (12439, 12440); (12544, 12548);
   (12592, 12592); (12687, 12687); (12772, 12783); (12831, 12831);
   (42125, 42127); (42183, 42191); (42540, 42559); (42744, 42751);
   (42955, 42959); (42962, 42962); (42964, 42964); (42970, 42993);
   (43053, 43055); (43066, 43071); (43128, 43135); (43206, 43213);
   (43226, 43231); (43348, 43358); (43389, 43391); (43470, 43470);
   (43482, 43485); (43519, 43519); (43575, 43583); (43598, 43599);
   (43610, 43611); (43715, 43738); (43767, 43776); (43783, 43784);
   (43791, 43792); (43799, 43807); (43815, 43815); (43823, 43823);
   (43884, 43887); (44014, 44015); (44026, 44031); (55204, 55215);
   (55239, 55242); (55292, 63743); (64110, 64111); (64218, 64255);
   (64263, 64274); (64280, 64284); (64311, 64311); (64317, 64317);
   (64319, 64319); (64322, 64322); (64325, 64325); (64451, 64466);
   (64912, 64913); (64968, 64974); (64976, 65007); (65050, 65055);
   (65107, 65107); (65127, 65127); (65132, 65135); (65141, 65141);
   (65277, 65280); (65471, 65473); (65480, 65481); (65488, 65489);
   (65496, 65497); (65501, 65503); (65511, 65511); (65519, 65531);
   (65534, 65535); (65548, 65548); (65575, 65575); (65595, 65595);
   (65598, 65598); (65614, 65615); (65630, 65663); (65787, 65791);
   (65795, 65798); (65844, 65846); (65935, 65935); (65949, 65951);
   (65953, 65999); (66046, 66175); (66205, 66207); (66257, 66271);
   (66300, 66303); (66340, 66348); (66379, 66383); (66427, 66431);
   (66462, 66462); (66500, 66503); (66518, 66559); (66718, 66719);
   (66730, 66735); (66772, 66775); (66812, 66815); (66856, 66863);
   (66916, 66926); (66939, 66939); (66955, 66955); (66963, 66963);
   (66966, 66966); (66978, 66978); (66994, 66994); (67002, 67002);
   (67005, 67071); (67383, 67391); (67414, 67423); (67432, 67455);
   (67462, 67462); (67505, 67505); (67515, 67583); (67590, 67591);
   (67593, 67593); (67638, 67638); (67641, 67643); (67645, 67646);
   (67670, 67670); (67743, 67750); (67760, 67807); (67827, 67827);
   (67830, 67834); (67868, 67870); (67898, 67902); (67904, 67967);
   (68024, 68027); (68048, 68049); (68100, 68100); (68103, 68107);
   (68116, 68116); (68120, 68120); (68150, 68151); (68155, 68158);
   (68169, 68175); (68185, 68191); (68256, 68287); (68327, 68330);
   (68343, 68351); (68406, 68408); (68438, 68439); (68467, 68471);
   (68498, 68504); (68509, 68520); (68528, 68607); (68681, 68735);
   (68787, 68799); (68851, 68857); (68904, 68911); (68922, 69215);
   (69247, 69247); (69290, 69290); (69294, 69295); (69298, 69375);
   (69416, 69423); (69466, 69487); (69514, 69551); (69580, 69599);
   (69623, 69631); (69710, 69713); (69750, 69758); (69821, 69821);
   (69827, 69839); (69865, 69871); (69882, 69887); (69941, 69941);
   (69960, 69967); (70007, 70015); (70112, 70112); (70133, 70143);
   (70162, 70162); (70207, 70271); (70279, 70279); (70281, 70281);
   (70286, 70286); (70302, 70302); (70314, 70319); (70379, 70383);
   (70394, 70399); (70404, 70404); (70413, 70414); (70417, 70418);
   (70441, 70441); (70449, 70449); (70452, 70452); (70458, 70458);
   (70469, 70470); (70473, 70474); (70478, 70479); (70481, 70486);
   (70488, 70492); (70500, 70501); (70509, 70511); (70517, 70655);
   (70748, 70748); (70754, 70783); (70856, 70863); (70874, 71039);
   (71094, 71095); (71134, 71167); (71237, 71247); (71258, 71263);
   (71277, 71295); (71354, 71359); (71370, 71423); (71451, 71452);
   (71468, 71471); (71495, 71679); (71740, 71839); (71923, 71934);
   (71943, 71944); (71946, 71947); (71956, 71956); (71959, 71959);
   (71990, 71990); (71993, 71994); (72007, 72015); (72026, 72095);
   (72104, 72105); (72152, 72153); (72165, 72191); (72264, 72271);
   (72355, 72367); (72441, 72703); (72713, 72713); (72759, 72759);
   (72774, 72783); (72813, 72815); (72848, 72849); (72872, 72872);
   (72887, 72959); (72967, 72967); (72970, 72970); (73015, 73017);
   (73019, 73019); (73022, 73022); (73032, 73039); (73050, 73055);
   (73062, 73062); (73065, 73065); (73103, 73103); (73106, 73106);
   (73113, 73119); (73130, 73439); (73465, 73647); (73649, 73663);
   (73714, 73726); (74650, 74751); (74863, 74863); (74869, 74879);
   (75076, 77711); (77811, 77823); (78895, 82943); (83527, 92159);
   (92729, 92735); (92767, 92767); (92778, 92781); (92863, 92863);
   (92874, 92879); (92910, 92911); (92918, 92927); (92998, 93007);
   (93018, 93018); (93026, 93026); (93048, 93052); (93072, 93759);
   (93851, 93951); (94027, 94030); (94088, 94094); (94112, 94175);
   (94181, 94191); (94194, 94207); (100344, 100351); (101590, 101631);
   (101641, 110575); (110580, 110580); (110588, 110588); (110591, 110591);
   (110883, 110927); (110931, 110947); (110952, 110959); (111356, 113663);
   (113771, 113775); (113789, 113791); (113801, 113807); (113818, 113819);
   (113824, 118527); (118574, 118575); (118599, 118607); (118724, 118783);
   (119030, 119039); (119079, 119080); (119155, 119162); (119275, 119295);
   (119366, 119519); (119540, 119551); (119639, 119647); (119673, 119807);
   (119893, 119893); (119965, 119965); (119968, 119969); (119971, 119972);
   (119975, 119976); (119981, 119981); (119994, 119994); (119996, 119996);
   (120004, 120004); (120070, 120070); (120075, 120076); (120085, 120085);
   (120093, 120093); (120122, 120122); (120127, 120127); (120133, 120133);
   (120135, 120137); (120145, 120145); (120486, 120487); (120780, 120781);
   (121484, 121498); (121504, 121504); (121520, 122623); (122655, 122879);
   (122887, 122887); (122905, 122906); (122914, 122914); (122917, 122917);
   (122923, 123135); (123181, 123183); (123198, 123199); (123210, 123213);
   (123216, 123535); (123567, 123583); (123642, 123646); (123648, 124895);
   (124903, 124903); (124908, 124908); (124911, 124911); (124927, 124927);
   (125125, 125126); (125143, 125183); (125260, 125263); (125274, 125277);
   (125280, 126064); (126133, 126208); (126270, 126463); (126468, 126468);
   (126496, 126496); (126499, 126499); (126501, 126502); (126504, 126504);
   (126515, 126515); (126520, 126520); (126522, 126522); (126524, 126529);
   (126531, 126534); (126536, 126536); (126538, 126538); (126540, 126540);
   (126544, 126544); (126547, 126547); (126549, 126550); (126552, 126552);
   (126554, 126554); (126556, 126556); (126558, 126558); (126560, 126560);
   (126563, 126563); (126565, 126566); (126571, 126571); (126579, 126579);
   (126584, 126584); (126589, 126589); (126591, 126591); (126602, 126602);
   (126620, 126624); (126628, 126628); (126634, 126634); (126652, 126703);
   (126706, 126975); (127020, 127023); (127124, 127135); (127151, 127152);
   (127168, 127168); (127184, 127184); (127222, 127231); (127406, 127461);
   (127491, 127503); (127548, 127551); (127561, 127567); (127570, 127583);
   (127590, 127743); (128728, 128732); (128749, 128751); (128765, 128767);
   (128884, 128895); (128985, 128991); (129004, 129007); (129009, 129023);
   (129036, 129039); (129096, 129103); (129114, 129119); (129160, 129167);
   (129198, 129199); (129202, 129279); (129620, 129631); (129646, 129647);
   (129653, 129655); (129661, 129663); (129671, 129679); (129709, 129711);
   (129723, 129727); (129734, 129743); (129754, 129759); (129768, 129775);
   (129783, 129791); (129939, 129939); (129995, 130031); (130042, 131071);
   (173792, 173823); (177977, 177983); (178206, 178207); (183970, 183983);
   (191457, 194559); (195102, 196607); (201547, 917759); (918000, 1114111)].

(** [str.isprintable] on one character. *)
Definition isprintable_cp (c : Z) : bool :=
  if c <? 128 then (32 <=? c) && (c <? 127)
  else negb (existsb (fun '(lo, hi) => (lo <=? c) && (c <=? hi))
                     unprintable_ranges).

End PyStr.

(* ================================================================== *)
(** * Python floats: IEEE 754 binary64, as [spec_float] *)
(* ================================================================== *)

Module PyFloat.

Import PyStr.

Definition prec : Z := 53.
Definition emax : Z := 1024.

Definition of_Z (n : Z) : spec_float := binary_normalize prec emax n 0 false.

(** The float nearest to [(-1)^neg * digits * 10^exp10], ties to even. *)
Definition of_decimal (neg : bool) (digits : Z) (exp10 : Z) : spec_float :=
  match digits with
  | Z.pos d =>
      if 0 <=? exp10 then
        binary_normalize prec emax
          ((if neg then -1 else 1) * digits * 10 ^ exp10) 0 false
      else
        SFdiv prec emax (S754_finite neg d 0)
          (S754_finite false (Z.to_pos (10 ^ (- exp10))) 0)
  | _ => S754_zero neg
  end.

Definition lt (a b : spec_float) : bool := SFltb a b.

Definition div (a b : spec_float) : spec_float := SFdiv prec emax a b.

Definition is_zero (f : spec_float) : bool :=
  match f with S754_zero _ => true | _ => false end.

Definition eqb (a b : spec_float) : bool :=
  match a, b with
  | S754_zero s1, S754_zero s2 => Bool.eqb s1 s2
  | S754_infinity s1, S754_infinity s2 => Bool.eqb s1 s2
  | S754_nan, S754_nan => true
  | S754_finite s1 m1 e1, S754_finite s2 m2 e2 =>
      Bool.eqb s1 s2 && Pos.eqb m1 m2 && Z.eqb e1 e2
  | _, _ => false
  end.

(** The integer part, toward zero ([int(x)] on a finite float). *)
Definition trunc (f : spec_float) : option Z :=
  match f with
  | S754_zero _ => Some 0
  | S754_finite s m e =>
      let mag := if 0 <=? e then Z.pos m * 2 ^ e else Z.pos m / 2 ^ (- e) in
      Some (if s then - mag else mag)
  | _ => None
  end.

(** [num / den] rounded to the nearest integer, ties to even. *)
Definition div_half_even (num den : Z) : Z :=
  let q := num / den in
  let r := num mod den in
  if den <? 2 * r then q + 1
  else if (2 * r =? den) && Z.odd q then q + 1
  else q.

Definition sign_text (s : bool) : string := if s then "-" else "".

(** [format(x, ".1f")]. *)
Definition format_1f (f : spec_float) : string :=
  match f with
  | S754_zero s => sign_text s ++ "0.0"
  | S754_infinity s => sign_text s ++ "inf"
  | S754_nan => "nan"
  | S754_finite s m e =>
      let t := if 0 <=? e then Z.pos m * 2 ^ e * 10
               else div_half_even (Z.pos m * 10) (2 ^ (- e)) in
      sign_text s ++ nat_text (t / 10) ++ "." ++ nat_text (t mod 10)
  end.

(** ** [repr] of a float: the shortest decimal that reads back as it *)

(** The positive rational [m * 2^e] as a fraction. *)
Definition fraction (m : positive) (e : Z) : Z * Z :=
  if 0 <=? e then (Z.pos m * 2 ^ e, 1) else (Z.pos m, 2 ^ (- e)).

(** The [k] with [10^k <= num/den < 10^(k+1)], searched upward from [k]. *)
Fixpoint log10_up (fuel : nat) (num den k : Z) : Z :=
  match fuel with
  | O => k
  | S fuel' =>
      if num <? den * 10 ^ (k + 1) then k else log10_up fuel' num den (k + 1)
  end.

Fixpoint log10_down (fuel : nat) (num den k : Z) : Z :=
  match fuel with
  | O => k
  | S fuel' =>
      if den <=? num * 10 ^ (- k) then k else log10_down fuel' num den (k - 1)
  end.

(** A binary64 magnitude lies between [10^-324] and [10^309]. *)
Definition floor_log10 (num den : Z) : Z :=
  if den <=? num then log10_up 400 num den 0 else log10_down 400 num den (-1).

(** [floor (num/den / 10^q)]. *)
Definition scaled_floor (num den q : Z) : Z :=
  if 0 <=? q then num / (den * 10 ^ q) else (num * 10 ^ (- q)) / den.

(** Whether, of [a * 10^q] and [(a+1) * 10^q], the first is the one
    [num/den] rounds to: it is the nearer one or, at the midpoint of the
    two, [a] is even. *)
Definition below_mid (num den a q : Z) : bool :=
  let '(twice, mid) :=
    if 0 <=? q then (2 * num, (2 * a + 1) * 10 ^ q * den)
    else (2 * num * 10 ^ (- q), (2 * a + 1) * den) in
  (twice <? mid) || ((twice =? mid) && Z.even a).

(** The decimal [c * 10^q] with [n] digits nearest to the float that reads
    back as the float, if there is one. *)
Definition candidate (m : positive) (e : Z) (n : Z) : option (Z * Z) :=
  let '(num, den) := fraction m e in
  let q := floor_log10 num den - n + 1 in
  let a := scaled_floor num den q in
  let back c := eqb (of_decimal false c q) (S754_finite false m e) in
  let '(c1, c2) := if below_mid num den a q then (a, a + 1) else (a + 1, a) in
  if back c1 then Some (c1, q)
  else if back c2 then Some (c2, q)
  else None.

Fixpoint shortest (fuel : nat) (m : positive) (e : Z) (n : Z) : Z * Z :=
  match fuel with
  | O => (Z.pos m, 0)
  | S fuel' =>
      match candidate m e n with
      | Some cq => cq
      | None => shortest fuel' m e (n + 1)
      end
  end.

Fixpoint strip_zeros (fuel : nat) (c q : Z) : Z * Z :=
  match fuel with
  | O => (c, q)
  | S fuel' =>
      if (c mod 10 =? 0) && negb (c =? 0) then strip_zeros fuel' (c / 10) (q + 1)
      else (c, q)
  end.

Fixpoint zeros (n : nat) : string :=
  match n with O => "" | S n' => "0" ++ zeros n' end.

Definition exponent_text (x : Z) : string :=
  let a := Z.abs x in
  (if x <? 0 then "-" else "+") ++ (if a <? 10 then "0" else "") ++ nat_text a.

(** Seventeen digits always read back, so the search ends within its fuel. *)
Definition repr (f : spec_float) : string :=
  match f with
  | S754_zero s => sign_text s ++ "0.0"
  | S754_infinity s => sign_text s ++ "inf"
  | S754_nan => "nan"
  | S754_finite s m e =>
      let '(c0, q0) := shortest 17 m e 1 in
      let '(c, q) := strip_zeros 20 c0 q0 in
      let ds := nat_text c in
      let len := Z.of_nat (String.length ds) in
      let decpt := len + q in
      sign_text s ++
      (if (-4 <? decpt) && (decpt <=? 16) then
         if decpt <=? 0 then "0." ++ zeros (Z.to_nat (- decpt)) ++ ds
         else if len <=? decpt then ds ++ zeros (Z.to_nat (decpt - len)) ++ ".0"
         else substring 0 (Z.to_nat decpt) ds ++ "." ++
              substring (Z.to_nat decpt) (Z.to_nat (len - decpt)) ds
       else
         substring 0 1 ds ++
         (if 1 <? len then "." ++ substring 1 (Z.to_nat (len - 1)) ds else "") ++
         "e" ++ exponent_text (decpt - 1))
  end.

(** ** Reading numbers: [int(s)] and [float(s)] *)

Inductive token : Type :=
| TDigit : Z -> token
| TChar : string -> token.

Definition tokenize (s : string) : list token :=
  map (fun ch => match digit_value ch with
                 | Some d => TDigit d
                 | None => TChar ch
                 end) (chars (strip s)).

(** The digits of a maximal run [d (_? d)*], most significant first, and
    what follows the run. *)
Fixpoint digit_run (ts : list token) : list Z * list token :=
  match ts with
  | TDigit d :: rest =>
      let '(ds, tl) :=
        match rest with
        | TChar c :: ((TDigit _ :: _) as rest') =>
            if String.eqb c "_" then digit_run rest' else ([], rest)
        | _ => digit_run rest
        end in
      (d :: ds, tl)
  | _ => ([], ts)
  end.

Definition digits_value (ds : list Z) : Z :=
  fold_left (fun acc d => acc * 10 + d) ds 0.

(** An optional sign: whether it is a minus, and what follows. *)
Definition read_sign (ts : list token) : bool * list token :=
  match ts with
  | TChar c :: rest =>
      if String.eqb c "-" then (true, rest)
      else if String.eqb c "+" then (false, rest)
      else (false, ts)
  | _ => (false, ts)
  end.

(** [int(s)] in base ten: blanks around, a sign, digits with single
    underscores between them.  [None] is [ValueError].  (CPython's limit on
    the number of digits, a setting of the interpreter, is left out.) *)
Definition parse_int (s : string) : option Z :=
  let '(neg, ts) := read_sign (tokenize s) in
  match digit_run ts with
  | ((_ :: _) as ds, []) =>
      Some (if neg then - digits_value ds else digits_value ds)
  | _ => None
  end.

Definition lower_ascii (ch : string) : string :=
  match ch with
  | String c EmptyString =>
      let b := byte_val c in
      if (65 <=? b) && (b <=? 90)
      then String (ascii_of_N (Z.to_N (b + 32))) EmptyString
      else ch
  | _ => ch
  end.

Definition word_of (ts : list token) : string :=
  unchars (map (fun t => match t with
                         | TChar ch => lower_ascii ch
                         | TDigit _ => "0"
                         end) ts).

(** The exponent part: absent, or [e], a sign and digits up to the end. *)
Definition read_exponent (ts : list token) : option Z :=
  match ts with
  | [] => Some 0
  | TChar c :: rest =>
      if String.eqb (lower_ascii c) "e" then
        let '(neg, rest') := read_sign rest in
        match digit_run rest' with
        | ((_ :: _) as ds, []) =>
            Some (if neg then - digits_value ds else digits_value ds)
        | _ => None
        end
      else None
  | _ => None
  end.

(** [float(s)]: blanks around, a sign, then [inf], [infinity], [nan] or a
    decimal number with an optional fraction and exponent.  [None] is
    [ValueError]. *)
Definition parse_float (s : string) : option spec_float :=
  let '(neg, ts) := read_sign (tokenize s) in
  let w := word_of ts in
  if String.eqb w "inf" || String.eqb w "infinity" then Some (S754_infinity neg)
  else if String.eqb w "nan" then Some S754_nan
  else
    let '(ip, after_int) := digit_run ts in
    let '(fp, after_frac) :=
      match after_int with
      | TChar c :: rest =>
          if String.eqb c "." then digit_run rest else ([], after_int)
      | _ => ([], after_int)
      end in
    match ip ++ fp with
    | [] => None
    | ds =>
        match read_exponent after_frac with
        | Some x =>
            Some (of_decimal neg (digits_value ds) (x - Z.of_nat (length fp)))
        | None => None
        end
    end.

End PyFloat.

(* ================================================================== *)
(** * Python values: exceptions, parsed JSON and the operations on it *)
(* ================================================================== *)

Module Py.

Import PyStr.

(** An exception: the name of its class and [str(e)], in the wording of
    CPython 3.11. *)
Record exn : Type := Exn { exn_type : string; exn_text : string }.

Inductive result (A : Type) : Type :=
| Ok : A -> result A
| Raise : exn -> result A.
Arguments Ok {A} _.
Arguments Raise {A} _.

Definition bind {A B} (c : result A) (k : A -> result B) : result B :=
  match c with
  | Ok a => k a
  | Raise e => Raise e
  end.

Notation "x <- c ;; k" := (bind c (fun x => k))
  (at level 61, c at next level, right associativity).

(** What [json.loads] builds. [JNull] is [None]. *)
#[warnings="-register-all"]
Inductive json : Type :=
| JNull : json
| JBool : bool -> json
| JInt : Z -> json
| JFloat : spec_float -> json
| JStr : string -> json
| JArr : list json -> json
| JObj : list (string * json) -> json.

Definition type_name (v : json) : string :=
  match v with
  | JNull => "NoneType"
  | JBool _ => "bool"
  | JInt _ => "int"
  | JFloat _ => "float"
  | JStr _ => "str"
  | JArr _ => "list"
  | JObj _ => "dict"
  end.

(** [bool(v)]. *)
Definition truthy (v : json) : bool :=
  match v with
  | JNull => false
  | JBool b => b
  | JInt n => negb (n =? 0)
  | JFloat f => negb (PyFloat.is_zero f)
  | JStr s => negb (String.eqb s "")
  | JArr l => match l with [] => false | _ => true end
  | JObj l => match l with [] => false | _ => true end
  end.

Fixpoint lookup (k : string) (items : list (string * json)) : option json :=
  match items with
  | [] => None
  | (k', v) :: rest => if String.eqb k k' then Some v else lookup k rest
  end.

Definition quote (s : string) : string := "'" ++ s ++ "'".

Definition no_attribute {A} (v : json) (name : string) : result A :=
  Raise (Exn "AttributeError"
           (quote (type_name v) ++ " object has no attribute " ++ quote name)).

(** [d.get(k, default)]. *)
Definition get (d : json) (k : string) (default : json) : result json :=
  match d with
  | JObj items =>
      Ok (match lookup k items with Some v => v | None => default end)
  | _ => no_attribute d "get"
  end.

(** ** [repr] and [str] *)

Definition hex_digit (d : Z) : ascii :=
  ascii_of_N (Z.to_N (if d <? 10 then 48 + d else 87 + d)).

Definition backslash : ascii := ascii_of_N 92.
Definition single_quote : ascii := ascii_of_N 39.
Definition double_quote : ascii := ascii_of_N 34.

Definition escape_byte (q : ascii) (c : ascii) : string :=
  let b := byte_val c in
  if Ascii.eqb c q then String backslash (String c "")
  else if b =? 92 then String backslash (String backslash "")
  else if b =? 10 then String backslash "n"
  else if b =? 13 then String backslash "r"
  else if b =? 9 then String backslash "t"
  else if (b <? 32) || (b =? 127) then
    String backslash
      (String "x" (String (hex_digit (b / 16)) (String (hex_digit (b mod 16)) "")))
  else String c "".

(** The [n] lowest hexadecimal digits of [c]. *)
Fixpoint hex_digits (n : nat) (c : Z) (acc : string) : string :=
  match n with
  | O => acc
  | S n' => hex_digits n' (c / 16) (String (hex_digit (c mod 16)) acc)
  end.

(** One character of a [repr]: an ASCII character as above, a character
    outside ASCII as it is when it is printable, and by its code point
    otherwise. *)
Definition escape_char (q : ascii) (ch : string) : string :=
  match ch with
  | EmptyString => EmptyString
  | String c EmptyString => escape_byte q c
  | _ =>
      let c := code_point ch in
      if isprintable_cp c then ch
      else if c <? 256 then String backslash (String "x" (hex_digits 2 c ""))
      else if c <? 65536 then String backslash (String "u" (hex_digits 4 c ""))
      else String backslash (String "U" (hex_digits 8 c ""))
  end.

Definition escape (q : ascii) (s : string) : string :=
  String.concat "" (map (escape_char q) (chars s)).

(** [repr(s)]. *)
Definition repr_str (s : string) : string :=
  let q := if contains (String single_quote "") s &&
              negb (contains (String double_quote "") s)
           then double_quote else single_quote in
  String q (escape q s) ++ String q "".

Fixpoint repr (v : json) : string :=
  match v with
  | JNull => "None"
  | JBool b => if b then "True" else "False"
  | JInt n => int_text n
  | JFloat f => PyFloat.repr f
  | JStr s => repr_str s
  | JArr l => "[" ++ join ", " (map repr l) ++ "]"
  | JObj items =>
      "{" ++ join ", "
        ((fix each (l : list (string * json)) : list string :=
            match l with
            | [] => []
            | (k, x) :: rest => (repr_str k ++ ": " ++ repr x)%string :: each rest
            end) items) ++ "}"
  end.

(** [str(v)], what an f-string puts for [{v}]. *)
Definition str (v : json) : string :=
  match v with
  | JStr s => s
  | _ => repr v
  end.

(** ** Numbers *)

(** [int(v)].  The message about a string that is no integer shows the
    first 200 characters of its [repr]. *)
Definition int (v : json) : result Z :=
  match v with
  | JInt n => Ok n
  | JBool b => Ok (if b then 1 else 0)
  | JFloat f =>
      match PyFloat.trunc f with
      | Some n => Ok n
      | None =>
          match f with
          | S754_nan =>
              Raise (Exn "ValueError" "cannot convert float NaN to integer")
          | _ =>
              Raise (Exn "OverflowError"
                       "cannot convert float infinity to integer")
          end
      end
  | JStr s =>
      match PyFloat.parse_int s with
      | Some n => Ok n
      | None =>
          Raise (Exn "ValueError"
                   ("invalid literal for int() with base 10: "
                    ++ unchars (firstn 200 (chars (repr_str s)))))
      end
  | _ =>
      Raise (Exn "TypeError"
               ("int() argument must be a string, a bytes-like object or a real number, not "
                ++ quote (type_name v)))
  end.

(** [float(v)]. *)
Definition float (v : json) : result spec_float :=
  match v with
  | JInt n =>
      match PyFloat.of_Z n with
      | S754_infinity _ =>
          Raise (Exn "OverflowError" "int too large to convert to float")
      | f => Ok f
      end
  | JBool b => Ok (PyFloat.of_Z (if b then 1 else 0))
  | JFloat f => Ok f
  | JStr s =>
      match PyFloat.parse_float s with
      | Some f => Ok f
      | None =>
          Raise (Exn "ValueError"
                   ("could not convert string to float: " ++ repr_str s))
      end
  | _ =>
      Raise (Exn "TypeError"
               ("float() argument must be a string or a real number, not "
                ++ quote (type_name v)))
  end.

(** ** Equality ([==]) *)

(** Whether a float is the integer [n]. *)
Definition float_is_int (f : spec_float) (n : Z) : bool :=
  match f with
  | S754_zero _ => n =? 0
  | S754_finite s m e =>
      if 0 <=? e then (if s then - (Z.pos m * 2 ^ e) else Z.pos m * 2 ^ e) =? n
      else (Z.pos m mod 2 ^ (- e) =? 0) &&
           ((if s then - (Z.pos m / 2 ^ (- e)) else Z.pos m / 2 ^ (- e)) =? n)
  | _ => false
  end.

Definition as_int (v : json) : option Z :=
  match v with
  | JInt n => Some n
  | JBool b => Some (if b then 1 else 0)
  | _ => None
  end.

Fixpoint eq (a b : json) : bool :=
  match a, b with
  | JNull, JNull => true
  | JStr s, JStr t => String.eqb s t
  | JFloat f, JFloat g => SFeqb f g
  | JFloat f, (JInt _ | JBool _) =>
      match as_int b with Some n => float_is_int f n | None => false end
  | (JInt _ | JBool _), JFloat g =>
      match as_int a with Some n => float_is_int g n | None => false end
  | (JInt _ | JBool _), (JInt _ | JBool _) =>
      match as_int a, as_int b with
      | Some n, Some m => n =? m
      | _, _ => false
      end
  | JArr l, JArr l' =>
      (fix all2 (x y : list json) : bool :=
         match x, y with
         | [], [] => true
         | u :: x', w :: y' => eq u w && all2 x' y'
         | _, _ => false
         end) l l'
  | JObj l, JObj l' =>
      (length l =? length l')%nat &&
      (fix every (x : list (string * json)) : bool :=
         match x with
         | [] => true
         | (k, u) :: x' =>
             match lookup k l' with
             | Some w => eq u w && every x'
             | None => false
             end
         end) l
  | _, _ => false
  end.

(** ** Containers *)

Definition type_error {A} (text : string) : result A :=
  Raise (Exn "TypeError" text).

(** [x in c]. *)
Definition contains_value (x c : json) : result bool :=
  match c with
  | JStr s =>
      match x with
      | JStr t => Ok (contains t s)
      | _ =>
          type_error ("'in <string>' requires string as left operand, not "
                      ++ type_name x)
      end
  | JArr l => Ok (existsb (eq x) l)
  | JObj items =>
      match x with
      | JStr k => Ok (match lookup k items with Some _ => true | None => false end)
      | JArr _ | JObj _ =>
          type_error ("unhashable type: " ++ quote (type_name x))
      | _ => Ok false
      end
  | _ =>
      type_error ("argument of type " ++ quote (type_name c)
                  ++ " is not iterable")
  end.

(** The values a [for] loop over [v] visits. *)
Definition iterate (v : json) : result (list json) :=
  match v with
  | JArr l => Ok l
  | JStr s => Ok (map JStr (chars s))
  | JObj items => Ok (map (fun kv => JStr (fst kv)) items)
  | _ => type_error (quote (type_name v) ++ " object is not iterable")
  end.

(** [v[0]]. *)
Definition first (v : json) : result json :=
  match v with
  | JArr (x :: _) => Ok x
  | JArr [] => Raise (Exn "IndexError" "list index out of range")
  | JStr s =>
      match chars s with
      | ch :: _ => Ok (JStr ch)
      | [] => Raise (Exn "IndexError" "string index out of range")
      end
  | JObj _ => Raise (Exn "KeyError" "0")
  | _ => type_error (quote (type_name v) ++ " object is not subscriptable")
  end.

(** [v[k]] for a string key. *)
Definition item (v : json) (k : string) : result json :=
  match v with
  | JObj items =>
      match lookup k items with
      | Some x => Ok x
      | None => Raise (Exn "KeyError" (repr_str k))
      end
  | JArr _ => type_error "list indices must be integers or slices, not str"
  | JStr _ => type_error "string indices must be integers, not 'str'"
  | _ => type_error (quote (type_name v) ++ " object is not subscriptable")
  end.

(** [v[:n]]. *)
Definition slice_to (n : nat) (v : json) : result json :=
  match v with
  | JArr l => Ok (JArr (firstn n l))
  | JStr s => Ok (JStr (unchars (firstn n (chars s))))
  | JObj _ => type_error "unhashable type: 'slice'"
  | _ => type_error (quote (type_name v) ++ " object is not subscriptable")
  end.

(** [len(v)]. *)
Definition len (v : json) : result Z :=
  match v with
  | JArr l => Ok (Z.of_nat (length l))
  | JStr s => Ok (Z.of_nat (length (chars s)))
  | JObj items => Ok (Z.of_nat (length items))
  | _ => type_error ("object of type " ++ quote (type_name v) ++ " has no len()")
  end.

(** [v.split(sep)[0]] for a one-byte separator. *)
Definition split_first (v : json) (sep : ascii) : result string :=
  match v with
  | JStr s => Ok (split_head sep s)
  | _ => no_attribute v "split"
  end.

(** The strings of a list that is to be joined; [TypeError] at the first
    item that is not a string. *)
Fixpoint str_items (i : nat) (l : list json) : result (list string) :=
  match l with
  | [] => Ok []
  | JStr s :: rest =>
      tl <- str_items (S i) rest ;; Ok (s :: tl)
  | v :: _ =>
      type_error ("sequence item " ++ int_text (Z.of_nat i)
                  ++ ": expected str instance, " ++ type_name v ++ " found")
  end.

(** [sep.join(l)] on a list of values. *)
Definition join_list (sep : string) (l : list json) : result string :=
  parts <- str_items 0 l ;; Ok (join sep parts).

(** ** Strings built from values *)

Definition unsupported {A} (op : string) (v : json) : result A :=
  type_error ("unsupported operand type(s) for " ++ op ++ ": "
              ++ quote (type_name v) ++ " and 'str'").

(** [v + text] for a string [text]. *)
Definition add_str (v : json) (text : string) : result json :=
  match v with
  | JStr s => Ok (JStr (s ++ text))
  | JArr _ => type_error ("can only concatenate list (not " ++ String double_quote "str"
                         ++ String double_quote ") to list")
  | _ => unsupported "+" v
  end.

(** [v += text] for a string [text]: a list is extended by the characters
    of the text. *)
Definition iadd_str (v : json) (text : string) : result json :=
  match v with
  | JStr s => Ok (JStr (s ++ text))
  | JArr l => Ok (JArr (l ++ map JStr (chars text)))
  | _ => unsupported "+=" v
  end.

(** ** Lists under construction *)

(** [l.append(x)]. *)
Definition append {A} (l : list A) (x : A) : list A := (l ++ [x])%list.

(** [l.extend(more)]. *)
Definition extend {A} (l more : list A) : list A := (l ++ more)%list.

(** ** Loops *)

(** [for x in l: st = body(st, x)]. *)
Fixpoint for_each {S A} (body : S -> A -> result S) (l : list A) (st : S)
    : result S :=
  match l with
  | [] => Ok st
  | x :: rest => st' <- body st x ;; for_each body rest st'
  end.

(** [for i, x in enumerate(l, start): st = body(st, i, x)]. *)
Fixpoint for_enumerate {S A} (body : S -> Z -> A -> result S) (start : Z)
    (l : list A) (st : S) : result S :=
  match l with
  | [] => Ok st
  | x :: rest => st' <- body st start x ;; for_enumerate body (start + 1) rest st'
  end.

End Py.

(* ================================================================== *)
(** * The HTTP client *)
(* ================================================================== *)

Module Http.

Import Py.

(** One [client.get(url, params=..., timeout=...)]. *)
Record request : Type := Request {
  req_url : string;
  req_params : list (string * json);
  req_timeout : option Z
}.

(** What the call gives back: its status code and what [resp.json()]
    yields (it raises on a body that is not JSON). *)
Record response : Type := Response {
  status_code : Z;
  resp_json : result json
}.

(** The upstream service: its answer to a request, given the requests made
    before it.  [Raise] is a transport fault (no connection, a timeout). *)
Definition upstream : Type := list request -> request -> result response.

(** A computation that talks to the upstream: from the log of the requests
    made so far to a result and the log after it. *)
Definition io (A : Type) : Type :=
  upstream -> list request -> result A * list request.

Definition ret {A} (a : A) : io A := fun _ log => (Ok a, log).

Definition lift {A} (r : result A) : io A := fun _ log => (r, log).

Definition bind {A B} (c : io A) (k : A -> io B) : io B :=
  fun up log =>
    match c up log with
    | (Ok a, log') => k a up log'
    | (Raise e, log') => (Raise e, log')
    end.

Notation "x <~ c ;; k" := (bind c (fun x => k))
  (at level 61, c at next level, right associativity).

(** [await client.get(...)]: the request is logged, then answered. *)
Definition http_get (url : string) (params : list (string * json))
    (timeout : option Z) : io response :=
  fun up log =>
    let r := Request url params timeout in
    (up log r, log ++ [r]).

(** [try: c  except Exception as e: h e]. *)
Definition try_except {A} (c : io A) (h : exn -> io A) : io A :=
  fun up log =>
    match c up log with
    | (Ok a, log') => (Ok a, log')
    | (Raise e, log') => h e up log'
    end.

(** A [try] block that either returns a value ([Some]) or is left, at its end
    or by an exception that [except: pass] swallows ([None]). *)
Definition attempt {A} (c : io (option A)) : io (option A) :=
  try_except c (fun _ => ret None).

(** Running a computation on a fresh log. *)
Definition run {A} (c : io A) (up : upstream) : result A * list request :=
  c up [].

(** [d[k] = v] on the items of a dict: in place when the key is there, at
    the end otherwise. *)
Fixpoint dict_set (k : string) (v : json) (items : list (string * json))
    : list (string * json) :=
  match items with
  | [] => [(k, v)]
  | (k', v') :: rest =>
      if String.eqb k k' then (k, v) :: rest else (k', v') :: dict_set k v rest
  end.

(** [d.update(more)]. *)
Definition dict_update (items more : list (string * json))
    : list (string * json) :=
  fold_left (fun d kv => dict_set (fst kv) (snd kv) d) more items.

End Http.

(* ================================================================== *)
(** * The map tools ([src/tools/amap.py]) *)
(* ================================================================== *)

Module Amap.

Import PyStr Py Http.

Local Open Scope string_scope.
Local Open Scope Z_scope.

Definition AMAP_API_HOST : string := "https://restapi.amap.com/v3".
Definition AMAP_API_HOST_V4 : string := "https://restapi.amap.com/v4".

(** ** Formatting helpers *)

(** [_fmt_time]: seconds to readable time. *)
Definition _fmt_time (seconds : json) : result string :=
  n <- int seconds ;;
  let m := n / 60 in
  if m <? 60 then Ok (int_text m ++ "分钟")
  else
    let h := m / 60 in
    let m := m mod 60 in
    Ok (int_text h ++ "小时" ++ int_text m ++ "分钟").

(** [_fmt_dist]: meters to readable distance. *)
Definition _fmt_dist (meters : json) : result string :=
  m <- float meters ;;
  if PyFloat.lt m (PyFloat.of_Z 1000) then
    n <- int (JFloat m) ;; Ok (int_text n ++ "米")
  else
    Ok (PyFloat.format_1f (PyFloat.div m (PyFloat.of_Z 1000)) ++ "公里").

(** ** [_format_nav_text]: driving, walking and bicycling *)

Definition nav_icon (mode : string) : string :=
  if String.eqb mode "driving" then "🚗"
  else if String.eqb mode "walking" then "🚶"
  else "🚲".

(** The road name is put into the instruction when the instruction does not
    name it. *)
Definition nav_add_road (instr road : json) : result json :=
  named <- (if truthy road then contains_value road instr else Ok true) ;;
  if truthy road && negb named then
    cue <- contains_value (JStr "向") instr ;;
    if cue then add_str instr (" (沿" ++ str road ++ ")")
    else Ok (JStr (str instr ++ "，沿" ++ str road ++ "行驶"))
  else Ok instr.

(** The distance is added when the text does not give one. *)
Definition nav_add_distance (desc dist_val : json) : result json :=
  has_m <- contains_value (JStr "米") desc ;;
  if has_m then Ok desc
  else
    has_km <- contains_value (JStr "公里") desc ;;
    if has_km then Ok desc
    else
      n <- int dist_val ;;
      if 0 <? n then iadd_str desc (" " ++ str dist_val ++ "米")
      else Ok desc.

(** The assistant action (enter the main road, the ramp and so on). *)
Definition nav_add_assistant (desc assistant : json) : result json :=
  if truthy assistant then iadd_str desc (" (" ++ str assistant ++ ")")
  else Ok desc.

(** The body of the loop over the steps: one numbered line per step. *)
Definition nav_step (lines : list string) (i : Z) (s : json)
    : result (list string) :=
  instr <- get s "instruction" (JStr "") ;;
  road <- get s "road" (JStr "") ;;
  dist_val <- get s "distance" (JStr "0") ;;
  action <- get s "action" (JStr "") ;;
  assistant <- get s "assistant_action" (JStr "") ;;
  desc <- nav_add_road instr road ;;
  desc <- nav_add_distance desc dist_val ;;
  desc <- nav_add_assistant desc assistant ;;
  Ok (append lines (int_text (i + 1) ++ ". " ++ str desc)).

Definition _format_nav_text (mode : string) (path_data : json) : result string :=
  duration <- get path_data "duration" (JInt 0) ;;
  dur <- _fmt_time duration ;;
  distance <- get path_data "distance" (JInt 0) ;;
  dist <- _fmt_dist distance ;;
  let icon := nav_icon mode in
  let title := icon ++ " 【" ++ mode ++ "导航】" in
  let summary := "总耗时: " ++ dur ++ " | 总距离: " ++ dist in
  summary <-
    (if String.eqb mode "driving" then
       lights <- get path_data "traffic_lights" (JStr "0") ;;
       tolls <- get path_data "tolls" (JStr "0") ;;
       let summary := summary ++ " | 红绿灯: " ++ str lights ++ "个 | 过路费: "
                              ++ str tolls ++ "元" in
       restriction <- get path_data "restriction" JNull ;;
       if eq restriction (JStr "1") then Ok (summary ++ " (⚠️含限行区域)")
       else Ok summary
     else Ok summary) ;;
  let lines := [title; summary; "--------------------"; "📝 详细路线:"] in
  steps <- get path_data "steps" (JArr []) ;;
  steps <- iterate steps ;;
  lines <- for_enumerate nav_step 0 steps lines ;;
  Ok (join newline lines).

(** ** [_format_transit_text]: public transport, the first three plans *)

(** [a.get(k) and a[k].get(k')] as a condition. *)
Definition has_nested (a : json) (k k' : string) : result bool :=
  x <- get a k JNull ;;
  if truthy x then
    inner <- item a k ;;
    y <- get inner k' JNull ;;
    Ok (truthy y)
  else Ok false.

(** The body of the loop over the segments of a plan: it grows the transfer
    chain and the detail lines. *)
Definition transit_segment (st : list json * list string) (seg : json)
    : result (list json * list string) :=
  let '(chain, details) := st in
  is_bus <- has_nested seg "bus" "buslines" ;;
  if is_bus then
    bus <- item seg "bus" ;;
    buslines <- item bus "buslines" ;;
    b <- first buslines ;;
    name <- get b "name" (JStr "") ;;
    line <- split_first name "(" ;;
    dep_stop <- get b "departure_stop" (JObj []) ;;
    dep <- get dep_stop "name" (JStr "起点") ;;
    arr_stop <- get b "arrival_stop" (JObj []) ;;
    arr <- get arr_stop "name" (JStr "终点") ;;
    stops <- get b "num_stops" (JStr "--") ;;
    Ok (append chain (JStr line),
        append details ("  • 🚌 乘 " ++ line ++ ": " ++ str dep ++ " 上车 -> "
                        ++ str arr ++ " 下车 (坐" ++ str stops ++ "站)"))
  else
    is_rail <- has_nested seg "railway" "name" ;;
    if is_rail then
      r <- item seg "railway" ;;
      name <- get r "name" JNull ;;
      dep_stop <- get r "departure_stop" (JObj []) ;;
      dep <- get dep_stop "name" JNull ;;
      arr_stop <- get r "arrival_stop" (JObj []) ;;
      arr <- get arr_stop "name" JNull ;;
      Ok (append chain name,
          append details ("  • 🚄 乘 " ++ str name ++ ": " ++ str dep ++ " -> "
                          ++ str arr))
    else
      walking <- get seg "walking" JNull ;;
      long_walk <-
        (if truthy walking then
           w <- item seg "walking" ;;
           d <- get w "distance" (JInt 0) ;;
           n <- int d ;;
           Ok (50 <? n)
         else Ok false) ;;
      if long_walk then
        w <- item seg "walking" ;;
        dv <- item w "distance" ;;
        d <- _fmt_dist dv ;;
        Ok (chain, append details ("  • 🚶 步行 " ++ d))
      else Ok (chain, details).

(** The body of the loop over the plans. *)
Definition transit_plan (lines : list string) (idx : Z) (t : json)
    : result (list string) :=
  duration <- get t "duration" (JInt 0) ;;
  dur <- _fmt_time duration ;;
  cost_val <- get t "cost" (JInt 0) ;;
  cost <- float cost_val ;;
  walking_distance <- get t "walking_distance" (JInt 0) ;;
  walk <- _fmt_dist walking_distance ;;
  let lines := append lines "" in
  let lines := append lines ("=== 方案 " ++ int_text (idx + 1) ++ " (" ++ dur ++ ") ===") in
  let lines := append lines ("💰 票价: " ++ PyFloat.repr cost ++ "元 | 🚶 步行: " ++ walk) in
  segments <- get t "segments" (JArr []) ;;
  segments <- iterate segments ;;
  st <- for_each transit_segment segments ([], []) ;;
  let '(chain, details) := st in
  chain_text <- join_list " -> " chain ;;
  let lines := append lines ("📍 路线: " ++ chain_text) in
  if idx =? 0 then Ok (extend (append lines "📝 详细步骤:") details)
  else Ok lines.

Definition _format_transit_text (transits : json) : result string :=
  if negb (truthy transits) then Ok "未找到公交方案"
  else
    let lines := ["🚌 【公交/地铁导航】(推荐Top3)"] in
    top <- slice_to 3 transits ;;
    top <- iterate top ;;
    lines <- for_enumerate transit_plan 0 top lines ;;
    Ok (join newline lines).

(** ** The tools *)

Section Tools.

(** The module constant [AMAP_API_KEY = os.getenv("AMAP_API_KEY")], read
    once when the module is loaded. *)
Variable AMAP_API_KEY : option string.

(** [not AMAP_API_KEY]. *)
Definition key_missing : bool :=
  match AMAP_API_KEY with
  | Some k => String.eqb k ""
  | None => true
  end.

Definition key_value : json :=
  match AMAP_API_KEY with
  | Some k => JStr k
  | None => JNull
  end.

(** An [Optional[str]] as a value, and as a condition. *)
Definition opt_value (o : option string) : json :=
  match o with
  | Some s => JStr s
  | None => JNull
  end.

Definition nonempty (s : string) : bool := negb (String.eqb s "").

(** ** [_resolve_location]: coordinates or an address *)

(** [-?\d+(\.\d+)?]. *)
Definition signed_decimal : regex :=
  ReCat (ReOpt (ReLit "-"))
    (ReCat (RePlus (ReChar is_digit))
       (ReOpt (ReCat (ReLit ".") (RePlus (ReChar is_digit))))).

(** [^-?\d+(\.\d+)?,-?\d+(\.\d+)?$]. *)
Definition coordinate_pattern : regex :=
  ReCat signed_decimal (ReCat (ReLit ",") signed_decimal).

Definition is_coordinate (s : string) : bool :=
  re_match_anchored coordinate_pattern s.

(** What the function returns: location, adcode and name, each a value of
    the upstream answer or [None]. *)
Definition location : Type := (json * json * json)%type.

(** The query of the geocoding request. *)
Definition geo_params (input_str : string) (city : option string)
    : list (string * json) :=
  let geo_params :=
    [("key", key_value); ("address", JStr input_str); ("output", JStr "JSON")] in
  if truthy (opt_value city) then dict_set "city" (opt_value city) geo_params
  else geo_params.

(** What the first [try] block makes of the answer: the first geocode, when
    the block returns one. *)
Definition geocode_match (resp : response) : result (option location) :=
  if status_code resp =? 200 then
    body <- resp_json resp ;;
    status <- get body "status" JNull ;;
    if eq status (JStr "1") then
      geocodes <- get body "geocodes" JNull ;;
      g <- first geocodes ;;
      loc <- get g "location" JNull ;;
      adcode <- get g "adcode" JNull ;;
      name <- get g "formatted_address" JNull ;;
      Ok (Some (loc, adcode, name))
    else Ok None
  else Ok None.

(** The first [try] block: the geocoding endpoint. *)
Definition resolve_by_geocode (input_str : string) (city : option string)
    : io (option location) :=
  resp <~ http_get (AMAP_API_HOST ++ "/geocode/geo")
            (geo_params input_str city) None ;;
  lift (geocode_match resp).

(** The query of the POI text search. *)
Definition poi_params (input_str : string) (city : option string)
    : list (string * json) :=
  let poi_params :=
    [("key", key_value); ("keywords", JStr input_str);
     ("citylimit", JStr (if truthy (opt_value city) then "true" else "false"));
     ("offset", JInt 1)] in
  if truthy (opt_value city) then dict_set "city" (opt_value city) poi_params
  else poi_params.

(** What the second [try] block makes of the answer: the first POI, when
    the block returns one. *)
Definition poi_match (resp : response) : result (option location) :=
  if status_code resp =? 200 then
    body <- resp_json resp ;;
    status <- get body "status" JNull ;;
    if eq status (JStr "1") then
      pois <- get body "pois" JNull ;;
      p <- first pois ;;
      loc <- get p "location" JNull ;;
      adcode <- get p "adcode" JNull ;;
      name <- get p "name" JNull ;;
      Ok (Some (loc, adcode, name))
    else Ok None
  else Ok None.

(** The second [try] block: the POI text search. *)
Definition resolve_by_poi (input_str : string) (city : option string)
    : io (option location) :=
  resp <~ http_get (AMAP_API_HOST ++ "/place/text")
            (poi_params input_str city) None ;;
  lift (poi_match resp).

Definition _resolve_location (input_str : string) (city : option string)
    : io location :=
  if negb (nonempty input_str) then ret (JNull, JNull, JNull)
  else if is_coordinate (strip input_str) then
    ret (JStr (strip input_str), JNull, JStr input_str)
  else
    geo <~ attempt (resolve_by_geocode input_str city) ;;
    match geo with
    | Some found => ret found
    | None =>
        poi <~ attempt (resolve_by_poi input_str city) ;;
        match poi with
        | Some found => ret found
        | None => ret (JNull, JNull, JStr input_str)
        end
    end.

(** ** [get_location_by_ip] *)

Definition get_location_by_ip (ip : option string) : io string :=
  if key_missing then ret "Error: No API Key"
  else
    let params :=
      if truthy (opt_value ip) then [("key", key_value); ("ip", opt_value ip)]
      else [("key", key_value)] in
    resp <~ http_get (AMAP_API_HOST ++ "/ip") params None ;;
    d <~ lift (resp_json resp) ;;
    province <~ lift (get d "province" JNull) ;;
    city <~ lift (get d "city" JNull) ;;
    ret ("IP定位结果: " ++ str province ++ str city).

(** ** [geocode_address] *)

Definition geocode_address (address : string) (city : option string)
    : io string :=
  if key_missing then ret "Error: No API Key"
  else
    found <~ _resolve_location address city ;;
    let '(loc, code, fmt) := found in
    if negb (truthy loc) then ret "未找到该地址"
    else ret ("地址: " ++ str fmt ++ newline ++ "坐标: " ++ str loc ++ newline
              ++ "区域代码: " ++ str code).

(** ** [regeocode_location] *)

(** The [try] block that corrects the order of the coordinates: the
    location when the block ends, unless it raises. *)
Definition swap_coordinates (location : string) : result string :=
  match split "," location with
  | [p0; p1] =>
      a <- float (JStr p0) ;;
      b <- float (JStr p1) ;;
      if PyFloat.lt a b then
        b <- float (JStr p1) ;;
        if PyFloat.lt (PyFloat.of_Z 60) b then Ok (p1 ++ "," ++ p0)
        else Ok location
      else Ok location
  | _ => Ok location
  end.

(** The block with its [except: pass]: what is raised inside leaves the
    location as it was. *)
Definition corrected_location (location : string) : string :=
  match swap_coordinates location with
  | Ok l => l
  | Raise _ => location
  end.

Definition regeocode_location (location : string) : io string :=
  if key_missing then ret "Error: No API Key"
  else
    let location := corrected_location location in
    let params :=
      [("key", key_value); ("location", JStr location);
       ("extensions", JStr "base"); ("output", JStr "JSON")] in
    resp <~ http_get (AMAP_API_HOST ++ "/geocode/regeo") params None ;;
    body <~ lift (resp_json resp) ;;
    regeocode <~ lift (get body "regeocode" (JObj [])) ;;
    address <~ lift (get regeocode "formatted_address" JNull) ;;
    ret ("位置解析: " ++ str address).

(** ** [plan_route] *)

Record mode_entry : Type := ModeEntry { ver : string; url : string }.

Definition mode_config : list (string * mode_entry) :=
  [("driving", ModeEntry "v3" "/direction/driving");
   ("walking", ModeEntry "v3" "/direction/walking");
   ("transit", ModeEntry "v3" "/direction/transit/integrated");
   ("bicycling", ModeEntry "v4" "/direction/bicycling")].

Fixpoint config_get (mode : string) (table : list (string * mode_entry))
    : option mode_entry :=
  match table with
  | [] => None
  | (k, e) :: rest => if String.eqb mode k then Some e else config_get mode rest
  end.

(** [s in [a; b; ...]]. *)
Definition one_of (s : string) (l : list string) : bool :=
  existsb (String.eqb s) l.

(** The four alias statements, in the order of the source. *)
Definition alias_mode (mode : string) : string :=
  let mode := if one_of mode ["car"] then "driving" else mode in
  let mode := if one_of mode ["walk"] then "walking" else mode in
  let mode := if one_of mode ["bike"; "ride"; "cycling"] then "bicycling" else mode in
  let mode := if one_of mode ["bus"; "subway"] then "transit" else mode in
  mode.

(** The query of the direction request. *)
Definition route_params (cfg : mode_entry) (mode city : string) (strategy : Z)
    (ori_loc des_loc : json) : list (string * json) :=
  let params :=
    [("key", key_value); ("origin", ori_loc); ("destination", des_loc)] in
  let params :=
    if String.eqb (ver cfg) "v3"
    then dict_update params [("output", JStr "JSON"); ("extensions", JStr "all")]
    else params in
  if String.eqb mode "driving" then dict_set "strategy" (JInt 10) params
  else if String.eqb mode "transit" then
    let c := if nonempty city then city else "北京" in
    dict_update params
      [("city", JStr c); ("cityd", JStr c); ("strategy", JInt strategy)]
  else params.

(** The text made of the answer [raw] of the direction request. *)
Definition route_text (cfg : mode_entry) (mode : string)
    (ori_name des_name raw : json) : result string :=
  let result_text :=
    "【路径规划】" ++ newline ++ "起点: " ++ str ori_name ++ newline
    ++ "终点: " ++ str des_name ++ newline in
  if String.eqb (ver cfg) "v4" then
    errcode <- get raw "errcode" JNull ;;
    if negb (eq errcode (JInt 0)) then
      errmsg <- get raw "errmsg" JNull ;;
      Ok ("API错误: " ++ str errmsg)
    else
      data <- get raw "data" (JObj []) ;;
      paths <- get data "paths" (JArr []) ;;
      if truthy paths then
        p <- first paths ;;
        text <- _format_nav_text mode p ;;
        Ok (result_text ++ text)
      else Ok (result_text ++ "未找到骑行路线")
  else if String.eqb mode "transit" then
    status <- get raw "status" JNull ;;
    if negb (eq status (JStr "1")) then
      info <- get raw "info" JNull ;;
      Ok ("API错误: " ++ str info)
    else
      route <- get raw "route" (JObj []) ;;
      transits <- get route "transits" (JArr []) ;;
      text <- _format_transit_text transits ;;
      Ok (result_text ++ text)
  else
    status <- get raw "status" JNull ;;
    if negb (eq status (JStr "1")) then
      info <- get raw "info" JNull ;;
      Ok ("API错误: " ++ str info)
    else
      route <- get raw "route" (JObj []) ;;
      paths <- get route "paths" (JArr []) ;;
      if truthy paths then
        p <- first paths ;;
        text <- _format_nav_text mode p ;;
        Ok (result_text ++ text)
      else Ok (result_text ++ "未找到" ++ mode ++ "路线").

Definition plan_route (origin destination mode city : string) (strategy : Z)
    : io string :=
  if key_missing then ret "Error: No API Key"
  else
    let mode := alias_mode mode in
    match config_get mode mode_config with
    | None => ret ("不支持的模式: " ++ mode)
    | Some cfg =>
        try_except
          (ori <~ _resolve_location origin (Some city) ;;
           let '(ori_loc, _, ori_name) := ori in
           des <~ _resolve_location destination (Some city) ;;
           let '(des_loc, _, des_name) := des in
           if negb (truthy ori_loc) || negb (truthy des_loc) then
             ret ("无法定位起点(" ++ origin ++ ")或终点(" ++ destination ++ ")")
           else
             let host := if String.eqb (ver cfg) "v4" then AMAP_API_HOST_V4
                         else AMAP_API_HOST in
             let params := route_params cfg mode city strategy ori_loc des_loc in
             resp <~ http_get (host ++ url cfg) params None ;;
             raw <~ lift (resp_json resp) ;;
             lift (route_text cfg mode ori_name des_name raw))
          (fun e => ret ("Request Error: " ++ exn_text e))
    end.

(** The defaults of the signature: [mode="driving"], [city=""],
    [strategy=0]. *)
Definition plan_route_call (origin destination : string)
    (mode city : option string) (strategy : option Z) : io string :=
  plan_route origin destination
    (match mode with Some m => m | None => "driving" end)
    (match city with Some c => c | None => "" end)
    (match strategy with Some n => n | None => 0 end).

(** ** [poi_search] *)

(** The outcome of the chain of [if]/[elif] on the parameters: an early
    return, or the request to make and the label of the search. *)
Inductive selection : Type :=
| Stop : string -> selection
| Go : string -> list (string * json) -> string -> selection.

Definition poi_select (keywords city center : string) (radius : Z)
    (polygon poi_id : string) (limit : Z) : selection :=
  let params :=
    [("key", key_value); ("output", JStr "json"); ("extensions", JStr "all")] in
  if nonempty poi_id then
    Go (AMAP_API_HOST ++ "/place/detail")
       (dict_set "id" (JStr poi_id) params)
       ("ID查询(" ++ poi_id ++ ")")
  else if nonempty polygon then
    if negb (nonempty keywords) then Stop "❌ 错误: 多边形搜索需要 keywords。"
    else
      Go (AMAP_API_HOST ++ "/place/polygon")
         (dict_update params
            [("polygon", JStr polygon); ("keywords", JStr keywords);
             ("offset", JInt limit); ("page", JInt 1)])
         "多边形区域搜索"
  else if nonempty center then
    if negb (nonempty keywords) then Stop "❌ 错误: 周边搜索需要 keywords。"
    else
      Go (AMAP_API_HOST ++ "/place/around")
         (dict_update params
            [("location", JStr center); ("keywords", JStr keywords);
             ("radius", JInt radius); ("sortrule", JStr "distance");
             ("offset", JInt limit); ("page", JInt 1)])
         ("周边" ++ int_text radius ++ "米")
  else if nonempty keywords then
    let params :=
      dict_update params
        [("keywords", JStr keywords); ("offset", JInt limit); ("page", JInt 1)] in
    let params :=
      if nonempty city
      then dict_set "citylimit" (JStr "true") (dict_set "city" (JStr city) params)
      else params in
    Go (AMAP_API_HOST ++ "/place/text") params
       ("城市(" ++ (if nonempty city then city else "全国") ++ ")")
  else Stop "❌ 错误: 请至少提供 keywords, center, polygon 或 poi_id 其中之一。".

(** [x = sep.join(x)] when [x] is a list. *)
Definition joined_if_list (sep : string) (v : json) : result json :=
  match v with
  | JArr l => text <- join_list sep l ;; Ok (JStr text)
  | _ => Ok v
  end.

(** The body of the loop over the POIs found: one entry per POI. *)
Definition poi_entry (result_lines : list string) (idx : Z) (poi : json)
    : result (list string) :=
  name <- get poi "name" (JStr "未知") ;;
  addr <- get poi "address" (JStr "无地址") ;;
  addr <- joined_if_list "" addr ;;
  distance <- get poi "distance" (JStr "") ;;
  dist_info <-
    (if truthy distance then
       d_val <- float distance ;;
       dist_str <-
         (if PyFloat.lt d_val (PyFloat.of_Z 1000) then
            n <- int (JFloat d_val) ;; Ok (int_text n ++ "米")
          else
            Ok (PyFloat.format_1f (PyFloat.div d_val (PyFloat.of_Z 1000))
                ++ "公里")) ;;
       Ok (" (📏 距中心 " ++ dist_str ++ ")")
     else Ok "") ;;
  type <- get poi "type" (JStr "") ;;
  p_type <- split_first type ";" ;;
  tel <- get poi "tel" (JStr "") ;;
  tel <- joined_if_list " " tel ;;
  p_id <- get poi "id" (JStr "") ;;
  let entry :=
    int_text idx ++ ". **" ++ str name ++ "**" ++ dist_info ++ newline
    ++ "   📍 " ++ str addr ++ newline
    ++ "   🏷️ " ++ p_type ++ " | 🆔 " ++ str p_id in
  let entry := if truthy tel then entry ++ " | 📞 " ++ str tel else entry in
  biz <- get poi "biz_ext" (JObj []) ;;
  let entry :=
    match biz with
    | JObj items =>
        let rating := match lookup "rating" items with Some v => v | None => JNull end in
        let cost := match lookup "cost" items with Some v => v | None => JNull end in
        let entry :=
          match rating with
          | JStr r =>
              if truthy rating && isdigit (remove_char "." r)
              then entry ++ newline ++ "   ⭐ 评分: " ++ r ++ "分"
              else entry
          | _ => entry
          end in
        if truthy cost && negb (eq cost (JArr []))
        then entry ++ " | 💰 人均: ¥" ++ str cost
        else entry
    | _ => entry
    end in
  Ok (append result_lines entry).

(** The text made of the answer of the search request.  (The source has,
    before the test of an empty [pois], an [if] for the ID search whose body
    is [pass].) *)
Definition poi_results (search_mode : string) (resp : response) : result string :=
  if negb (status_code resp =? 200) then
    Ok ("❌ HTTP请求失败: " ++ int_text (status_code resp))
  else
    data <- resp_json resp ;;
    status <- get data "status" JNull ;;
    if negb (eq status (JStr "1")) then
      info <- get data "info" JNull ;;
      Ok ("❌ 高德API错误: " ++ str info)
    else
      pois <- get data "pois" (JArr []) ;;
      if negb (truthy pois) then
        Ok ("⚠️ 在[" ++ search_mode ++ "]未找到相关结果。")
      else
        count <- len pois ;;
        let result_lines :=
          ["🔍 [" ++ search_mode ++ "] 找到 " ++ int_text count ++ " 个结果:"] in
        items <- iterate pois ;;
        result_lines <- for_enumerate poi_entry 1 items result_lines ;;
        Ok (join (newline ++ newline) result_lines).

Definition poi_search (keywords city center : string) (radius : Z)
    (polygon poi_id : string) (limit : Z) : io string :=
  if key_missing then ret "❌ 错误: 未配置 AMAP_API_KEY。"
  else
    match poi_select keywords city center radius polygon poi_id limit with
    | Stop text => ret text
    | Go url params search_mode =>
        try_except
          (resp <~ http_get url params (Some 10) ;;
           lift (poi_results search_mode resp))
          (fun e => ret ("❌ 运行异常: " ++ exn_text e))
    end.

(** The defaults of the signature: every string [""], [radius=3000],
    [limit=10]. *)
Definition poi_search_call (keywords city center : option string)
    (radius : option Z) (polygon poi_id : option string) (limit : option Z)
    : io string :=
  let text o := match o with Some s => s | None => "" end in
  poi_search (text keywords) (text city) (text center)
    (match radius with Some r => r | None => 3000 end)
    (text polygon) (text poi_id)
    (match limit with Some n => n | None => 10 end).

End Tools.

End Amap.

(* ================================================================== *)
(** * Notions of the specification *)
(* ================================================================== *)

Module Spec.

Import PyStr Py Http Amap.

Local Open Scope string_scope.
Local Open Scope Z_scope.

(** [sub] occurs in [s]. *)
Definition occurs_in (sub s : string) : Prop :=
  exists before after, s = before ++ sub ++ after.

(** The API key is configured: the tools get past their first line. *)
Definition configured (key : option string) : Prop := key_missing key = false.

(** The names a travel mode may be given: the four modes and their aliases. *)
Definition canonical_modes : list string :=
  ["driving"; "walking"; "transit"; "bicycling"].

Definition mode_aliases : list string :=
  ["car"; "walk"; "bike"; "ride"; "cycling"; "bus"; "subway"].

(** The four endpoints of the POI search. *)
Definition detail_url : string := AMAP_API_HOST ++ "/place/detail".
Definition polygon_url : string := AMAP_API_HOST ++ "/place/polygon".
Definition around_url : string := AMAP_API_HOST ++ "/place/around".
Definition text_url : string := AMAP_API_HOST ++ "/place/text".

(** The search request, as [poi_search] sends it. *)
Definition search_request (url : string) (params : list (string * json))
    : request :=
  Request url params (Some 10).

(** The two requests of the resolver, as [_resolve_location] sends them. *)
Definition geocode_request (key : option string) (input : string)
    (city : option string) : request :=
  Request (AMAP_API_HOST ++ "/geocode/geo") (geo_params key input city) None.

Definition poi_request (key : option string) (input : string)
    (city : option string) : request :=
  Request (AMAP_API_HOST ++ "/place/text") (poi_params key input city) None.

(** An attempt of the resolver fails: the request meets a transport fault,
    or the block that reads the answer raises, or it ends without a first
    result (a status code other than 200, an upstream status other than
    ["1"]). *)
Definition yields_nothing (read : response -> result (option location))
    (answer : result response) : Prop :=
  match answer with
  | Raise _ => True
  | Ok resp =>
      match read resp with
      | Ok (Some _) => False
      | _ => True
      end
  end.

(** An attempt of the resolver produces no coordinate, in the words of the
    specification: it fails as above, or the first result it returns has
    no location. *)
Definition no_coordinate (read : response -> result (option location))
    (answer : result response) : Prop :=
  match answer with
  | Raise _ => True
  | Ok resp =>
      match read resp with
      | Ok (Some (loc, _, _)) => loc = JNull
      | _ => True
      end
  end.

(** The direction request, as [plan_route] sends it once both ends are
    located. *)
Definition route_request (key : option string) (cfg : mode_entry)
    (mode city : string) (strategy : Z) (ori_loc des_loc : json) : request :=
  Request
    ((if String.eqb (ver cfg) "v4" then AMAP_API_HOST_V4 else AMAP_API_HOST)
     ++ url cfg)
    (route_params key cfg mode city strategy ori_loc des_loc) None.

(** The opening of every text that [plan_route] makes of an answer. *)
Definition route_header (ori_name des_name : json) : string :=
  "【路径规划】" ++ newline ++ "起点: " ++ str ori_name ++ newline
  ++ "终点: " ++ str des_name ++ newline.

(** The text for an end that could not be located. *)
Definition unlocated_text (origin destination : string) : string :=
  "无法定位起点(" ++ origin ++ ")或终点(" ++ destination ++ ")".

(** What [except Exception as e] makes of an exception. *)
Definition request_error (e : exn) : string := "Request Error: " ++ exn_text e.

(** [plan_route] has located both ends and its direction request was
    answered with the JSON value [raw]. *)
Definition route_answered (key : option string) (up : upstream)
    (origin destination mode city : string) (strategy : Z)
    (cfg : mode_entry) (ori_name des_name raw : json) : Prop :=
  config_get (alias_mode mode) mode_config = Some cfg /\
  exists ori_loc ori_code des_loc des_code log1 log2 code,
    _resolve_location key origin (Some city) up []
    = (Ok (ori_loc, ori_code, ori_name), log1) /\
    _resolve_location key destination (Some city) up log1
    = (Ok (des_loc, des_code, des_name), log2) /\
    truthy ori_loc = true /\ truthy des_loc = true /\
    up log2 (route_request key cfg (alias_mode mode) city strategy ori_loc des_loc)
    = Ok (Response code (Ok raw)).

(** The request of a driving route between two located ends. *)
Definition driving_request (key : option string) (origin destination : string)
    : request :=
  Request (AMAP_API_HOST ++ "/direction/driving")
    [("key", key_value key); ("origin", JStr origin);
     ("destination", JStr destination); ("output", JStr "JSON");
     ("extensions", JStr "all"); ("strategy", JInt 10)]
    None.

(** *** The enrichment of a step, in the words of the specification *)












(** *** The transit narration, in the words of the specification *)

Definition transit_title : string := "🚌 【公交/地铁导航】(推荐Top3)".

(** The kind of a segment, as the narrator tells it: a bus segment has bus
    lines, a railway segment has none but a railway name, and what has
    neither is a walking segment (or nothing at all). *)
Definition is_bus (seg : json) : Prop :=
  has_nested seg "bus" "buslines" = Ok true.

Definition is_railway (seg : json) : Prop :=
  has_nested seg "bus" "buslines" = Ok false /\
  has_nested seg "railway" "name" = Ok true.

Definition is_walking (seg : json) : Prop :=
  has_nested seg "bus" "buslines" = Ok false /\
  has_nested seg "railway" "name" = Ok false.

(** The lines of the plan at index [idx]: a blank line, the summary (heading
    and fares), the transfer chain and, for the first plan only, the
    details. *)
Definition plan_block (idx : Z) (dur fare walk : string)
    (chain details : list string) : list string :=
  "" :: ("=== 方案 " ++ int_text (idx + 1) ++ " (" ++ dur ++ ") ===")
     :: ("💰 票价: " ++ fare ++ "元 | 🚶 步行: " ++ walk)
     :: ("📍 路线: " ++ join " -> " chain)
     :: (if idx =? 0 then "📝 详细步骤:" :: details else []).

(** The blocks of lines of the plans [ts], in their order, the first plan
    at index [idx]. *)
Inductive rendered : Z -> list json -> list (list string) -> Prop :=
| rendered_nil : forall idx, rendered idx [] []
| rendered_cons : forall idx t ts block blocks,
    transit_plan [] idx t = Ok block ->
    rendered (idx + 1) ts blocks ->
    rendered idx (t :: ts) (block :: blocks).

(** The plan [t] reads as these figures, this chain and these details:
    duration, fare and walking distance are rendered, the loop over the
    segments ends with the chain and the details, and the chain is made of
    strings. *)
Definition plan_reads (t : json) (dur fare walk : string)
    (chain details : list string) : Prop :=
  exists duration cost fare_value walking_distance segments segs chain_values,
    get t "duration" (JInt 0) = Ok duration /\ _fmt_time duration = Ok dur /\
    get t "cost" (JInt 0) = Ok cost /\ float cost = Ok fare_value /\
    fare = PyFloat.repr fare_value /\
    get t "walking_distance" (JInt 0) = Ok walking_distance /\
    _fmt_dist walking_distance = Ok walk /\
    get t "segments" (JArr []) = Ok segments /\ iterate segments = Ok segs /\
    for_each transit_segment segs ([], []) = Ok (chain_values, details) /\
    str_items 0 chain_values = Ok chain.

(** *** The language of a regular expression *)

(** The lists of characters a regular expression stands for. *)
Inductive lang : regex -> list string -> Prop :=
| lang_eps : lang ReEps []
| lang_char : forall p c, p c = true -> lang (ReChar p) [c]
| lang_cat : forall a b x y,
    lang a x -> lang b y -> lang (ReCat a b) (x ++ y)
| lang_alt_l : forall a b x, lang a x -> lang (ReAlt a b) x
| lang_alt_r : forall a b x, lang b x -> lang (ReAlt a b) x
| lang_star_nil : forall a, lang (ReStar a) []
| lang_star_cons : forall a x y,
    lang a x -> lang (ReStar a) y -> lang (ReStar a) (x ++ y).

(** Every class of characters of the expression has the property [Q]. *)
Fixpoint classes (Q : (string -> bool) -> Prop) (r : regex) : Prop :=
  match r with
  | ReFail | ReEps => True
  | ReChar p => Q p
  | ReCat a b | ReAlt a b => classes Q a /\ classes Q b
  | ReStar a => classes Q a
  end.

(** The string is a coordinate literal: the pattern matches all of it. *)
Definition coordinate_literal (s : string) : Prop :=
  matches coordinate_pattern (chars s) = true.

(** *** Notions of the further properties *)

(** What an attempt of the resolver gives: the first result that its [try]
    block returns, if it returns one. *)
Definition attempt_result (read : response -> result (option location))
    (answer : result response) : option location :=
  match answer with
  | Ok resp => match read resp with Ok found => found | Raise _ => None end
  | Raise _ => None
  end.

(** The entry [k] of the items of an object, [None] when it has none
    ([d.get(k)]). *)
Definition field (items : list (string * json)) (k : string) : json :=
  match lookup k items with
  | Some v => v
  | None => JNull
  end.

(** The one request of [get_location_by_ip]: the address is sent when one
    is given and is not empty. *)
Definition ip_request (key : option string) (ip : option string) : request :=
  Request (AMAP_API_HOST ++ "/ip")
    (match ip with
     | Some a =>
         if nonempty a then [("key", key_value key); ("ip", JStr a)]
         else [("key", key_value key)]
     | None => [("key", key_value key)]
     end)
    None.

(** The one request of [regeocode_location], for the location it sends. *)
Definition regeo_request (key : option string) (location : string) : request :=
  Request (AMAP_API_HOST ++ "/geocode/regeo")
    [("key", key_value key); ("location", JStr location);
     ("extensions", JStr "base"); ("output", JStr "JSON")]
    None.

(** The request is authenticated: the API key is set and not empty, and the
    request carries it as its parameter [key]. *)
Definition authenticated (key : option string) (r : request) : Prop :=
  exists k, key = Some k /\ k <> "" /\ lookup "key" (req_params r) = Some (JStr k).

(** The text [poi_search] makes of an exception. *)
Definition search_error (e : exn) : string := "❌ 运行异常: " ++ exn_text e.

(** The heading of the list of POIs. *)
Definition poi_heading (search_mode : string) (count : Z) : string :=
  "🔍 [" ++ search_mode ++ "] 找到 " ++ int_text count ++ " 个结果:".

(** The text of a result is the given one. *)
Definition says (r : result string) (text : string) : bool :=
  match r with
  | Ok t => String.eqb t text
  | Raise _ => false
  end.

(** The summary line of a navigation: duration and distance and, for
    driving only, the traffic lights, the tolls and the warning of a
    restricted area. *)
Definition nav_summary (mode dur dist : string) (lights tolls restriction : json)
    : string :=
  "总耗时: " ++ dur ++ " | 总距离: " ++ dist ++
  (if String.eqb mode "driving" then
     " | 红绿灯: " ++ str lights ++ "个 | 过路费: " ++ str tolls ++ "元" ++
     (if eq restriction (JStr "1") then " (⚠️含限行区域)" else "")
   else "").

(** The text of a list of decimal digits, the first digit first. *)
Fixpoint digits_text (ds : list Z) : string :=
  match ds with
  | [] => EmptyString
  | d :: rest => String (digit_char d) (digits_text rest)
  end.

(** The requests a resolution may make: none, or the geocoding request, or
    the geocoding request followed by the POI text search. *)
Definition resolver_requests (key : option string) (input : string)
    (city : option string) (more : list request) : Prop :=
  more = [] \/
  more = [geocode_request key input city] \/
  more = [geocode_request key input city; poi_request key input city].


(** The most digits CPython converts between an integer and its decimal
    text, unless the interpreter is set otherwise: beyond them [int] of a
    string and [str] of an integer raise. *)
Definition int_max_str_digits : Z := 4300.

End Spec.

(* ================================================================== *)
(** * Scenarios: concrete upstream services and answers *)
(* ================================================================== *)

Module Scenario.

Import PyStr Py Http Amap.

Local Open Scope string_scope.
Local Open Scope Z_scope.

(** An upstream that cannot be reached. *)
Definition no_upstream : upstream :=
  fun _ _ => Raise (Exn "ConnectError" "All connection attempts failed").

(** An upstream that answers every request with status ["1"] and no
    result at all: no geocode, no POI. *)
Definition nothing_found : upstream :=
  fun _ _ =>
    Ok (Response 200
          (Ok (JObj [("status", JStr "1"); ("count", JStr "0");
                     ("geocodes", JArr []); ("pois", JArr [])]))).

(** What a request of the resolver asks for: its [address] or its
    [keywords]. *)
Definition asked_place (r : request) : json :=
  match lookup "address" (req_params r) with
  | Some v => v
  | None =>
      match lookup "keywords" (req_params r) with
      | Some v => v
      | None => JNull
      end
  end.

(** An upstream that knows one place by its name, and no other. *)
Definition knows (place : string) : upstream :=
  fun log r =>
    if eq (asked_place r) (JStr place) then
      Ok (Response 200
            (Ok (JObj [("status", JStr "1"); ("count", JStr "1");
                       ("geocodes",
                        JArr [JObj [("formatted_address", JStr place);
                                    ("adcode", JStr "110101");
                                    ("location", JStr "116.397,39.909")]])])))
    else nothing_found log r.

(** An upstream whose geocoder cannot be reached and whose POI text search
    lists one place that has a name and an area code, and no location. *)
Definition place_without_location : upstream :=
  fun _ r =>
    match lookup "keywords" (req_params r) with
    | Some _ =>
        Ok (Response 200
              (Ok (JObj [("status", JStr "1"); ("count", JStr "1");
                         ("pois",
                          JArr [JObj [("name", JStr "全家便利店(东单店)");
                                      ("adcode", JStr "110101")]])])))
    | None => Raise (Exn "ConnectError" "All connection attempts failed")
    end.

(** An upstream whose geocoder answers every address with one geocode that
    has a formatted address and an area code, and no location. *)
Definition geocode_without_location : upstream :=
  fun _ _ =>
    Ok (Response 200
          (Ok (JObj [("status", JStr "1"); ("count", JStr "1");
                     ("geocodes",
                      JArr [JObj [("formatted_address", JStr "北京市东城区");
                                  ("adcode", JStr "110101")]])]))).

(** A driving path of two steps. *)
Definition short_drive : json :=
  JObj [("distance", JStr "850"); ("duration", JStr "600");
        ("traffic_lights", JStr "2"); ("tolls", JStr "0");
        ("steps",
         JArr [JObj [("instruction", JStr "向东行驶");
                     ("road", JStr "东长安街"); ("distance", JStr "800");
                     ("action", JStr "右转"); ("assistant_action", JArr [])];
               JObj [("instruction", JStr "向南行驶50米到达目的地");
                     ("road", JArr []); ("distance", JStr "50");
                     ("action", JArr []);
                     ("assistant_action", JStr "到达目的地")]])].

(** An upstream that answers every request with a v3 success carrying that
    one path. *)
Definition driving_found : upstream :=
  fun _ _ =>
    Ok (Response 200
          (Ok (JObj [("status", JStr "1"); ("info", JStr "OK");
                     ("route", JObj [("paths", JArr [short_drive])])]))).

(** An upstream that refuses every request at the level of the envelope. *)
Definition quota_exceeded : upstream :=
  fun _ _ =>
    Ok (Response 200
          (Ok (JObj [("status", JStr "0");
                     ("info", JStr "DAILY_QUERY_OVER_LIMIT");
                     ("infocode", JStr "10003")]))).







(** A transit plan of a bus segment (with its walk to the stop), a short
    transfer walk and a long last walk. *)
Definition subway_plan (duration : string) : json :=
  JObj [("cost", JStr "5.0"); ("duration", JStr duration);
        ("walking_distance", JStr "860");
        ("segments",
         JArr [JObj [("walking", JObj [("distance", JStr "300")]);
                     ("bus",
                      JObj [("buslines",
                             JArr [JObj [("name", JStr "地铁1号线(苹果园--四惠东)");
                                         ("departure_stop",
                                          JObj [("name", JStr "天安门东")]);
                                         ("arrival_stop",
                                          JObj [("name", JStr "国贸")]);
                                         ("num_stops", JStr "4")]])])];
               JObj [("walking", JObj [("distance", JStr "40")]);
                     ("bus", JObj [("buslines", JArr [])])];
               JObj [("walking", JObj [("distance", JStr "520")]);
                     ("bus", JObj [("buslines", JArr [])])]])].

(** Five plans, as upstream ranks them. *)
Definition five_plans : list json :=
  [subway_plan "2400"; subway_plan "2700"; subway_plan "3000";
   subway_plan "3300"; subway_plan "3900"].

(** The narration of the five plans: three blocks, details in the first. *)
Definition five_plans_text : string :=
  join newline
    ["🚌 【公交/地铁导航】(推荐Top3)";
     "";
     "=== 方案 1 (40分钟) ===";
     "💰 票价: 5.0元 | 🚶 步行: 860米";
     "📍 路线: 地铁1号线";
     "📝 详细步骤:";
     "  • 🚌 乘 地铁1号线: 天安门东 上车 -> 国贸 下车 (坐4站)";
     "  • 🚶 步行 520米";
     "";
     "=== 方案 2 (45分钟) ===";
     "💰 票价: 5.0元 | 🚶 步行: 860米";
     "📍 路线: 地铁1号线";
     "";
     "=== 方案 3 (50分钟) ===";
     "💰 票价: 5.0元 | 🚶 步行: 860米";
     "📍 路线: 地铁1号线"].

(** An upstream whose geocoder knows no address, and whose POI search lists
    one place under any keywords. *)
Definition poi_listed : upstream :=
  fun log r =>
    match lookup "keywords" (req_params r) with
    | Some _ =>
        Ok (Response 200
              (Ok (JObj [("status", JStr "1"); ("count", JStr "1");
                         ("pois",
                          JArr [JObj [("id", JStr "B000A8UIN8");
                                      ("name", JStr "故宫博物院");
                                      ("location", JStr "116.397029,39.917839");
                                      ("adcode", JStr "110101")]])])))
    | None => nothing_found log r
    end.

(** An upstream that places every IP address in one city. *)
Definition ip_located : upstream :=
  fun _ _ =>
    Ok (Response 200
          (Ok (JObj [("status", JStr "1"); ("info", JStr "OK");
                     ("province", JStr "广东省"); ("city", JStr "深圳市");
                     ("adcode", JStr "440300")]))).

(** An upstream that names the address of every location. *)
Definition address_named : upstream :=
  fun _ _ =>
    Ok (Response 200
          (Ok (JObj [("status", JStr "1"); ("info", JStr "OK");
                     ("regeocode",
                      JObj [("formatted_address",
                             JStr "北京市东城区东华门街道故宫博物院")])]))).

(** A transit plan whose fare the service left empty. *)
Definition unpriced_plan : json :=
  JObj [("cost", JArr []); ("duration", JStr "2400");
        ("walking_distance", JStr "860"); ("segments", JArr [])].

(** Two POIs around a center, the second without a distance, and the
    answer that lists them. *)
Definition cafe_near : json :=
  JObj [("id", JStr "B0FFG8TQ7X"); ("name", JStr "星巴克(东方广场店)");
        ("type", JStr "餐饮服务;咖啡厅;星巴克咖啡");
        ("address", JStr "东长安街1号"); ("distance", JStr "1250");
        ("tel", JArr []); ("biz_ext", JObj [("rating", JStr "4.5"); ("cost", JStr "42.00")])].

Definition cafe_far : json :=
  JObj [("id", JStr "B0FFKEPXS1"); ("name", JStr "瑞幸咖啡");
        ("type", JStr "餐饮服务;咖啡厅"); ("address", JArr []);
        ("tel", JStr "010-12345678"); ("biz_ext", JObj [("rating", JArr []); ("cost", JArr [])])].

Definition cafes_found : response :=
  Response 200
    (Ok (JObj [("status", JStr "1"); ("count", JStr "2");
               ("pois", JArr [cafe_near; cafe_far])])).

(** The entry of the first of them, and the text of the answer for a search
    around a center. *)
Definition cafe_near_entry : string :=
  join newline
    ["1. **星巴克(东方广场店)** (📏 距中心 1.2公里)";
     "   📍 东长安街1号";
     "   🏷️ 餐饮服务 | 🆔 B0FFG8TQ7X";
     "   ⭐ 评分: 4.5分 | 💰 人均: ¥42.00"].

Definition cafes_text : string :=
  join newline
    ["🔍 [周边3000米] 找到 2 个结果:";
     "";
     cafe_near_entry;
     "";
     "2. **瑞幸咖啡**";
     "   📍 ";
     "   🏷️ 餐饮服务 | 🆔 B0FFKEPXS1 | 📞 010-12345678"].

(** The narration of the driving path of two steps. *)
Definition short_drive_text : string :=
  join newline
    ["🚗 【driving导航】";
     "总耗时: 10分钟 | 总距离: 850米 | 红绿灯: 2个 | 过路费: 0元";
     "--------------------"; "📝 详细路线:";
     "1. 向东行驶 (沿东长安街) 800米";
     "2. 向南行驶50米到达目的地 (到达目的地)"].

End Scenario.

(* ================================================================== *)
(** * Properties *)
(* ================================================================== *)

Import PyStr Py Http Amap Spec Scenario.

Local Open Scope string_scope.
Local Open Scope Z_scope.

(** ** Results and strings *)

Lemma bind_inv {A B} (c : result A) (k : A -> result B) b :
  Py.bind c k = Ok b -> exists a, c = Ok a /\ k a = Ok b.
Proof. destruct c as [a | e]; simpl; [eauto | discriminate]. Qed.

Ltac inv_bind H :=
  let a := fresh "v" in
  let Ha := fresh "Hv" in
  apply bind_inv in H; destruct H as [a [Ha H]].

Tactic Notation "bind_in" hyp(H) "as" ident(a) ident(Ha) :=
  apply bind_inv in H; destruct H as [a [Ha H]].

Lemma prefix_app p rest : String.prefix p (p ++ rest) = true.
Proof.
  induction p as [| c p IH]; simpl.
  - now destruct rest.
  - destruct (ascii_dec c c); [exact IH | congruence].
Qed.

Lemma append_assoc (a b c : string) : (a ++ b) ++ c = a ++ b ++ c.
Proof. induction a as [| x a IH]; simpl; [reflexivity | now rewrite IH]. Qed.

Lemma append_nil_r (s : string) : s ++ "" = s.
Proof. induction s as [| c s IH]; simpl; [reflexivity | now rewrite IH]. Qed.

Lemma join_cons2 sep a b l :
  join sep (a :: b :: l) = a ++ sep ++ join sep (b :: l).
Proof. reflexivity. Qed.



(** ** The monad of requests *)

Lemma bind_ok {A B} (c : io A) (k : A -> io B) up log a log' :
  c up log = (Ok a, log') -> bind c k up log = k a up log'.
Proof. intros H. unfold Http.bind. now rewrite H. Qed.

Lemma http_get_step url params timeout up log :
  http_get url params timeout up log
  = (up log (Request url params timeout), (log ++ [Request url params timeout])%list).
Proof. reflexivity. Qed.

Lemma try_except_log_after_get {A} url params timeout (k : response -> io A)
    (h : exn -> io A) up log :
  (forall r log', snd (k r up log') = log') ->
  (forall e log', snd (h e up log') = log') ->
  snd (try_except (Http.bind (http_get url params timeout) k) h up log)
  = (log ++ [Request url params timeout])%list.
Proof.
  intros Hk Hh. unfold try_except, Http.bind. rewrite http_get_step.
  destruct (up log (Request url params timeout)) as [r | e].
  - specialize (Hk r (log ++ [Request url params timeout])%list).
    destruct (k r up _) as [[a | e] l]; simpl in *; auto.
    rewrite Hh. assumption.
  - apply Hh.
Qed.

(** ** The formatting helpers on sample values *)

Example fmt_time_minutes : _fmt_time (JInt 125) = Ok "2分钟".
Proof. reflexivity. Qed.

Example fmt_time_hours : _fmt_time (JStr "3725") = Ok "1小时2分钟".
Proof. vm_compute. reflexivity. Qed.

Example fmt_dist_meters : _fmt_dist (JStr "850") = Ok "850米".
Proof. vm_compute. reflexivity. Qed.

Example fmt_dist_kilometers : _fmt_dist (JInt 1500) = Ok "1.5公里".
Proof. vm_compute. reflexivity. Qed.

(** Halves round to even on the binary value: 1250 meters are exactly 1.25
    kilometers, 1350 meters are a little more than 1.35. *)
Example fmt_dist_rounding :
  _fmt_dist (JInt 1250) = Ok "1.2公里" /\ _fmt_dist (JInt 1350) = Ok "1.4公里".
Proof. split; vm_compute; reflexivity. Qed.

(** A field that upstream leaves empty comes as an empty list, which is no
    number. *)
Example fmt_dist_empty_field :
  _fmt_dist (JArr [])
  = Raise (Exn "TypeError"
             "float() argument must be a string or a real number, not 'list'").
Proof. reflexivity. Qed.

(** ** Characters and regular expressions *)

Lemma unchars_cons x l : unchars (x :: l) = x ++ unchars l.
Proof.
  unfold unchars. destruct l as [| y l]; simpl.
  - now rewrite append_nil_r.
  - reflexivity.
Qed.

(** A string is the concatenation of its characters. *)
Lemma unchars_chars s : unchars (chars s) = s.
Proof.
  induction s as [| c s IH]; [reflexivity |].
  cbn [chars]. destruct (chars s) as [| h t] eqn:Hc.
  - simpl in IH. now subst s.
  - destruct (starts_with_cont h).
    + rewrite unchars_cons. rewrite unchars_cons in IH. simpl. now rewrite IH.
    + rewrite unchars_cons. simpl. now rewrite IH.
Qed.

Lemma nullable_lang r : nullable r = true -> lang r [].
Proof.
  induction r as [| | p | a IHa b IHb | a IHa b IHb | a IHa]; simpl;
    intros H; try discriminate.
  - constructor.
  - apply andb_prop in H. destruct H as [Ha Hb].
    change (@nil string) with (@nil string ++ [])%list.
    constructor; auto.
  - apply orb_prop in H. destruct H as [Ha | Hb];
      [apply lang_alt_l | apply lang_alt_r]; auto.
  - constructor.
Qed.

Lemma deriv_lang r : forall c cs, lang (deriv c r) cs -> lang r (c :: cs).
Proof.
  induction r as [| | p | a IHa b IHb | a IHa b IHb | a IHa]; intros c cs H;
    simpl in H.
  - inversion H.
  - inversion H.
  - destruct (p c) eqn:Hp; inversion H; subst. now constructor.
  - destruct (nullable a) eqn:Hn.
    + inversion H as [| | | ? ? ? Hl | ? ? ? Hr | |]; subst.
      * inversion Hl as [| | ? ? x y Hx Hy | | | |]; subst.
        change (c :: x ++ y)%list with ((c :: x) ++ y)%list.
        constructor; auto.
      * change (c :: cs) with ([] ++ c :: cs)%list.
        constructor; [now apply nullable_lang | auto].
    + inversion H as [| | ? ? x y Hx Hy | | | |]; subst.
      change (c :: x ++ y)%list with ((c :: x) ++ y)%list.
      constructor; auto.
  - inversion H; subst; [apply lang_alt_l | apply lang_alt_r]; auto.
  - inversion H as [| | ? ? x y Hx Hy | | | |]; subst.
    change (c :: x ++ y)%list with ((c :: x) ++ y)%list.
    constructor; auto.
Qed.

(** What the matcher accepts is in the language of the expression. *)
Lemma matches_lang cs : forall r, matches r cs = true -> lang r cs.
Proof.
  induction cs as [| c cs IH]; intros r H; simpl in H.
  - now apply nullable_lang.
  - apply deriv_lang. now apply IH.
Qed.

Lemma lang_classes (P : string -> Prop) r cs :
  classes (fun p => forall c, p c = true -> P c) r ->
  lang r cs -> Forall P cs.
Proof.
  intros Hr Hl. induction Hl; simpl in Hr.
  - constructor.
  - constructor; [auto | constructor].
  - destruct Hr. apply Forall_app. split; auto.
  - destruct Hr. auto.
  - destruct Hr. auto.
  - constructor.
  - apply Forall_app. split; auto.
Qed.

(** No decimal digit is a blank. *)
Lemma digit_not_space c : is_digit c = true -> is_space c = false.
Proof.
  unfold is_digit, digit_value, is_space.
  set (cp := code_point c).
  destruct (find _ decimal_zeros) as [z |] eqn:Hf; [intros _ | discriminate].
  apply find_some in Hf. destruct Hf as [Hin Hrange].
  apply andb_prop in Hrange. destruct Hrange as [Hlo Hhi].
  apply Z.leb_le in Hlo. apply Z.ltb_lt in Hhi.
  assert (Hclear :
            forallb (fun z => forallb (fun d => negb (is_space_cp (z + d)))
                                      [0; 1; 2; 3; 4; 5; 6; 7; 8; 9])
                    decimal_zeros = true) by (vm_compute; reflexivity).
  rewrite forallb_forall in Hclear. specialize (Hclear z Hin).
  rewrite forallb_forall in Hclear.
  assert (Hd : In (cp - z) [0; 1; 2; 3; 4; 5; 6; 7; 8; 9]).
  { assert (Hcases : cp - z = 0 \/ cp - z = 1 \/ cp - z = 2 \/ cp - z = 3 \/
                     cp - z = 4 \/ cp - z = 5 \/ cp - z = 6 \/ cp - z = 7 \/
                     cp - z = 8 \/ cp - z = 9) by lia.
    simpl. intuition auto. }
  specialize (Hclear (cp - z) Hd). apply negb_true_iff in Hclear.
  now replace (z + (cp - z)) with cp in Hclear by lia.
Qed.

Lemma coordinate_pattern_classes :
  classes (fun p => forall c, p c = true -> is_space c = false)
    coordinate_pattern.
Proof.
  assert (Hlit : forall l, is_space l = false ->
                           forall c, String.eqb l c = true -> is_space c = false).
  { intros l Hl c Hc. apply String.eqb_eq in Hc. now subst c. }
  unfold coordinate_pattern, signed_decimal, ReOpt, RePlus, ReLit.
  cbn [classes].
  repeat split; try exact digit_not_space; apply Hlit; reflexivity.
Qed.

Lemma drop_while_end_kept {A} (p : A -> bool) l :
  Forall (fun x => p x = false) l -> drop_while_end p l = l.
Proof.
  intros H. unfold drop_while_end.
  assert (Hrev : Forall (fun x => p x = false) (rev l)) by now apply Forall_rev.
  destruct (rev l) as [| x t] eqn:Hl.
  - simpl. rewrite <- (rev_involutive l), Hl. reflexivity.
  - inversion Hrev as [| ? ? Hx _]; subst. simpl. rewrite Hx.
    rewrite <- Hl. apply rev_involutive.
Qed.

Lemma drop_while_kept {A} (p : A -> bool) l :
  Forall (fun x => p x = false) l -> drop_while p l = l.
Proof.
  intros H. destruct H as [| x t Hx _]; [reflexivity |]. simpl. now rewrite Hx.
Qed.

(** A coordinate literal has no blank to strip. *)
Lemma strip_literal s : coordinate_literal s -> strip s = s.
Proof.
  intros H. unfold coordinate_literal in H. apply matches_lang in H.
  apply (lang_classes _ _ _ coordinate_pattern_classes) in H.
  unfold strip. rewrite (drop_while_kept _ _ H), (drop_while_end_kept _ _ H).
  apply unchars_chars.
Qed.

Lemma literal_is_coordinate s : coordinate_literal s -> is_coordinate s = true.
Proof.
  intros H. unfold is_coordinate, re_match_anchored.
  unfold coordinate_literal in H. now rewrite H.
Qed.

(** ** Mode aliases *)

Lemma one_of_in s l : one_of s l = true <-> In s l.
Proof.
  unfold one_of. rewrite existsb_exists. split.
  - intros [x [Hin Heq]]. apply String.eqb_eq in Heq. now subst.
  - intros H. exists s. split; [assumption | apply String.eqb_refl].
Qed.

Lemma one_of_app s l1 l2 : one_of s (l1 ++ l2) = one_of s l1 || one_of s l2.
Proof. apply existsb_app. Qed.

Lemma alias_mode_other m : one_of m mode_aliases = false -> alias_mode m = m.
Proof.
  intros H.
  change mode_aliases
    with (["car"] ++ ["walk"] ++ ["bike"; "ride"; "cycling"]
          ++ ["bus"; "subway"])%list in H.
  rewrite !one_of_app in H.
  apply orb_false_iff in H. destruct H as [H1 H].
  apply orb_false_iff in H. destruct H as [H2 H].
  apply orb_false_iff in H. destruct H as [H3 H4].
  unfold alias_mode. cbv zeta.
  rewrite H1. cbv iota. rewrite H2. cbv iota. rewrite H3. cbv iota.
  rewrite H4. reflexivity.
Qed.

Lemma alias_mode_idempotent m : alias_mode (alias_mode m) = alias_mode m.
Proof.
  destruct (one_of m mode_aliases) eqn:H.
  - apply one_of_in in H. cbn in H.
    repeat (destruct H as [H | H]; [subst m; reflexivity |]). contradiction.
  - now rewrite !(alias_mode_other m H).
Qed.

(** ** The API key and the first lines of the tools *)

Lemma plan_route_unsupported key up origin destination mode city strategy :
  configured key ->
  config_get (alias_mode mode) mode_config = None ->
  run (plan_route key origin destination mode city strategy) up
  = (Ok ("不支持的模式: " ++ alias_mode mode), []).
Proof.
  intros Hk Hc. unfold run, plan_route. rewrite Hk. cbv zeta. now rewrite Hc.
Qed.

Lemma config_get_unknown m :
  one_of m canonical_modes = false -> config_get m mode_config = None.
Proof.
  intros H. unfold one_of, canonical_modes in H. cbn in H.
  repeat (apply orb_false_iff in H; destruct H as [? H]).
  unfold mode_config. cbn.
  repeat match goal with E : String.eqb _ _ = false |- _ => rewrite E; clear E end.
  reflexivity.
Qed.

(** C8. Mode alias normalization is total and idempotent: [car] becomes
    [driving], [walk] becomes [walking], [bike], [ride] and [cycling] become
    [bicycling], [bus] and [subway] become [transit]; each of the four modes
    is kept, so normalizing twice is normalizing once; every one of these
    eleven names has an entry of the dispatch table, and for any other name
    [plan_route], with the API key configured, returns at once, without a
    request, the text that names the value it was given. *)
Theorem mode_alias_normalization :
  alias_mode "car" = "driving" /\
  alias_mode "walk" = "walking" /\
  alias_mode "bike" = "bicycling" /\
  alias_mode "ride" = "bicycling" /\
  alias_mode "cycling" = "bicycling" /\
  alias_mode "bus" = "transit" /\
  alias_mode "subway" = "transit" /\
  (forall m, In m canonical_modes -> alias_mode m = m) /\
  (forall m, alias_mode (alias_mode m) = alias_mode m) /\
  (forall m, In m (mode_aliases ++ canonical_modes) ->
     In (alias_mode m) canonical_modes /\
     exists cfg, config_get (alias_mode m) mode_config = Some cfg) /\
  (forall key up origin destination m city strategy,
     configured key ->
     ~ In m (mode_aliases ++ canonical_modes) ->
     alias_mode m = m /\
     run (plan_route key origin destination m city strategy) up
     = (Ok ("不支持的模式: " ++ m), [])).
Proof.
  repeat split; try reflexivity.
  - intros m H. cbn in H.
    repeat (destruct H as [H | H]; [subst m; reflexivity |]). contradiction.
  - apply alias_mode_idempotent.
  - cbn in H. repeat (destruct H as [H | H]; [subst m; cbn; tauto |]).
    contradiction.
  - cbn in H.
    repeat (destruct H as [H | H]; [subst m; eexists; reflexivity |]).
    contradiction.
  - apply alias_mode_other. apply not_true_is_false. intros Hin.
    apply one_of_in in Hin. apply H0. apply in_or_app. now left.
  - assert (Ha : alias_mode m = m).
    { apply alias_mode_other. apply not_true_is_false. intros Hin.
      apply one_of_in in Hin. apply H0. apply in_or_app. now left. }
    rewrite <- Ha at 2. apply plan_route_unsupported; [assumption |].
    rewrite Ha. apply config_get_unknown. apply not_true_is_false.
    intros Hin. apply one_of_in in Hin. apply H0. apply in_or_app. now right.
Qed.

Lemma mode_alias_normalization_witness :
  alias_mode "fly" = "fly" /\
  run (plan_route (Some "key") "116.41,39.92" "116.45,39.95" "fly" "" 0) no_upstream
  = (Ok "不支持的模式: fly", []).
Proof.
  apply (proj2 (proj2 (proj2 (proj2 (proj2 (proj2 (proj2 (proj2 (proj2 (proj2
           mode_alias_normalization)))))))))).
  - reflexivity.
  - cbn. intuition discriminate.
Defined.

(** ** The POI search dispatcher *)

Lemma poi_search_stop key up keywords city center radius polygon poi_id limit text :
  configured key ->
  poi_select key keywords city center radius polygon poi_id limit = Stop text ->
  run (poi_search key keywords city center radius polygon poi_id limit) up
  = (Ok text, []).
Proof.
  intros Hk Hs. unfold run, poi_search. rewrite Hk, Hs. reflexivity.
Qed.

Lemma poi_search_go key up keywords city center radius polygon poi_id limit
    url params label :
  configured key ->
  poi_select key keywords city center radius polygon poi_id limit
  = Go url params label ->
  snd (run (poi_search key keywords city center radius polygon poi_id limit) up)
  = [search_request url params].
Proof.
  intros Hk Hs. unfold run, poi_search. rewrite Hk, Hs.
  apply (try_except_log_after_get url params (Some 10)); intros; reflexivity.
Qed.

(** C1. With the API key configured, every call of [poi_search] takes
    exactly one of four search modes, by the priority id, polygon, around,
    text.  A non-empty [poi_id] sends the one request of the call to the
    detail endpoint, whatever the other parameters are.  Otherwise a
    non-empty [polygon] selects the polygon search: without [keywords] the
    call returns, with no request, a text that names [keywords]; with them
    the one request goes to the polygon endpoint.  Otherwise a non-empty
    [center] selects the search around it, with the same demand for
    [keywords] and the radius of the call, 3000 when none is given.
    Otherwise non-empty [keywords] select the text search.  With none of the
    four the call returns, with no request, the text that asks for one of
    them. *)
Theorem poi_search_mode_priority :
  forall key up keywords city center radius polygon poi_id limit,
    configured key ->
    let outcome :=
      run (poi_search key keywords city center radius polygon poi_id limit) up in
    (nonempty poi_id = true ->
       snd outcome
       = [search_request detail_url
            [("key", key_value key); ("output", JStr "json");
             ("extensions", JStr "all"); ("id", JStr poi_id)]]) /\
    (nonempty poi_id = false -> nonempty polygon = true ->
       nonempty keywords = false ->
       outcome = (Ok "❌ 错误: 多边形搜索需要 keywords。", []) /\
       occurs_in "keywords" "❌ 错误: 多边形搜索需要 keywords。") /\
    (nonempty poi_id = false -> nonempty polygon = true ->
       nonempty keywords = true ->
       exists params,
         snd outcome = [search_request polygon_url params] /\
         lookup "polygon" params = Some (JStr polygon) /\
         lookup "keywords" params = Some (JStr keywords)) /\
    (nonempty poi_id = false -> nonempty polygon = false ->
       nonempty center = true -> nonempty keywords = false ->
       outcome = (Ok "❌ 错误: 周边搜索需要 keywords。", []) /\
       occurs_in "keywords" "❌ 错误: 周边搜索需要 keywords。") /\
    (nonempty poi_id = false -> nonempty polygon = false ->
       nonempty center = true -> nonempty keywords = true ->
       exists params,
         snd outcome = [search_request around_url params] /\
         lookup "location" params = Some (JStr center) /\
         lookup "keywords" params = Some (JStr keywords) /\
         lookup "radius" params = Some (JInt radius)) /\
    (nonempty poi_id = false -> nonempty polygon = false ->
       nonempty center = false -> nonempty keywords = true ->
       exists params,
         snd outcome = [search_request text_url params] /\
         lookup "keywords" params = Some (JStr keywords)) /\
    (nonempty poi_id = false -> nonempty polygon = false ->
       nonempty center = false -> nonempty keywords = false ->
       outcome
       = (Ok "❌ 错误: 请至少提供 keywords, center, polygon 或 poi_id 其中之一。", [])) /\
    poi_search_call key (Some keywords) (Some city) (Some center) None
      (Some polygon) (Some poi_id) (Some limit)
    = poi_search key keywords city center 3000 polygon poi_id limit.
Proof.
  intros key up keywords city center radius polygon poi_id limit Hk outcome.
  subst outcome.
  repeat match goal with |- _ /\ _ => split end.
  - intros Hid.
    eapply poi_search_go; [assumption |]. unfold poi_select. rewrite Hid.
    reflexivity.
  - intros Hid Hpoly Hkw. split.
    + apply poi_search_stop; [assumption |]. unfold poi_select.
      rewrite Hid, Hpoly, Hkw. reflexivity.
    + exists "❌ 错误: 多边形搜索需要 ", "。". reflexivity.
  - intros Hid Hpoly Hkw. eexists. split; [| split].
    + eapply poi_search_go; [assumption |]. unfold poi_select.
      rewrite Hid, Hpoly, Hkw. reflexivity.
    + reflexivity.
    + reflexivity.
  - intros Hid Hpoly Hc Hkw. split.
    + apply poi_search_stop; [assumption |]. unfold poi_select.
      rewrite Hid, Hpoly, Hc, Hkw. reflexivity.
    + exists "❌ 错误: 周边搜索需要 ", "。". reflexivity.
  - intros Hid Hpoly Hc Hkw. eexists. split; [| split; [| split]].
    + eapply poi_search_go; [assumption |]. unfold poi_select.
      rewrite Hid, Hpoly, Hc, Hkw. reflexivity.
    + reflexivity.
    + reflexivity.
    + reflexivity.
  - intros Hid Hpoly Hc Hkw.
    destruct (nonempty city) eqn:Hcity.
    + eexists. split.
      * eapply poi_search_go; [assumption |]. unfold poi_select.
        rewrite Hid, Hpoly, Hc, Hkw, Hcity. reflexivity.
      * reflexivity.
    + eexists. split.
      * eapply poi_search_go; [assumption |]. unfold poi_select.
        rewrite Hid, Hpoly, Hc, Hkw, Hcity. reflexivity.
      * reflexivity.
  - intros Hid Hpoly Hc Hkw.
    apply poi_search_stop; [assumption |]. unfold poi_select.
    rewrite Hid, Hpoly, Hc, Hkw. reflexivity.
  - reflexivity.
Qed.

Lemma poi_search_mode_priority_witness :
  snd (run (poi_search (Some "key") "anything" "" "116.4,39.9" 3000 ""
              "B0FFKEPXS1" 10) no_upstream)
  = [search_request detail_url
       [("key", JStr "key"); ("output", JStr "json");
        ("extensions", JStr "all"); ("id", JStr "B0FFKEPXS1")]].
Proof.
  apply (proj1 (poi_search_mode_priority (Some "key") no_upstream "anything" ""
                  "116.4,39.9" 3000 "" "B0FFKEPXS1" 10 eq_refl)).
  reflexivity.
Defined.

(** ** The location resolver *)

Lemma resolve_empty key city up log :
  _resolve_location key "" city up log = (Ok (JNull, JNull, JNull), log).
Proof. reflexivity. Qed.

Lemma resolve_literal key input city up log :
  is_coordinate (strip input) = true ->
  _resolve_location key input city up log
  = (Ok (JStr (strip input), JNull, JStr input), log).
Proof.
  intros H. unfold _resolve_location.
  destruct (nonempty input) eqn:Hne.
  - cbn [negb]. rewrite H. reflexivity.
  - unfold nonempty in Hne. apply negb_false_iff, String.eqb_eq in Hne.
    subst input. discriminate H.
Qed.

(** A failed attempt leaves its [try] block with nothing, whatever went
    wrong inside, and its request in the log. *)
Lemma attempt_nothing read url params up log :
  yields_nothing read (up log (Request url params None)) ->
  attempt (Http.bind (http_get url params None)
             (fun resp => lift (read resp))) up log
  = (Ok None, (log ++ [Request url params None])%list).
Proof.
  unfold yields_nothing, attempt, try_except, Http.bind.
  rewrite http_get_step.
  destruct (up log (Request url params None)) as [resp | e]; [| reflexivity].
  unfold lift. destruct (read resp) as [[found | ] | e]; intros H;
    [contradiction | reflexivity | reflexivity].
Qed.

(** An attempt never raises. *)
Lemma attempt_returns {A} (c : io (option A)) up log :
  exists v log', attempt c up log = (Ok v, log').
Proof.
  unfold attempt, try_except, ret.
  destruct (c up log) as [[v | e] log']; eauto.
Qed.

Lemma resolve_fallthrough key input city up log :
  nonempty input = true ->
  is_coordinate (strip input) = false ->
  yields_nothing (geocode_match) (up log (geocode_request key input city)) ->
  yields_nothing (poi_match)
    (up (log ++ [geocode_request key input city])%list
        (poi_request key input city)) ->
  _resolve_location key input city up log
  = (Ok (JNull, JNull, JStr input),
     (log ++ [geocode_request key input city; poi_request key input city])%list).
Proof.
  intros Hne Hlit Hgeo Hpoi. unfold _resolve_location.
  rewrite Hne, Hlit. cbn [negb].
  unfold resolve_by_geocode, resolve_by_poi.
  rewrite (bind_ok _ _ _ _ _ _ (attempt_nothing geocode_match _ _ up log Hgeo)).
  rewrite (bind_ok _ _ _ _ _ _ (attempt_nothing poi_match _ _ up _ Hpoi)).
  unfold ret. rewrite <- app_assoc. reflexivity.
Qed.

(** The resolver itself never raises: each [try] swallows what is raised
    inside it. *)
Lemma resolve_returns key input city up log :
  exists found log', _resolve_location key input city up log = (Ok found, log').
Proof.
  unfold _resolve_location.
  destruct (negb (nonempty input)); [unfold ret; eauto |].
  destruct (is_coordinate (strip input)); [unfold ret; eauto |].
  destruct (attempt_returns (resolve_by_geocode key input city) up log)
    as [geo [log1 Hgeo]].
  rewrite (bind_ok _ _ _ _ _ _ Hgeo).
  destruct geo as [found |]; [unfold ret; eauto |].
  destruct (attempt_returns (resolve_by_poi key input city) up log1)
    as [poi [log2 Hpoi]].
  rewrite (bind_ok _ _ _ _ _ _ Hpoi).
  destruct poi as [found |]; unfold ret; eauto.
Qed.

(** C2. An input that matches the pattern of a signed decimal pair
    [lon,lat] is returned as it is: the coordinate is that very input, there
    is no administrative code, the name is the input, and no request is
    made.  The code tests the pattern on the input stripped of the blanks
    around it: an input that matches only once stripped has the stripped
    text as coordinate and itself, as given, as name, again with no
    request. *)
Theorem resolve_coordinate_literal :
  forall key up input city,
    (coordinate_literal input ->
     run (_resolve_location key input city) up
     = (Ok (JStr input, JNull, JStr input), [])) /\
    (is_coordinate (strip input) = true ->
     run (_resolve_location key input city) up
     = (Ok (JStr (strip input), JNull, JStr input), [])).
Proof.
  intros key up input city. split.
  - intros H. unfold run.
    rewrite <- (strip_literal input H) at 2.
    apply resolve_literal. rewrite (strip_literal input H).
    now apply literal_is_coordinate.
  - intros H. unfold run. now apply resolve_literal.
Qed.

Lemma resolve_coordinate_literal_witness :
  run (_resolve_location (Some "key") "116.41,39.92" None) no_upstream
  = (Ok (JStr "116.41,39.92", JNull, JStr "116.41,39.92"), []).
Proof.
  apply (proj1 (resolve_coordinate_literal (Some "key") no_upstream
                  "116.41,39.92" None)).
  reflexivity.
Defined.

(** C3, as the code has it.  When the input is not empty and is no
    coordinate literal, and both the geocoding attempt and the POI text
    search after it end without a first result (the request meets a fault,
    the block that reads the answer raises, the status code is not 200 or
    the upstream status is not ["1"]), the resolver returns, without
    raising, the triple whose coordinate and administrative code are [None]
    and whose name is the input as given; it has made the two requests, in
    this order. *)
Theorem resolve_failure_carries_input :
  forall key up input city,
    nonempty input = true ->
    is_coordinate (strip input) = false ->
    yields_nothing geocode_match (up [] (geocode_request key input city)) ->
    yields_nothing poi_match
      (up [geocode_request key input city] (poi_request key input city)) ->
    run (_resolve_location key input city) up
    = (Ok (JNull, JNull, JStr input),
       [geocode_request key input city; poi_request key input city]).
Proof.
  intros key up input city Hne Hlit Hgeo Hpoi. unfold run.
  now apply (resolve_fallthrough key input city up []).
Qed.

Lemma resolve_failure_carries_input_witness :
  run (_resolve_location (Some "key") "某不存在的地点xyz123" None) nothing_found
  = (Ok (JNull, JNull, JStr "某不存在的地点xyz123"),
     [geocode_request (Some "key") "某不存在的地点xyz123" None;
      poi_request (Some "key") "某不存在的地点xyz123" None]).
Proof.
  apply (resolve_failure_carries_input (Some "key") nothing_found
           "某不存在的地点xyz123" None); reflexivity || exact I.
Defined.

(** C3, as the specification has it, fails: an attempt that returns a first
    result without a location produces no coordinate either, and the
    resolver then returns the administrative code and the name of that
    result.  With the geocoder out of reach and a POI search that lists one
    place without a location, neither attempt produces a coordinate, and the
    triple has the area code and the name of the place, not [None] and the
    input. *)
Lemma resolve_failure_counterexample :
  no_coordinate geocode_match
    (place_without_location [] (geocode_request (Some "key") "便利店" None)) /\
  no_coordinate poi_match
    (place_without_location [geocode_request (Some "key") "便利店" None]
       (poi_request (Some "key") "便利店" None)) /\
  run (_resolve_location (Some "key") "便利店" None) place_without_location
  = (Ok (JNull, JStr "110101", JStr "全家便利店(东单店)"),
     [geocode_request (Some "key") "便利店" None;
      poi_request (Some "key") "便利店" None]).
Proof. repeat split; vm_compute; reflexivity. Qed.

(** C10, as the code has it.  On the empty string the resolver returns at
    once, with no request, the triple of three [None]: the name is [None],
    not the (empty) input.  Every other input that is no coordinate literal
    and on which both attempts end without a first result has the input
    itself as the name of its failure, after two requests. *)
Theorem resolve_empty_input :
  forall key up city,
    run (_resolve_location key "" city) up = (Ok (JNull, JNull, JNull), []) /\
    JNull <> JStr "" /\
    (forall input,
       nonempty input = true ->
       is_coordinate (strip input) = false ->
       yields_nothing geocode_match (up [] (geocode_request key input city)) ->
       yields_nothing poi_match
         (up [geocode_request key input city] (poi_request key input city)) ->
       exists log,
         run (_resolve_location key input city) up
         = (Ok (JNull, JNull, JStr input), log) /\
         length log = 2%nat).
Proof.
  intros key up city. split; [| split].
  - apply resolve_empty.
  - discriminate.
  - intros input Hne Hlit Hgeo Hpoi. eexists. split.
    + unfold run. now apply (resolve_fallthrough key input city up []).
    + reflexivity.
Qed.

Lemma resolve_empty_input_witness :
  exists log,
    run (_resolve_location (Some "key") "故宫" (Some "北京")) no_upstream
    = (Ok (JNull, JNull, JStr "故宫"), log) /\
    length log = 2%nat.
Proof.
  apply (proj2 (proj2 (resolve_empty_input (Some "key") no_upstream (Some "北京"))));
    reflexivity || exact I.
Defined.

(** C10, as the specification has it, fails at its last part: an input
    other than the empty one may be left without a coordinate and yet not be
    the name of its failure.  When the first geocode has no location the
    resolver returns it after the geocoding request alone: the coordinate
    is [None], the name is the formatted address of the geocode and the
    administrative code is its area code. *)
Lemma resolve_unresolved_counterexample :
  nonempty "东城" = true /\
  is_coordinate (strip "东城") = false /\
  run (_resolve_location (Some "key") "东城" None) geocode_without_location
  = (Ok (JNull, JStr "110101", JStr "北京市东城区"),
     [geocode_request (Some "key") "东城" None]) /\
  eq (JStr "北京市东城区") (JStr "东城") = false.
Proof. repeat split; vm_compute; reflexivity. Qed.

(** ** The navigation narrator: its title *)

Lemma nav_step_appends lines i s lines' :
  nav_step lines i s = Ok lines' -> exists line, lines' = (lines ++ [line])%list.
Proof.
  unfold nav_step. intros H.
  repeat inv_bind H. injection H as <-. unfold append. eauto.
Qed.

Lemma nav_steps_extend steps : forall i lines lines',
  for_enumerate nav_step i steps lines = Ok lines' ->
  exists more, lines' = (lines ++ more)%list.
Proof.
  induction steps as [| s steps IH]; intros i lines lines' H; simpl in H.
  - injection H as <-. exists []. now rewrite app_nil_r.
  - inv_bind H. apply nav_step_appends in Hv. destruct Hv as [line ->].
    apply IH in H. destruct H as [more ->]. exists (line :: more).
    now rewrite <- app_assoc.
Qed.

Lemma format_nav_text_title mode path_data text :
  _format_nav_text mode path_data = Ok text ->
  exists rest, text = nav_icon mode ++ " 【" ++ mode ++ "导航】" ++ rest.
Proof.
  unfold _format_nav_text. intros H.
  repeat inv_bind H. injection H as <-.
  apply nav_steps_extend in Hv6. destruct Hv6 as [more ->].
  cbn [app]. rewrite join_cons2.
  eexists. rewrite !append_assoc. reflexivity.
Qed.

(** ** The route planner *)

(** What [plan_route] does once the mode has an entry and both ends have
    been asked for. *)
Lemma plan_route_located key up origin destination mode city strategy cfg
    ori_loc ori_code ori_name des_loc des_code des_name log1 log2 :
  configured key ->
  config_get (alias_mode mode) mode_config = Some cfg ->
  _resolve_location key origin (Some city) up []
  = (Ok (ori_loc, ori_code, ori_name), log1) ->
  _resolve_location key destination (Some city) up log1
  = (Ok (des_loc, des_code, des_name), log2) ->
  run (plan_route key origin destination mode city strategy) up
  = if negb (truthy ori_loc) || negb (truthy des_loc)
    then (Ok (unlocated_text origin destination), log2)
    else
      let q := route_request key cfg (alias_mode mode) city strategy
                 ori_loc des_loc in
      (match up log2 q with
       | Raise e => Ok (request_error e)
       | Ok resp =>
           match resp_json resp with
           | Raise e => Ok (request_error e)
           | Ok raw =>
               match route_text cfg (alias_mode mode) ori_name des_name raw with
               | Ok text => Ok text
               | Raise e => Ok (request_error e)
               end
           end
       end, (log2 ++ [q])%list).
Proof.
  intros Hk Hc Ho Hd. unfold run, plan_route. rewrite Hk. cbv zeta.
  rewrite Hc. unfold try_except.
  rewrite (bind_ok _ _ _ _ _ _ Ho).
  rewrite (bind_ok _ _ _ _ _ _ Hd).
  destruct (negb (truthy ori_loc) || negb (truthy des_loc)); [reflexivity |].
  unfold Http.bind. rewrite http_get_step. unfold route_request, request_error.
  destruct (up log2 _) as [resp | e]; [| reflexivity].
  unfold lift. destruct (resp_json resp) as [raw | e]; [| reflexivity].
  destruct (route_text cfg (alias_mode mode) ori_name des_name raw);
    reflexivity.
Qed.

(** [plan_route] never raises: what is raised after its first lines is
    caught and turned into a text. *)
Lemma plan_route_returns key up origin destination mode city strategy :
  exists text log,
    run (plan_route key origin destination mode city strategy) up
    = (Ok text, log).
Proof.
  unfold run, plan_route. destruct (key_missing key); [unfold ret; eauto |].
  cbv zeta. destruct (config_get _ mode_config); [| unfold ret; eauto].
  unfold try_except.
  match goal with |- context [match ?c up [] with _ => _ end] =>
    destruct (c up []) as [[text | e] log]
  end; unfold ret; eauto.
Qed.

(** C9, as the code has it. With the API key configured and a mode of the
    dispatch table, when the origin or the destination cannot be located,
    [plan_route] returns one text for both cases: it names the origin and
    the destination as they were given, and is the same whichever of the two
    failed. *)
Theorem plan_route_unlocated :
  forall key up origin destination mode city strategy cfg
         ori_loc ori_code ori_name des_loc des_code des_name log1 log2,
    configured key ->
    config_get (alias_mode mode) mode_config = Some cfg ->
    _resolve_location key origin (Some city) up []
    = (Ok (ori_loc, ori_code, ori_name), log1) ->
    _resolve_location key destination (Some city) up log1
    = (Ok (des_loc, des_code, des_name), log2) ->
    truthy ori_loc = false \/ truthy des_loc = false ->
    run (plan_route key origin destination mode city strategy) up
    = (Ok ("无法定位起点(" ++ origin ++ ")或终点(" ++ destination ++ ")"), log2).
Proof.
  intros key up origin destination mode city strategy cfg
         ori_loc ori_code ori_name des_loc des_code des_name log1 log2
         Hk Hc Ho Hd Hside.
  rewrite (plan_route_located _ _ _ _ _ _ _ _ _ _ _ _ _ _ _ _ Hk Hc Ho Hd).
  destruct Hside as [H | H]; rewrite H; cbn [negb orb];
    [| rewrite orb_true_r]; reflexivity.
Qed.
Lemma plan_route_unlocated_witness :
  run (plan_route (Some "key") "甲地" "乙地" "driving" "" 0) (knows "乙地")
  = (Ok "无法定位起点(甲地)或终点(乙地)",
     [geocode_request (Some "key") "甲地" (Some "");
      poi_request (Some "key") "甲地" (Some "");
      geocode_request (Some "key") "乙地" (Some "")]).
Proof.
  eapply (plan_route_unlocated (Some "key") (knows "乙地") "甲地" "乙地"
            "driving" "" 0).
  - reflexivity.
  - reflexivity.
  - reflexivity.
  - reflexivity.
  - left. reflexivity.
Defined.

(** C9, as the specification has it, fails: the text does not tell the
    side.  With the same two inputs, an upstream that knows only the
    destination (the origin fails) and one that knows only the origin (the
    destination fails) lead to the same text. *)
Lemma plan_route_side_counterexample :
  fst (run (_resolve_location (Some "key") "甲地" (Some "")) (knows "乙地"))
  = Ok (JNull, JNull, JStr "甲地") /\
  fst (run (_resolve_location (Some "key") "乙地" (Some "")) (knows "乙地"))
  = Ok (JStr "116.397,39.909", JStr "110101", JStr "乙地") /\
  fst (run (plan_route (Some "key") "甲地" "乙地" "driving" "" 0) (knows "乙地"))
  = Ok "无法定位起点(甲地)或终点(乙地)" /\
  fst (run (_resolve_location (Some "key") "甲地" (Some "")) (knows "甲地"))
  = Ok (JStr "116.397,39.909", JStr "110101", JStr "甲地") /\
  fst (run (_resolve_location (Some "key") "乙地" (Some "")) (knows "甲地"))
  = Ok (JNull, JNull, JStr "乙地") /\
  fst (run (plan_route (Some "key") "甲地" "乙地" "driving" "" 0) (knows "甲地"))
  = Ok "无法定位起点(甲地)或终点(乙地)".
Proof. repeat split; vm_compute; reflexivity. Qed.

Lemma literal_truthy s : is_coordinate (strip s) = true -> truthy (JStr (strip s)) = true.
Proof.
  intros H. simpl. destruct (String.eqb_spec (strip s) ""); [| reflexivity].
  rewrite e in H. discriminate H.
Qed.

(** C4, as the code has it. For [plan_route] with the API key configured,
    mode [car] and coordinate literals as origin and destination, the mode
    becomes [driving] and the one request of the call goes to the driving
    endpoint of v3 with [strategy=10], whatever [strategy] the caller gave.
    When the answer is a success with a path that the narrator renders, the
    returned text is the heading of the plan (the line [【路径规划】] and the
    two lines naming the origin and the destination) followed by the
    narration, and it is the narration, not the returned text, that begins
    with [🚗 【driving导航】]. *)
Theorem plan_route_car :
  forall key up origin destination city strategy,
    configured key ->
    is_coordinate (strip origin) = true ->
    is_coordinate (strip destination) = true ->
    alias_mode "car" = "driving" /\
    snd (run (plan_route key origin destination "car" city strategy) up)
    = [driving_request key (strip origin) (strip destination)] /\
    (forall code raw route path more narration,
       up [] (driving_request key (strip origin) (strip destination))
       = Ok (Response code (Ok raw)) ->
       get raw "status" JNull = Ok (JStr "1") ->
       get raw "route" (JObj []) = Ok route ->
       get route "paths" (JArr []) = Ok (JArr (path :: more)) ->
       _format_nav_text "driving" path = Ok narration ->
       fst (run (plan_route key origin destination "car" city strategy) up)
       = Ok (route_header (JStr origin) (JStr destination) ++ narration) /\
       startswith narration "🚗 【driving导航】" = true /\
       startswith (route_header (JStr origin) (JStr destination) ++ narration)
         "【路径规划】" = true).
Proof.
  intros key up origin destination city strategy Hk Ho Hd.
  pose proof (plan_route_located key up origin destination "car" city strategy
                (ModeEntry "v3" "/direction/driving")
                _ _ _ _ _ _ _ _ Hk eq_refl
                (resolve_literal key origin (Some city) up [] Ho)
                (resolve_literal key destination (Some city) up [] Hd)) as Hrun.
  rewrite (literal_truthy _ Ho), (literal_truthy _ Hd) in Hrun.
  cbn [negb orb] in Hrun.
  change (route_request key (ModeEntry "v3" "/direction/driving")
            (alias_mode "car") city strategy (JStr (strip origin))
            (JStr (strip destination)))
    with (driving_request key (strip origin) (strip destination)) in Hrun.
  cbv zeta in Hrun.
  split; [reflexivity |]. split; [rewrite Hrun; reflexivity |].
  intros code raw route path more narration Hup Hstatus Hroute Hpaths Hnav.
  rewrite Hrun, Hup. cbn [fst resp_json].
  change (alias_mode "car") with "driving".
  assert (Htext : route_text (ModeEntry "v3" "/direction/driving") "driving"
                    (JStr origin) (JStr destination) raw
                  = Ok (route_header (JStr origin) (JStr destination) ++ narration)).
  { unfold route_text. cbn [ver String.eqb Ascii.eqb Bool.eqb].
    rewrite Hstatus. cbn [Py.bind]. cbn [eq String.eqb Ascii.eqb Bool.eqb negb].
    rewrite Hroute. cbn [Py.bind]. rewrite Hpaths. cbn [Py.bind truthy first].
    rewrite Hnav. reflexivity. }
  rewrite Htext. split; [reflexivity |]. split.
  - apply format_nav_text_title in Hnav. destruct Hnav as [rest ->].
    unfold startswith.
    change (nav_icon "driving" ++ " 【" ++ "driving" ++ "导航】" ++ rest)
      with ("🚗 【driving导航】" ++ rest).
    apply prefix_app.
  - unfold startswith, route_header. rewrite append_assoc. apply prefix_app.
Qed.

Lemma plan_route_car_witness :
  snd (run (plan_route (Some "key") "116.41,39.92" "116.45,39.95" "car" "" 0)
         driving_found)
  = [driving_request (Some "key") "116.41,39.92" "116.45,39.95"].
Proof.
  apply (proj1 (proj2 (plan_route_car (Some "key") driving_found
                         "116.41,39.92" "116.45,39.95" "" 0
                         eq_refl eq_refl eq_refl))).
Defined.

(** C4, as the specification has it, fails at its last part: on an upstream
    success the returned text begins with the heading of the plan, not with
    the title of the narration. *)
Lemma plan_route_car_counterexample :
  exists narration,
    _format_nav_text "driving" short_drive = Ok narration /\
    run (plan_route (Some "key") "116.41,39.92" "116.45,39.95" "car" "" 0)
      driving_found
    = (Ok (route_header (JStr "116.41,39.92") (JStr "116.45,39.95") ++ narration),
       [driving_request (Some "key") "116.41,39.92" "116.45,39.95"]) /\
    startswith
      (route_header (JStr "116.41,39.92") (JStr "116.45,39.95") ++ narration)
      "🚗 【driving导航】" = false.
Proof.
  eexists. split; [vm_compute; reflexivity |].
  split; vm_compute; reflexivity.
Qed.
(** The result of [plan_route] once its direction request is answered. *)
Lemma plan_route_answered key up origin destination mode city strategy cfg
    ori_name des_name raw :
  configured key ->
  route_answered key up origin destination mode city strategy cfg
    ori_name des_name raw ->
  fst (run (plan_route key origin destination mode city strategy) up)
  = match route_text cfg (alias_mode mode) ori_name des_name raw with
    | Ok text => Ok text
    | Raise e => Ok (request_error e)
    end.
Proof.
  intros Hk [Hc H].
  destruct H as (ol & oc & dl & dc & log1 & log2 & code & Ho & Hd & Hol & Hdl & Hup).
  rewrite (plan_route_located _ _ _ _ _ _ _ _ _ _ _ _ _ _ _ _ Hk Hc Ho Hd).
  rewrite Hol, Hdl. cbn [negb orb]. cbv zeta. rewrite Hup. reflexivity.
Qed.

Lemma config_entry mode cfg :
  config_get mode mode_config = Some cfg ->
  (mode = "driving" /\ cfg = ModeEntry "v3" "/direction/driving") \/
  (mode = "walking" /\ cfg = ModeEntry "v3" "/direction/walking") \/
  (mode = "transit" /\ cfg = ModeEntry "v3" "/direction/transit/integrated") \/
  (mode = "bicycling" /\ cfg = ModeEntry "v4" "/direction/bicycling").
Proof.
  unfold mode_config. cbn [config_get].
  destruct (String.eqb_spec mode "driving"); [intros [= <-]; tauto |].
  destruct (String.eqb_spec mode "walking"); [intros [= <-]; tauto |].
  destruct (String.eqb_spec mode "transit"); [intros [= <-]; tauto |].
  destruct (String.eqb_spec mode "bicycling"); [intros [= <-]; tauto |].
  discriminate.
Qed.

(** C7. With the API key configured, once both ends are located and the
    direction request is answered with a JSON object, [plan_route] reads the
    two envelopes alike.  From v3 (driving, walking, transit) a status other
    than ["1"] gives the error text with the field [info]; from v4
    (bicycling) an [errcode] other than 0 gives the error text with the field
    [errmsg].  A success of driving, walking or bicycling with a non-empty
    list of paths is narrated from the first path, after the heading of the
    plan; a success with an empty list of paths gives the heading and the
    text that no route was found. *)
Theorem plan_route_envelopes :
  forall key up origin destination mode city strategy cfg ori_name des_name raw,
    configured key ->
    route_answered key up origin destination mode city strategy cfg
      ori_name des_name raw ->
    let result :=
      fst (run (plan_route key origin destination mode city strategy) up) in
    let header := route_header ori_name des_name in
    (forall status info,
       ver cfg = "v3" ->
       get raw "status" JNull = Ok status -> eq status (JStr "1") = false ->
       get raw "info" JNull = Ok info ->
       result = Ok ("API错误: " ++ str info)) /\
    (forall errcode errmsg,
       ver cfg = "v4" ->
       get raw "errcode" JNull = Ok errcode -> eq errcode (JInt 0) = false ->
       get raw "errmsg" JNull = Ok errmsg ->
       result = Ok ("API错误: " ++ str errmsg)) /\
    (forall route paths,
       alias_mode mode = "driving" \/ alias_mode mode = "walking" ->
       get raw "status" JNull = Ok (JStr "1") ->
       get raw "route" (JObj []) = Ok route ->
       get route "paths" (JArr []) = Ok (JArr paths) ->
       match paths with
       | path :: _ =>
           forall narration,
             _format_nav_text (alias_mode mode) path = Ok narration ->
             result = Ok (header ++ narration)
       | [] => result = Ok (header ++ "未找到" ++ alias_mode mode ++ "路线")
       end) /\
    (forall errcode data paths,
       alias_mode mode = "bicycling" ->
       get raw "errcode" JNull = Ok errcode -> eq errcode (JInt 0) = true ->
       get raw "data" (JObj []) = Ok data ->
       get data "paths" (JArr []) = Ok (JArr paths) ->
       match paths with
       | path :: _ =>
           forall narration,
             _format_nav_text "bicycling" path = Ok narration ->
             result = Ok (header ++ narration)
       | [] => result = Ok (header ++ "未找到骑行路线")
       end).
Proof.
  intros key up origin destination mode city strategy cfg ori_name des_name raw
         Hk Hans result header.
  subst result header.
  rewrite (plan_route_answered _ _ _ _ _ _ _ _ _ _ _ Hk Hans).
  destruct Hans as [Hc _]. apply config_entry in Hc.
  repeat match goal with |- _ /\ _ => split end.
  - intros status info Hver Hstatus Hne Hinfo.
    unfold route_text. rewrite Hver. cbn [String.eqb Ascii.eqb Bool.eqb].
    destruct (String.eqb (alias_mode mode) "transit");
      rewrite Hstatus; cbn [Py.bind]; rewrite Hne; cbn [negb];
      rewrite Hinfo; reflexivity.
  - intros errcode errmsg Hver Hcode Hne Hmsg.
    unfold route_text. rewrite Hver. cbn [String.eqb Ascii.eqb Bool.eqb].
    rewrite Hcode. cbn [Py.bind]. rewrite Hne. cbn [negb].
    rewrite Hmsg. reflexivity.
  - intros route paths Hmode Hstatus Hroute Hpaths.
    assert (Hver : ver cfg = "v3").
    { destruct Hc as [[_ ->] | [[_ ->] | [[_ ->] | [Hm _]]]]; try reflexivity.
      destruct Hmode as [Hd | Hw]; rewrite Hm in *; discriminate. }
    assert (Htransit : String.eqb (alias_mode mode) "transit" = false).
    { destruct Hmode as [-> | ->]; reflexivity. }
    unfold route_text. rewrite Hver, Htransit.
    cbn [String.eqb Ascii.eqb Bool.eqb].
    rewrite Hstatus. cbn [Py.bind eq String.eqb Ascii.eqb Bool.eqb negb].
    rewrite Hroute. cbn [Py.bind]. rewrite Hpaths. cbn [Py.bind].
    destruct paths as [| path more].
    + reflexivity.
    + intros narration Hnav. cbn [truthy first Py.bind]. rewrite Hnav.
      reflexivity.
  - intros errcode data paths Hmode Hcode Hzero Hdata Hpaths.
    assert (Hver : ver cfg = "v4").
    { destruct Hc as [[Hm _] | [[Hm _] | [[Hm _] | [_ ->]]]]; try reflexivity;
        rewrite Hm in Hmode; discriminate. }
    unfold route_text. rewrite Hver. cbn [String.eqb Ascii.eqb Bool.eqb].
    rewrite Hcode. cbn [Py.bind]. rewrite Hzero. cbn [negb].
    rewrite Hdata. cbn [Py.bind]. rewrite Hpaths. cbn [Py.bind].
    destruct paths as [| path more].
    + reflexivity.
    + intros narration Hnav. cbn [truthy first Py.bind].
      rewrite Hmode. rewrite Hnav. reflexivity.
Qed.

Lemma plan_route_envelopes_witness :
  fst (run (plan_route (Some "key") "116.41,39.92" "116.45,39.95" "driving" "" 0)
         quota_exceeded)
  = Ok "API错误: DAILY_QUERY_OVER_LIMIT".
Proof.
  assert (Hans : route_answered (Some "key") quota_exceeded "116.41,39.92"
                   "116.45,39.95" "driving" "" 0
                   (ModeEntry "v3" "/direction/driving")
                   (JStr "116.41,39.92") (JStr "116.45,39.95")
                   (JObj [("status", JStr "0");
                          ("info", JStr "DAILY_QUERY_OVER_LIMIT");
                          ("infocode", JStr "10003")])).
  { split; [reflexivity |].
    exists (JStr "116.41,39.92"), JNull, (JStr "116.45,39.95"), JNull, [], [], 200.
    repeat split. }
  exact (proj1 (plan_route_envelopes (Some "key") _ _ _ _ _ _ _ _ _ _ eq_refl Hans)
           (JStr "0") (JStr "DAILY_QUERY_OVER_LIMIT")
           eq_refl eq_refl eq_refl eq_refl).
Defined.

(** ** The navigation narrator: the enrichment of the steps *)











Lemma get_of_object d k default v :
  get d k default = Ok v -> exists items, d = JObj items.
Proof. destruct d; try discriminate. eauto. Qed.




(** ** The transit narrator *)

Ltac step_bind :=
  match goal with
  | |- context [Py.bind ?c _] =>
      destruct c; cbn [Py.bind]; [| reflexivity]
  end.

(** The lines of a plan do not depend on the lines before them. *)
Lemma transit_plan_block lines idx t :
  transit_plan lines idx t
  = (block <- transit_plan [] idx t ;; Ok (lines ++ block)%list).
Proof.
  unfold transit_plan.
  do 9 step_bind.
  match goal with
  | |- context [let '(_, _) := ?p in _] => destruct p as [chain details]
  end.
  step_bind.
  unfold append, extend.
  destruct (idx =? 0); cbn [Py.bind app];
    repeat rewrite <- app_assoc; reflexivity.
Qed.

Lemma transit_plans_rendered ts : forall idx lines lines',
  for_enumerate transit_plan idx ts lines = Ok lines' <->
  exists blocks, rendered idx ts blocks /\ lines' = (lines ++ concat blocks)%list.
Proof.
  induction ts as [| t ts IH]; intros idx lines lines'.
  - cbn [for_enumerate]. split.
    + intros [= <-]. exists []. split; [constructor | now rewrite app_nil_r].
    + intros [blocks [Hr ->]]. inversion Hr; subst. simpl.
      now rewrite app_nil_r.
  - cbn [for_enumerate]. rewrite transit_plan_block. split.
    + intros H. destruct (transit_plan [] idx t) as [block | e] eqn:Hb;
        [| discriminate]. cbn [Py.bind] in H.
      apply IH in H. destruct H as [blocks [Hr ->]].
      exists (block :: blocks). split; [now constructor |].
      simpl. now rewrite app_assoc.
    + intros [blocks [Hr ->]].
      inversion Hr as [| idx' t' ts' block blocks' Hb Hrest]; subst.
      rewrite Hb. cbn [Py.bind]. apply IH. exists blocks'.
      split; [assumption |]. simpl. now rewrite app_assoc.
Qed.

Lemma format_transit_text_rendered ts text :
  ts <> [] ->
  _format_transit_text (JArr ts) = Ok text <->
  exists blocks,
    rendered 0 (firstn 3 ts) blocks /\
    text = join newline (transit_title :: concat blocks).
Proof.
  intros Hne. unfold _format_transit_text.
  destruct ts as [| t ts]; [contradiction |].
  cbn [truthy negb slice_to Py.bind iterate]. cbv zeta.
  split.
  - intros H.
    destruct (for_enumerate transit_plan 0 (firstn 3 (t :: ts))
                ["🚌 【公交/地铁导航】(推荐Top3)"]) as [lines | e] eqn:Hl;
      [| discriminate].
    cbn [Py.bind] in H. injection H as <-.
    apply transit_plans_rendered in Hl. destruct Hl as [blocks [Hr ->]].
    exists blocks. split; [assumption | reflexivity].
  - intros [blocks [Hr ->]].
    assert (Hl : for_enumerate transit_plan 0 (firstn 3 (t :: ts))
                   ["🚌 【公交/地铁导航】(推荐Top3)"]
                 = Ok (["🚌 【公交/地铁导航】(推荐Top3)"] ++ concat blocks)%list).
    { apply transit_plans_rendered. eauto. }
    rewrite Hl. reflexivity.
Qed.

Lemma format_transit_text_top3 ts :
  _format_transit_text (JArr ts) = _format_transit_text (JArr (firstn 3 ts)).
Proof.
  unfold _format_transit_text.
  assert (Hidem : firstn 3 (firstn 3 ts) = firstn 3 ts)
    by now rewrite firstn_firstn.
  assert (Htruth : truthy (JArr (firstn 3 ts)) = truthy (JArr ts))
    by now destruct ts.
  rewrite Htruth. destruct (negb (truthy (JArr ts))); [reflexivity |].
  cbn [slice_to Py.bind iterate]. now rewrite Hidem.
Qed.
Lemma transit_plan_reads idx t block :
  transit_plan [] idx t = Ok block <->
  exists dur fare walk chain details,
    plan_reads t dur fare walk chain details /\
    block = plan_block idx dur fare walk chain details.
Proof.
  unfold transit_plan, plan_reads, plan_block. split.
  - intros H.
    bind_in H as duration H1. bind_in H as dur H2.
    bind_in H as cost H3. bind_in H as fare_value H4.
    bind_in H as wd H5. bind_in H as walk H6.
    bind_in H as segments H7. bind_in H as segs H8.
    bind_in H as st H9. destruct st as [chain_values details].
    bind_in H as chain_text H10. unfold join_list in H10.
    bind_in H10 as chain H11. injection H10 as <-.
    exists dur, (PyFloat.repr fare_value), walk, chain, details. split.
    + exists duration, cost, fare_value, wd, segments, segs, chain_values.
      repeat split; assumption.
    + unfold append, extend in H. destruct (idx =? 0); injection H as <-;
        reflexivity.
  - intros (dur & fare & walk & chain & details & Hreads & ->).
    destruct Hreads as (duration & cost & fare_value & wd & segments & segs
                        & chain_values & H1 & H2 & H3 & H4 & -> & H5 & H6
                        & H7 & H8 & H9 & H10).
    rewrite H1. cbn [Py.bind]. rewrite H2. cbn [Py.bind].
    rewrite H3. cbn [Py.bind]. rewrite H4. cbn [Py.bind].
    rewrite H5. cbn [Py.bind]. rewrite H6. cbn [Py.bind].
    rewrite H7. cbn [Py.bind]. rewrite H8. cbn [Py.bind].
    rewrite H9. cbn [Py.bind]. unfold join_list. rewrite H10. cbn [Py.bind].
    unfold append, extend. destruct (idx =? 0); reflexivity.
Qed.

(** A walking segment leaves the chain as it is, and adds a detail line
    only for a walk of more than 50 meters. *)
Lemma transit_segment_walking chain details seg chain' details' :
  is_walking seg ->
  transit_segment (chain, details) seg = Ok (chain', details') ->
  chain' = chain /\
  (details' = details \/
   exists w d meters shown,
     item seg "walking" = Ok w /\ get w "distance" (JInt 0) = Ok d /\
     int d = Ok meters /\ 50 < meters /\ _fmt_dist d = Ok shown /\
     details' = (details ++ [("  • 🚶 步行 " ++ shown)%string])%list).
Proof.
  intros [Hbus Hrail] H. unfold transit_segment in H.
  rewrite Hbus in H. cbn [Py.bind] in H. rewrite Hrail in H. cbn [Py.bind] in H.
  bind_in H as walking Hwalking. bind_in H as far Hfar. destruct far.
  - destruct (truthy walking); [| discriminate Hfar].
    bind_in Hfar as w Hw. bind_in Hfar as d Hd. bind_in Hfar as meters Hm.
    injection Hfar as Hfar. apply Z.ltb_lt in Hfar.
    bind_in H as w' Hw'. bind_in H as d' Hd'. bind_in H as shown Hshown.
    injection H as <- <-. split; [reflexivity |]. right.
    rewrite Hw in Hw'. injection Hw' as <-.
    exists w, d, meters, shown. repeat split; try assumption.
    destruct w; try discriminate Hd. simpl in Hd, Hd'.
    destruct (lookup "distance" l); [| discriminate Hd'].
    injection Hd as <-. injection Hd' as <-. assumption.
  - injection H as <- <-. tauto.
Qed.

(** A bus segment and a railway segment each add one entry to the chain and
    one detail line. *)
Lemma transit_segment_bus chain details seg chain' details' :
  is_bus seg ->
  transit_segment (chain, details) seg = Ok (chain', details') ->
  exists line detail,
    chain' = (chain ++ [JStr line])%list /\ details' = (details ++ [detail])%list.
Proof.
  intros Hbus H. unfold transit_segment in H.
  rewrite Hbus in H. cbn [Py.bind] in H.
  repeat inv_bind H. injection H as <- <-. unfold append. eauto.
Qed.

Lemma transit_segment_railway chain details seg chain' details' :
  is_railway seg ->
  transit_segment (chain, details) seg = Ok (chain', details') ->
  exists name detail,
    chain' = (chain ++ [name])%list /\ details' = (details ++ [detail])%list.
Proof.
  intros [Hbus Hrail] H. unfold transit_segment in H.
  rewrite Hbus in H. cbn [Py.bind] in H. rewrite Hrail in H. cbn [Py.bind] in H.
  repeat inv_bind H. injection H as <- <-. unfold append. eauto.
Qed.

(** The three kinds cover every segment the loop gets past. *)
Lemma transit_segment_kind st seg st' :
  transit_segment st seg = Ok st' ->
  is_bus seg \/ is_railway seg \/ is_walking seg.
Proof.
  destruct st as [chain details]. unfold transit_segment. intros H.
  bind_in H as bus Hbus. destruct bus; [left; exact Hbus |].
  bind_in H as rail Hrail.
  destruct rail; [right; left | right; right]; split; assumption.
Qed.
(** C5. For every list of transit plans the narrator renders the first
    three at most, in the order of the list: an empty list gives the text
    that no plan was found; the text for a list is the text for its first
    three plans, the title followed by one block of lines per plan.  The
    block of a plan is a blank line, its summary (heading and fares) and its
    transfer chain, and for the plan at index 0, and for no other, the
    detail lines.  A walking segment never enters the chain and has a detail
    line only when its distance exceeds 50 meters; a bus segment and a
    railway segment each add one entry to the chain and one detail line. *)
Theorem transit_narration :
  _format_transit_text (JArr []) = Ok "未找到公交方案" /\
  (forall ts,
     _format_transit_text (JArr ts) = _format_transit_text (JArr (firstn 3 ts))) /\
  (forall ts text,
     ts <> [] ->
     (_format_transit_text (JArr ts) = Ok text <->
      exists blocks,
        rendered 0 (firstn 3 ts) blocks /\
        text = join newline (transit_title :: concat blocks))) /\
  (forall idx t block,
     transit_plan [] idx t = Ok block <->
     exists dur fare walk chain details,
       plan_reads t dur fare walk chain details /\
       block = plan_block idx dur fare walk chain details) /\
  (forall idx dur fare walk chain details,
     (idx <> 0 ->
      length (plan_block idx dur fare walk chain details) = 4%nat) /\
     plan_block 0 dur fare walk chain details
     = (firstn 4 (plan_block 0 dur fare walk chain details)
        ++ "📝 详细步骤:" :: details)%list) /\
  (forall chain details seg chain' details',
     is_walking seg ->
     transit_segment (chain, details) seg = Ok (chain', details') ->
     chain' = chain /\
     (details' = details \/
      exists w d meters shown,
        item seg "walking" = Ok w /\ get w "distance" (JInt 0) = Ok d /\
        int d = Ok meters /\ 50 < meters /\ _fmt_dist d = Ok shown /\
        details' = (details ++ [("  • 🚶 步行 " ++ shown)%string])%list)) /\
  (forall chain details seg chain' details',
     is_bus seg \/ is_railway seg ->
     transit_segment (chain, details) seg = Ok (chain', details') ->
     exists entry detail,
       chain' = (chain ++ [entry])%list /\
       details' = (details ++ [detail])%list) /\
  (forall st seg st',
     transit_segment st seg = Ok st' ->
     is_bus seg \/ is_railway seg \/ is_walking seg).
Proof.
  split; [reflexivity |].
  split; [exact format_transit_text_top3 |].
  split; [intros ts text Hne; now apply format_transit_text_rendered |].
  split; [exact transit_plan_reads |].
  split.
  { intros idx dur fare walk chain details. split; [| reflexivity].
    intros Hidx. unfold plan_block.
    destruct (Z.eqb_spec idx 0); [contradiction | reflexivity]. }
  split; [exact transit_segment_walking |].
  split; [| exact transit_segment_kind].
  intros chain details seg chain' details' [Hbus | Hrail] H.
  - destruct (transit_segment_bus _ _ _ _ _ Hbus H) as (line & detail & -> & ->).
    eauto.
  - destruct (transit_segment_railway _ _ _ _ _ Hrail H)
      as (name & detail & -> & ->).
    eauto.
Qed.

Lemma transit_narration_witness :
  exists blocks,
    rendered 0 (firstn 3 five_plans) blocks /\
    five_plans_text = join newline (transit_title :: concat blocks).
Proof.
  apply (proj1 (proj2 (proj2 transit_narration)) five_plans five_plans_text).
  - discriminate.
  - vm_compute. reflexivity.
Defined.

(* ================================================================== *)
(** * Further properties of the code *)
(* ================================================================== *)

(** ** The resolver: its requests and their order *)

Lemma attempt_get url params (read : response -> result (option location)) up log :
  attempt (Http.bind (http_get url params None) (fun resp => lift (read resp)))
    up log
  = (Ok (attempt_result read (up log (Request url params None))),
     (log ++ [Request url params None])%list).
Proof.
  unfold attempt, try_except, Http.bind, attempt_result. rewrite http_get_step.
  destruct (up log (Request url params None)) as [resp | e]; [| reflexivity].
  unfold lift. destruct (read resp) as [found | e]; reflexivity.
Qed.

(** What the resolver does with an input that is neither empty nor a
    coordinate literal. *)
Lemma resolve_asks key input city up log :
  nonempty input = true ->
  is_coordinate (strip input) = false ->
  _resolve_location key input city up log
  = let geo := geocode_request key input city in
    let poi := poi_request key input city in
    match attempt_result geocode_match (up log geo) with
    | Some found => (Ok found, (log ++ [geo])%list)
    | None =>
        (Ok (match attempt_result poi_match (up (log ++ [geo])%list poi) with
             | Some found => found
             | None => (JNull, JNull, JStr input)
             end),
         (log ++ [geo; poi])%list)
    end.
Proof.
  intros Hne Hlit. unfold _resolve_location. rewrite Hne, Hlit. cbn [negb].
  unfold resolve_by_geocode, resolve_by_poi.
  rewrite (bind_ok _ _ _ _ _ _ (attempt_get _ _ geocode_match up log)).
  cbv zeta. fold (geocode_request key input city).
  destruct (attempt_result geocode_match _) as [found |]; [reflexivity |].
  rewrite (bind_ok _ _ _ _ _ _ (attempt_get _ _ poi_match up _)).
  fold (poi_request key input city). rewrite <- app_assoc. cbn [app].
  destruct (attempt_result poi_match _); reflexivity.
Qed.

Lemma resolve_offline key input city up log :
  nonempty input = false \/ is_coordinate (strip input) = true ->
  exists found, _resolve_location key input city up log = (Ok found, log).
Proof.
  intros H. unfold _resolve_location.
  destruct (nonempty input); cbn [negb]; [| unfold ret; eauto].
  destruct H as [H | H]; [discriminate |]. rewrite H. unfold ret; eauto.
Qed.

(** The resolver never raises; it adds to the log nothing, or its geocoding
    request, or that request and its POI text search. *)
Lemma resolve_trace key input city up log :
  exists found more,
    _resolve_location key input city up log = (Ok found, (log ++ more)%list) /\
    resolver_requests key input city more.
Proof.
  unfold resolver_requests. destruct (nonempty input) eqn:Hne.
  - destruct (is_coordinate (strip input)) eqn:Hlit.
    + destruct (resolve_offline key input city up log (or_intror Hlit)) as [f Hf].
      exists f, []. rewrite app_nil_r. auto.
    + rewrite (resolve_asks key input city up log Hne Hlit). cbv zeta.
      destruct (attempt_result geocode_match _) as [found |]; eauto 6.
  - destruct (resolve_offline key input city up log (or_introl Hne)) as [f Hf].
    exists f, []. rewrite app_nil_r. auto.
Qed.

(** X1. The resolver never raises, whatever the upstream does, and it makes
    at most two requests: none, or the geocoding request, or the geocoding
    request followed by the POI text search. *)
Theorem resolve_location_trace :
  forall key input city up,
    exists found log,
      run (_resolve_location key input city) up = (Ok found, log) /\
      (log = [] \/
       log = [geocode_request key input city] \/
       log = [geocode_request key input city; poi_request key input city]).
Proof.
  intros key input city up. unfold run.
  destruct (resolve_trace key input city up []) as [found [more [H Hmore]]].
  exists found, more. split; assumption.
Qed.

Lemma yields_nothing_result read answer :
  yields_nothing read answer <-> attempt_result read answer = None.
Proof.
  unfold yields_nothing, attempt_result.
  destruct answer as [resp | e]; [| tauto].
  destruct (read resp) as [[found |] | e]; intuition discriminate.
Qed.

Lemma get_object items k default :
  get (JObj items) k default
  = Ok (match lookup k items with Some v => v | None => default end).
Proof. reflexivity. Qed.

(** The first result of the geocoder ends the resolution. *)
Lemma resolve_geocode_first key input city up log body g more :
  nonempty input = true ->
  is_coordinate (strip input) = false ->
  up log (geocode_request key input city) = Ok (Response 200 (Ok body)) ->
  get body "status" JNull = Ok (JStr "1") ->
  get body "geocodes" JNull = Ok (JArr (JObj g :: more)) ->
  _resolve_location key input city up log
  = (Ok (field g "location", field g "adcode", field g "formatted_address"),
     (log ++ [geocode_request key input city])%list).
Proof.
  intros Hne Hlit Hup Hstatus Hgeo.
  rewrite (resolve_asks key input city up log Hne Hlit). cbv zeta.
  rewrite Hup. unfold attempt_result, geocode_match.
  cbn [status_code resp_json Z.eqb Pos.eqb Py.bind].
  rewrite Hstatus. cbn [Py.bind eq String.eqb Ascii.eqb Bool.eqb].
  rewrite Hgeo. cbn [Py.bind first]. rewrite !get_object. reflexivity.
Qed.

(** X2. For an input that is neither empty nor a coordinate literal, the
    resolver asks the geocoder first and returns the location, the
    administrative code and the formatted address of its first result, with
    no second request.  Only when that attempt fails does it ask the POI text
    search, and it then returns the location, the administrative code and the
    name of the first POI. *)
Theorem resolve_attempt_order :
  forall key up input city,
    nonempty input = true ->
    is_coordinate (strip input) = false ->
    let geo := geocode_request key input city in
    let poi := poi_request key input city in
    (forall body g more,
       up [] geo = Ok (Response 200 (Ok body)) ->
       get body "status" JNull = Ok (JStr "1") ->
       get body "geocodes" JNull = Ok (JArr (JObj g :: more)) ->
       run (_resolve_location key input city) up
       = (Ok (field g "location", field g "adcode", field g "formatted_address"),
          [geo])) /\
    (forall body p more,
       yields_nothing geocode_match (up [] geo) ->
       up [geo] poi = Ok (Response 200 (Ok body)) ->
       get body "status" JNull = Ok (JStr "1") ->
       get body "pois" JNull = Ok (JArr (JObj p :: more)) ->
       run (_resolve_location key input city) up
       = (Ok (field p "location", field p "adcode", field p "name"),
          [geo; poi])).
Proof.
  intros key up input city Hne Hlit geo poi. subst geo poi. unfold run. split.
  - intros body g more Hup Hstatus Hgeo.
    now apply (resolve_geocode_first key input city up [] body g more).
  - intros body p more Hnone Hup Hstatus Hpois.
    rewrite (resolve_asks key input city up [] Hne Hlit). cbv zeta.
    apply yields_nothing_result in Hnone. rewrite Hnone. cbn [app].
    rewrite Hup. unfold attempt_result, poi_match.
    cbn [status_code resp_json Z.eqb Pos.eqb Py.bind].
    rewrite Hstatus. cbn [Py.bind eq String.eqb Ascii.eqb Bool.eqb].
    rewrite Hpois. cbn [Py.bind first]. rewrite !get_object. reflexivity.
Qed.

Lemma resolve_attempt_order_witness :
  run (_resolve_location (Some "key") "故宫" (Some "北京")) poi_listed
  = (Ok (JStr "116.397029,39.917839", JStr "110101", JStr "故宫博物院"),
     [geocode_request (Some "key") "故宫" (Some "北京");
      poi_request (Some "key") "故宫" (Some "北京")]).
Proof.
  apply (proj2 (resolve_attempt_order (Some "key") poi_listed "故宫"
                  (Some "北京") eq_refl eq_refl)
           (JObj [("status", JStr "1"); ("count", JStr "1");
                  ("pois",
                   JArr [JObj [("id", JStr "B000A8UIN8");
                               ("name", JStr "故宫博物院");
                               ("location", JStr "116.397029,39.917839");
                               ("adcode", JStr "110101")]])])
           [("id", JStr "B000A8UIN8"); ("name", JStr "故宫博物院");
            ("location", JStr "116.397029,39.917839");
            ("adcode", JStr "110101")]
           []).
  - exact I.
  - reflexivity.
  - reflexivity.
  - reflexivity.
Defined.

(** ** [geocode_address] *)

(** X3. [geocode_address] never raises and makes at most two requests; its
    answer is the text of the missing key, the text that the address was not
    found, or a text that begins with the address line. *)
Theorem geocode_address_answers :
  forall key address city up,
    exists text log,
      run (geocode_address key address city) up = (Ok text, log) /\
      (length log <= 2)%nat /\
      (text = "Error: No API Key" \/ text = "未找到该地址" \/
       startswith text "地址: " = true).
Proof.
  intros key address city up. unfold run, geocode_address.
  destruct (key_missing key).
  - exists "Error: No API Key", []. repeat split; auto.
  - destruct (resolve_trace key address city up [])
      as [[[loc code] fmt] [more [Hres Hmore]]].
    rewrite (bind_ok _ _ _ _ _ _ Hres). cbn [app].
    assert (Hlen : (length more <= 2)%nat).
    { destruct Hmore as [-> | [-> | ->]]; simpl; lia. }
    destruct (truthy loc); cbn [negb]; unfold ret.
    + eexists _, more. repeat split; [assumption |].
      right. right. unfold startswith. apply prefix_app.
    + exists "未找到该地址", more. repeat split; auto.
Qed.

(** X4. With the API key configured, [geocode_address] answers two kinds of
    address without any request: the empty address is not found, and a
    coordinate literal is echoed as its own address, with the literal
    stripped of the blanks around it as coordinate and [None] as area
    code. *)
Theorem geocode_address_without_request :
  forall key up address city,
    configured key ->
    run (geocode_address key "" city) up = (Ok "未找到该地址", []) /\
    (is_coordinate (strip address) = true ->
     run (geocode_address key address city) up
     = (Ok ("地址: " ++ address ++ newline ++ "坐标: " ++ strip address ++ newline
            ++ "区域代码: None"), [])).
Proof.
  intros key up address city Hk. unfold run, geocode_address. rewrite Hk. split.
  - reflexivity.
  - intros Hlit.
    rewrite (bind_ok _ _ _ _ _ _ (resolve_literal key address city up [] Hlit)).
    rewrite (literal_truthy _ Hlit). reflexivity.
Qed.

Lemma geocode_address_without_request_witness :
  run (geocode_address (Some "key") " 116.41,39.92" None) no_upstream
  = (Ok ("地址:  116.41,39.92" ++ newline ++ "坐标: 116.41,39.92" ++ newline
         ++ "区域代码: None"), []).
Proof.
  apply (proj2 (geocode_address_without_request (Some "key") no_upstream
                  " 116.41,39.92" None eq_refl)).
  reflexivity.
Defined.

(** X5. With the API key configured and an address that is neither empty nor
    a coordinate literal, [geocode_address] answers that the address was not
    found in two cases: after two requests, when both attempts of the
    resolver fail; and after the geocoding request alone, when the geocoder's
    first result has no location (or an empty one): the POI search is then
    not tried. *)
Theorem geocode_address_not_found :
  forall key up address city,
    configured key ->
    nonempty address = true ->
    is_coordinate (strip address) = false ->
    let geo := geocode_request key address city in
    let poi := poi_request key address city in
    (yields_nothing geocode_match (up [] geo) ->
     yields_nothing poi_match (up [geo] poi) ->
     run (geocode_address key address city) up = (Ok "未找到该地址", [geo; poi])) /\
    (forall body g more,
       up [] geo = Ok (Response 200 (Ok body)) ->
       get body "status" JNull = Ok (JStr "1") ->
       get body "geocodes" JNull = Ok (JArr (JObj g :: more)) ->
       truthy (field g "location") = false ->
       run (geocode_address key address city) up = (Ok "未找到该地址", [geo])).
Proof.
  intros key up address city Hk Hne Hlit geo poi. subst geo poi.
  unfold run, geocode_address. rewrite Hk. split.
  - intros Hgeo Hpoi.
    rewrite (bind_ok _ _ _ _ _ _
               (resolve_fallthrough key address city up [] Hne Hlit Hgeo Hpoi)).
    reflexivity.
  - intros body g more Hup Hstatus Hgeo Hloc.
    rewrite (bind_ok _ _ _ _ _ _
               (resolve_geocode_first key address city up [] body g more
                  Hne Hlit Hup Hstatus Hgeo)).
    rewrite Hloc. reflexivity.
Qed.

Lemma geocode_address_not_found_witness :
  run (geocode_address (Some "key") "某不存在的地点xyz123" None) no_upstream
  = (Ok "未找到该地址",
     [geocode_request (Some "key") "某不存在的地点xyz123" None;
      poi_request (Some "key") "某不存在的地点xyz123" None]).
Proof.
  apply (proj1 (geocode_address_not_found (Some "key") no_upstream
                  "某不存在的地点xyz123" None eq_refl eq_refl eq_refl));
    exact I.
Defined.

(** ** Splitting at a separator *)

Lemma split_not_nil sep s : split sep s <> [].
Proof.
  destruct s as [| c rest]; cbn [split]; [discriminate |].
  destruct (Ascii.eqb c sep); [discriminate |].
  destruct (split sep rest); discriminate.
Qed.

(** A piece holds no separator: it splits into itself. *)
Lemma split_piece sep s : forall x, In x (split sep s) -> split sep x = [x].
Proof.
  induction s as [| c rest IH]; intros x Hx; cbn [split] in Hx.
  - destruct Hx as [<- | []]. reflexivity.
  - destruct (Ascii.eqb c sep) eqn:Hc.
    + destruct Hx as [<- | Hx]; [reflexivity | now apply IH].
    + destruct (split sep rest) as [| piece pieces] eqn:Hs.
      * destruct Hx as [<- | []]. cbn [split]. now rewrite Hc.
      * destruct Hx as [<- | Hx].
        -- cbn [split]. rewrite Hc, (IH piece (or_introl eq_refl)). reflexivity.
        -- apply IH. now right.
Qed.

Lemma split_glue sep b : forall a,
  split sep a = [a] -> split sep (a ++ String sep b) = a :: split sep b.
Proof.
  induction a as [| c a IH]; intros Ha.
  - cbn [String.append split]. now rewrite Ascii.eqb_refl.
  - cbn [String.append split] in *. destruct (Ascii.eqb c sep).
    + injection Ha as Ha _. discriminate Ha.
    + destruct (split sep a) as [| piece pieces] eqn:Hs.
      * now elim (split_not_nil sep a).
      * injection Ha as -> ->. now rewrite (IH eq_refl).
Qed.

(** Two pieces put back with the separator split into the two. *)
Lemma split_pair sep s p0 p1 :
  split sep s = [p0; p1] -> split sep (p1 ++ String sep p0) = [p1; p0].
Proof.
  intros Hs.
  assert (H0 : split sep p0 = [p0]) by (apply (split_piece sep s); rewrite Hs; cbn; auto).
  assert (H1 : split sep p1 = [p1]) by (apply (split_piece sep s); rewrite Hs; cbn; auto).
  now rewrite (split_glue sep p0 p1 H1), H0.
Qed.

(** ** The correction of the coordinates *)

(** [<] on floats is asymmetric. *)
Lemma lt_asym a b : PyFloat.lt a b = true -> PyFloat.lt b a = false.
Proof.
  unfold PyFloat.lt, SFltb, SFcompare.
  destruct a as [sa | sa | | sa ma ea], b as [sb | sb | | sb mb eb];
    try destruct sa; try destruct sb; try discriminate; try reflexivity.
  all: assert (Hm : Pos.compare_cont Eq mb ma = CompOpp (Pos.compare_cont Eq ma mb))
    by (symmetry; apply (Pos.compare_cont_antisym ma mb Eq));
    rewrite (Z.compare_antisym ea eb), Hm;
    destruct (ea ?= eb); cbn [CompOpp]; try discriminate; try reflexivity;
    destruct (Pos.compare_cont Eq ma mb); cbn [CompOpp];
    try discriminate; reflexivity.
Qed.

(** What the correction does, by cases. *)
Lemma corrected_location_swap location p0 p1 a b :
  split "," location = [p0; p1] ->
  float (JStr p0) = Ok a -> float (JStr p1) = Ok b ->
  corrected_location location
  = if PyFloat.lt a b && PyFloat.lt (PyFloat.of_Z 60) b
    then p1 ++ "," ++ p0 else location.
Proof.
  intros Hs Ha Hb. unfold corrected_location, swap_coordinates.
  rewrite Hs, Ha. cbn [Py.bind]. rewrite Hb. cbn [Py.bind].
  destruct (PyFloat.lt a b); cbn [andb]; [| reflexivity].
  destruct (PyFloat.lt (PyFloat.of_Z 60) b); reflexivity.
Qed.

Lemma corrected_location_kept location :
  (forall p0 p1, split "," location <> [p0; p1]) \/
  (exists p0 p1 e, split "," location = [p0; p1] /\
     (float (JStr p0) = Raise e \/
      exists a, float (JStr p0) = Ok a /\ float (JStr p1) = Raise e)) ->
  corrected_location location = location.
Proof.
  unfold corrected_location, swap_coordinates.
  intros [H | (p0 & p1 & e & Hs & H)].
  - destruct (split "," location) as [| q0 [| q1 [| q2 l]]]; try reflexivity.
    now elim (H q0 q1).
  - rewrite Hs. destruct H as [Ha | [a [Ha Hb]]]; rewrite Ha; cbn [Py.bind].
    + reflexivity.
    + rewrite Hb. reflexivity.
Qed.

Lemma corrected_location_again location :
  corrected_location (corrected_location location) = corrected_location location.
Proof.
  destruct (split "," location) as [| p0 [| p1 [| p2 l]]] eqn:Hs;
    try (rewrite !(corrected_location_kept location)
           by (left; intros q0 q1; rewrite Hs; discriminate);
         reflexivity).
  destruct (float (JStr p0)) as [a | e] eqn:Ha.
  2: { rewrite !(corrected_location_kept location)
         by (right; exists p0, p1, e; auto).
       reflexivity. }
  destruct (float (JStr p1)) as [b | e] eqn:Hb.
  2: { rewrite !(corrected_location_kept location)
         by (right; exists p0, p1, e; eauto).
       reflexivity. }
  rewrite (corrected_location_swap location p0 p1 a b Hs Ha Hb).
  destruct (PyFloat.lt a b) eqn:Hlt; cbn [andb].
  - destruct (PyFloat.lt (PyFloat.of_Z 60) b) eqn:H60.
    + change (p1 ++ "," ++ p0) with (p1 ++ String "," p0).
      rewrite (corrected_location_swap _ p1 p0 b a (split_pair _ _ _ _ Hs) Hb Ha).
      now rewrite (lt_asym a b Hlt).
    + rewrite (corrected_location_swap location p0 p1 a b Hs Ha Hb).
      now rewrite Hlt, H60.
  - rewrite (corrected_location_swap location p0 p1 a b Hs Ha Hb).
    now rewrite Hlt.
Qed.

(** X6. The correction of the coordinates is idempotent: a location that
    has been corrected is left as it is by the correction, so that
    [regeocode_location] behaves on a corrected location as on the location
    itself. *)
Theorem coordinate_correction_idempotent :
  forall location,
    corrected_location (corrected_location location)
    = corrected_location location /\
    (forall key up,
       run (regeocode_location key (corrected_location location)) up
       = run (regeocode_location key location) up).
Proof.
  intros location. split.
  - apply corrected_location_again.
  - intros key up. unfold run, regeocode_location. cbv zeta.
    now rewrite corrected_location_again.
Qed.

(** X7. The correction exchanges the two parts of a location exactly when
    the location splits at commas into two parts that both read as floats,
    the first smaller than the second and the second greater than 60.  A
    location that does not split into two parts, or one of whose parts is no
    number, is left as it is. *)
Theorem coordinate_correction_cases :
  forall location,
    (forall p0 p1 a b,
       split "," location = [p0; p1] ->
       float (JStr p0) = Ok a -> float (JStr p1) = Ok b ->
       corrected_location location
       = if PyFloat.lt a b && PyFloat.lt (PyFloat.of_Z 60) b
         then p1 ++ "," ++ p0 else location) /\
    ((forall p0 p1, split "," location <> [p0; p1]) ->
     corrected_location location = location) /\
    (forall p0 p1 e,
       split "," location = [p0; p1] ->
       float (JStr p0) = Raise e \/ float (JStr p1) = Raise e ->
       corrected_location location = location).
Proof.
  intros location. split; [| split].
  - intros p0 p1 a b. apply corrected_location_swap.
  - intros H. apply corrected_location_kept. now left.
  - intros p0 p1 e Hs H. apply corrected_location_kept. right.
    destruct (float (JStr p0)) as [a | e0] eqn:Ha.
    + destruct H as [H | H]; [discriminate |]. exists p0, p1, e. eauto.
    + exists p0, p1, e0. auto.
Qed.

Lemma coordinate_correction_cases_witness :
  corrected_location "39.9,116.4" = "116.4,39.9".
Proof.
  apply (proj1 (coordinate_correction_cases "39.9,116.4") "39.9" "116.4"
           (S754_finite false 5615425785377587 (-47))
           (S754_finite false 8190921822280090 (-46)));
    reflexivity.
Defined.

(** ** The tools without a handler: [get_location_by_ip], [regeocode_location] *)

Lemma ip_params key ip :
  (if truthy (opt_value ip) then [("key", key_value key); ("ip", opt_value ip)]
   else [("key", key_value key)])
  = req_params (ip_request key ip).
Proof.
  destruct ip as [a |]; [| reflexivity].
  cbn [opt_value truthy ip_request req_params]. unfold nonempty.
  destruct (String.eqb a ""); reflexivity.
Qed.

(** What [get_location_by_ip] does once it is past its first line. *)
Lemma get_location_by_ip_run key ip up :
  configured key ->
  run (get_location_by_ip key ip) up
  = (match up [] (ip_request key ip) with
     | Raise e => Raise e
     | Ok resp =>
         d <- resp_json resp ;;
         province <- get d "province" JNull ;;
         city <- get d "city" JNull ;;
         Ok ("IP定位结果: " ++ str province ++ str city)
     end, [ip_request key ip]).
Proof.
  intros Hk. unfold run, get_location_by_ip. rewrite Hk, ip_params.
  unfold Http.bind, lift, ret. rewrite http_get_step. cbn [app].
  change (Request (AMAP_API_HOST ++ "/ip") (req_params (ip_request key ip)) None)
    with (ip_request key ip).
  destruct (up [] (ip_request key ip)) as [resp | e]; [| reflexivity].
  destruct (resp_json resp) as [d | e]; [| reflexivity]. cbn [Py.bind].
  destruct (get d "province" JNull) as [province | e]; [| reflexivity].
  cbn [Py.bind].
  destruct (get d "city" JNull) as [city | e]; reflexivity.
Qed.

(** X8. With the API key configured, [get_location_by_ip] makes exactly one
    request, to the IP endpoint, with the address as parameter [ip] only when
    one is given and is not empty.  It has no handler: a transport fault, a
    body that is not JSON and a body that is not an object are raised to the
    caller instead of being turned into a text. *)
Theorem ip_lookup_raises :
  forall key up ip,
    configured key ->
    let q := ip_request key ip in
    let outcome := run (get_location_by_ip key ip) up in
    snd outcome = [q] /\
    (forall e, up [] q = Raise e -> fst outcome = Raise e) /\
    (forall code e, up [] q = Ok (Response code (Raise e)) ->
       fst outcome = Raise e) /\
    (forall code d,
       up [] q = Ok (Response code (Ok d)) ->
       (forall items, d <> JObj items) ->
       fst outcome
       = Raise (Exn "AttributeError"
                  ("'" ++ type_name d ++ "' object has no attribute 'get'"))).
Proof.
  intros key up ip Hk q outcome. subst q outcome.
  rewrite (get_location_by_ip_run key ip up Hk). cbn [fst snd].
  split; [reflexivity |]. split; [| split].
  - intros e ->. reflexivity.
  - intros code e ->. reflexivity.
  - intros code d -> Hd.
    destruct d as [| | | | | | items]; try reflexivity. now elim (Hd items).
Qed.

Lemma ip_lookup_raises_witness :
  fst (run (get_location_by_ip (Some "key") (Some "114.247.50.2")) no_upstream)
  = Raise (Exn "ConnectError" "All connection attempts failed").
Proof.
  apply (proj1 (proj2 (ip_lookup_raises (Some "key") no_upstream
                         (Some "114.247.50.2") eq_refl))).
  reflexivity.
Defined.

(** X9. With the API key configured, when the IP lookup is answered with a
    JSON object, whatever the status code of the answer and the status the
    object carries, the text of [get_location_by_ip] is the heading followed
    by the province and the city of the object, one after the other; a field
    the object does not have is written [None]. *)
Theorem ip_lookup_text :
  forall key up ip code d,
    configured key ->
    up [] (ip_request key ip) = Ok (Response code (Ok (JObj d))) ->
    fst (run (get_location_by_ip key ip) up)
    = Ok ("IP定位结果: " ++ str (field d "province") ++ str (field d "city")) /\
    (lookup "province" d = None -> lookup "city" d = None ->
     fst (run (get_location_by_ip key ip) up) = Ok "IP定位结果: NoneNone").
Proof.
  intros key up ip code d Hk Hup.
  rewrite (get_location_by_ip_run key ip up Hk), Hup. cbn [fst resp_json Py.bind].
  rewrite !get_object. cbn [Py.bind]. split; [reflexivity |].
  intros Hp Hc. now rewrite Hp, Hc.
Qed.

Lemma ip_lookup_text_witness :
  fst (run (get_location_by_ip (Some "key") None) ip_located)
  = Ok "IP定位结果: 广东省深圳市".
Proof.
  apply (proj1 (ip_lookup_text (Some "key") ip_located None 200
                  [("status", JStr "1"); ("info", JStr "OK");
                   ("province", JStr "广东省"); ("city", JStr "深圳市");
                   ("adcode", JStr "440300")]
                  eq_refl eq_refl)).
Defined.

(** What [regeocode_location] does once it is past its first line. *)
Lemma regeocode_location_run key location up :
  configured key ->
  run (regeocode_location key location) up
  = (match up [] (regeo_request key (corrected_location location)) with
     | Raise e => Raise e
     | Ok resp =>
         body <- resp_json resp ;;
         regeocode <- get body "regeocode" (JObj []) ;;
         address <- get regeocode "formatted_address" JNull ;;
         Ok ("位置解析: " ++ str address)
     end, [regeo_request key (corrected_location location)]).
Proof.
  intros Hk. unfold run, regeocode_location. rewrite Hk. cbv zeta.
  unfold Http.bind, lift, ret. rewrite http_get_step. cbn [app].
  fold (regeo_request key (corrected_location location)).
  destruct (up [] _) as [resp | e]; [| reflexivity].
  destruct (resp_json resp) as [d | e]; [| reflexivity]. cbn [Py.bind].
  destruct (get d "regeocode" (JObj [])) as [r | e]; [| reflexivity].
  cbn [Py.bind].
  destruct (get r "formatted_address" JNull) as [a | e]; reflexivity.
Qed.

(** X10. With the API key configured, [regeocode_location] makes exactly one
    request, to the reverse geocoding endpoint, for the corrected location.
    When the answer is a JSON object, the text is the heading followed by the
    formatted address of its entry [regeocode]; the status of the answer is
    not read, so an object without that entry (an error of the service, for
    one) gives the heading followed by [None]. *)
Theorem regeocode_answer :
  forall key up location,
    configured key ->
    let q := regeo_request key (corrected_location location) in
    let outcome := run (regeocode_location key location) up in
    snd outcome = [q] /\
    (forall code body r,
       up [] q = Ok (Response code (Ok (JObj body))) ->
       lookup "regeocode" body = Some (JObj r) ->
       fst outcome = Ok ("位置解析: " ++ str (field r "formatted_address"))) /\
    (forall code body,
       up [] q = Ok (Response code (Ok (JObj body))) ->
       lookup "regeocode" body = None ->
       fst outcome = Ok "位置解析: None").
Proof.
  intros key up location Hk q outcome. subst q outcome.
  rewrite (regeocode_location_run key location up Hk). cbn [fst snd].
  split; [reflexivity |]. split.
  - intros code body r -> Hr. cbn [resp_json Py.bind].
    rewrite get_object, Hr. cbn [Py.bind]. rewrite get_object. reflexivity.
  - intros code body -> Hr. cbn [resp_json Py.bind].
    rewrite get_object, Hr. reflexivity.
Qed.

Lemma regeocode_answer_witness :
  fst (run (regeocode_location (Some "key") "39.92,116.40") address_named)
  = Ok "位置解析: 北京市东城区东华门街道故宫博物院".
Proof.
  apply (proj1 (proj2 (regeocode_answer (Some "key") address_named "39.92,116.40"
                         eq_refl))
           200
           [("status", JStr "1"); ("info", JStr "OK");
            ("regeocode",
             JObj [("formatted_address",
                    JStr "北京市东城区东华门街道故宫博物院")])]
           [("formatted_address", JStr "北京市东城区东华门街道故宫博物院")]);
    reflexivity.
Defined.

(** X11. [regeocode_location] has no handler either: a transport fault, a body
    that is not JSON, and an entry [regeocode] that is no object (a list, as
    an empty field of the service comes) are raised to the caller. *)
Theorem regeocode_raises :
  forall key up location,
    configured key ->
    let q := regeo_request key (corrected_location location) in
    let outcome := fst (run (regeocode_location key location) up) in
    (forall e, up [] q = Raise e -> outcome = Raise e) /\
    (forall code e, up [] q = Ok (Response code (Raise e)) -> outcome = Raise e) /\
    (forall code body v,
       up [] q = Ok (Response code (Ok (JObj body))) ->
       lookup "regeocode" body = Some v ->
       (forall items, v <> JObj items) ->
       outcome
       = Raise (Exn "AttributeError"
                  ("'" ++ type_name v ++ "' object has no attribute 'get'"))).
Proof.
  intros key up location Hk q outcome. subst q outcome.
  rewrite (regeocode_location_run key location up Hk). cbn [fst].
  split; [| split].
  - intros e ->. reflexivity.
  - intros code e ->. reflexivity.
  - intros code body v -> Hr Hv. cbn [resp_json Py.bind].
    rewrite get_object, Hr. cbn [Py.bind].
    destruct v as [| | | | | | items]; try reflexivity. now elim (Hv items).
Qed.

Lemma regeocode_raises_witness :
  fst (run (regeocode_location (Some "key") "116.40,39.92") no_upstream)
  = Raise (Exn "ConnectError" "All connection attempts failed").
Proof.
  apply (proj1 (regeocode_raises (Some "key") no_upstream "116.40,39.92" eq_refl)).
  reflexivity.
Defined.

(** ** The API key *)

(** X12. Without an API key (the variable is not set, or is empty) every tool
    returns its text about the key at once, and no request is made. *)
Theorem tools_need_api_key :
  forall key up,
    key_missing key = true ->
    (forall ip,
       run (get_location_by_ip key ip) up = (Ok "Error: No API Key", [])) /\
    (forall address city,
       run (geocode_address key address city) up = (Ok "Error: No API Key", [])) /\
    (forall location,
       run (regeocode_location key location) up = (Ok "Error: No API Key", [])) /\
    (forall origin destination mode city strategy,
       run (plan_route key origin destination mode city strategy) up
       = (Ok "Error: No API Key", [])) /\
    (forall keywords city center radius polygon poi_id limit,
       run (poi_search key keywords city center radius polygon poi_id limit) up
       = (Ok "❌ 错误: 未配置 AMAP_API_KEY。", [])).
Proof.
  intros key up Hk. repeat split; intros;
    unfold run, get_location_by_ip, geocode_address, regeocode_location,
      plan_route, poi_search; rewrite Hk; reflexivity.
Qed.

Lemma tools_need_api_key_witness :
  run (plan_route (Some "") "天安门" "116.45,39.95" "driving" "" 0) driving_found
  = (Ok "Error: No API Key", []).
Proof.
  apply (proj1 (proj2 (proj2 (proj2
           (tools_need_api_key (Some "") driving_found eq_refl))))).
Defined.

Lemma configured_key key : configured key -> exists k, key = Some k /\ k <> "".
Proof.
  unfold configured, key_missing. destruct key as [k |]; [| discriminate].
  intros H. exists k. split; [reflexivity |]. intros ->. discriminate.
Qed.

Lemma authenticated_params key params url timeout :
  configured key ->
  lookup "key" params = Some (key_value key) ->
  authenticated key (Request url params timeout).
Proof.
  intros Hk Hp. destruct (configured_key key Hk) as [k [-> Hne]].
  exists k. auto.
Qed.

Lemma resolver_requests_authenticated key input city :
  configured key ->
  authenticated key (geocode_request key input city) /\
  authenticated key (poi_request key input city).
Proof.
  intros Hk. split; apply authenticated_params; try assumption;
    unfold geo_params, poi_params; destruct (truthy (opt_value city)); reflexivity.
Qed.

Lemma resolver_log_authenticated key input city more r :
  configured key ->
  resolver_requests key input city more ->
  In r more -> authenticated key r.
Proof.
  intros Hk Hmore Hr.
  destruct (resolver_requests_authenticated key input city Hk) as [Hg Hp].
  destruct Hmore as [-> | [-> | ->]]; cbn [In] in Hr; intuition (subst; assumption).
Qed.

Lemma route_request_authenticated key cfg mode city strategy ori_loc des_loc :
  configured key ->
  authenticated key (route_request key cfg mode city strategy ori_loc des_loc).
Proof.
  intros Hk. apply authenticated_params; [assumption |]. unfold route_params.
  destruct (String.eqb (ver cfg) "v3"), (String.eqb mode "driving"),
    (String.eqb mode "transit"); reflexivity.
Qed.

(** The requests of [plan_route], once the mode has an entry: the requests
    of the two resolutions and, when both ends are located, the direction
    request after them. *)
Lemma plan_route_trace key up origin destination mode city strategy cfg :
  configured key ->
  config_get (alias_mode mode) mode_config = Some cfg ->
  exists text more1 more2 last,
    run (plan_route key origin destination mode city strategy) up
    = (Ok text, (more1 ++ more2 ++ last)%list) /\
    resolver_requests key origin (Some city) more1 /\
    resolver_requests key destination (Some city) more2 /\
    (last = [] \/
     exists ori_loc des_loc,
       last = [route_request key cfg (alias_mode mode) city strategy
                 ori_loc des_loc]).
Proof.
  intros Hk Hc.
  destruct (resolve_trace key origin (Some city) up [])
    as [[[ol oc] on] [more1 [Ho H1]]].
  destruct (resolve_trace key destination (Some city) up ([] ++ more1)%list)
    as [[[dl dc] dn] [more2 [Hd H2]]].
  rewrite (plan_route_located _ _ _ _ _ _ _ _ _ _ _ _ _ _ _ _ Hk Hc Ho Hd).
  cbn [app].
  destruct (negb (truthy ol) || negb (truthy dl)).
  - exists (unlocated_text origin destination), more1, more2, [].
    rewrite app_nil_r. auto.
  - cbv zeta.
    set (q := route_request key cfg (alias_mode mode) city strategy ol dl).
    assert (Hq : exists text,
               match up (more1 ++ more2)%list q with
               | Raise e => Ok (request_error e)
               | Ok resp =>
                   match resp_json resp with
                   | Raise e => Ok (request_error e)
                   | Ok raw =>
                       match route_text cfg (alias_mode mode) on dn raw with
                       | Ok text => Ok text
                       | Raise e => Ok (request_error e)
                       end
                   end
               end = Ok text).
    { destruct (up _ q) as [resp | e]; [| eauto].
      destruct (resp_json resp) as [raw | e]; [| eauto].
      destruct (route_text _ _ _ _ _); eauto. }
    destruct Hq as [text ->].
    exists text, more1, more2, [q]. rewrite app_assoc.
    split; [reflexivity | split; [exact H1 | split; [exact H2 |]]].
    right. exists ol, dl. reflexivity.
Qed.


Lemma poi_select_key key keywords city center radius polygon poi_id limit
    url params label :
  poi_select key keywords city center radius polygon poi_id limit
  = Go url params label ->
  lookup "key" params = Some (key_value key).
Proof.
  unfold poi_select.
  destruct (nonempty poi_id); [intros [= <- <- <-]; reflexivity |].
  destruct (nonempty polygon).
  { destruct (nonempty keywords); cbn [negb];
      [intros [= <- <- <-]; reflexivity | discriminate]. }
  destruct (nonempty center).
  { destruct (nonempty keywords); cbn [negb];
      [intros [= <- <- <-]; reflexivity | discriminate]. }
  destruct (nonempty keywords); [| discriminate].
  destruct (nonempty city); intros [= <- <- <-]; reflexivity.
Qed.

(** The requests of [poi_search]: none, or the one of the selected mode. *)
Lemma poi_search_trace key up keywords city center radius polygon poi_id limit :
  configured key ->
  exists text,
    (poi_select key keywords city center radius polygon poi_id limit = Stop text /\
     run (poi_search key keywords city center radius polygon poi_id limit) up
     = (Ok text, [])) \/
    (exists url params label,
       poi_select key keywords city center radius polygon poi_id limit
       = Go url params label /\
       run (poi_search key keywords city center radius polygon poi_id limit) up
       = (Ok text, [search_request url params])).
Proof.
  intros Hk. unfold run, poi_search. rewrite Hk.
  destruct (poi_select key keywords city center radius polygon poi_id limit)
    as [text | url params label].
  - exists text. left. split; reflexivity.
  - unfold try_except, Http.bind, lift, ret. rewrite http_get_step. cbn [app].
    fold (search_request url params).
    destruct (up [] (search_request url params)) as [resp | e].
    + destruct (poi_results label resp) as [text | e];
        eexists; right; exists url, params, label; split; reflexivity.
    + eexists; right; exists url, params, label; split; reflexivity.
Qed.

(** X14. Every request that a tool makes is authenticated: it is made only
    with an API key that is set and not empty, and it carries that key as
    its parameter [key]. *)
Theorem requests_are_authenticated :
  forall key up r,
    (forall ip,
       In r (snd (run (get_location_by_ip key ip) up)) -> authenticated key r) /\
    (forall address city,
       In r (snd (run (geocode_address key address city) up)) ->
       authenticated key r) /\
    (forall location,
       In r (snd (run (regeocode_location key location) up)) ->
       authenticated key r) /\
    (forall origin destination mode city strategy,
       In r (snd (run (plan_route key origin destination mode city strategy) up)) ->
       authenticated key r) /\
    (forall keywords city center radius polygon poi_id limit,
       In r (snd (run (poi_search key keywords city center radius polygon
                         poi_id limit) up)) ->
       authenticated key r).
Proof.
  intros key up r.
  destruct (key_missing key) eqn:Hk.
  { repeat split; intros;
      unfold run, get_location_by_ip, geocode_address, regeocode_location,
        plan_route, poi_search in H; rewrite Hk in H; destruct H. }
  repeat split.
  - intros ip. rewrite (get_location_by_ip_run key ip up Hk). cbn [snd In].
    intros [<- | []]. apply authenticated_params; [assumption |].
    destruct ip as [a |]; [| reflexivity]. cbn [ip_request req_params].
    destruct (nonempty a); reflexivity.
  - intros address city. unfold run, geocode_address. rewrite Hk.
    destruct (resolve_trace key address city up [])
      as [[[loc code] fmt] [more [Hres Hmore]]].
    rewrite (bind_ok _ _ _ _ _ _ Hres). cbn [app].
    destruct (negb (truthy loc)); cbn [ret snd];
      apply (resolver_log_authenticated key address city more r Hk Hmore).
  - intros location. rewrite (regeocode_location_run key location up Hk).
    cbn [snd In]. intros [<- | []]. now apply authenticated_params.
  - intros origin destination mode city strategy.
    destruct (config_get (alias_mode mode) mode_config) as [cfg |] eqn:Hc.
    + destruct (plan_route_trace key up origin destination mode city strategy
                  cfg Hk Hc) as (text & m1 & m2 & last & Hrun & H1 & H2 & H3).
      rewrite Hrun. cbn [snd]. rewrite !in_app_iff. intros [H | [H | H]].
      * exact (resolver_log_authenticated key origin (Some city) m1 r Hk H1 H).
      * exact (resolver_log_authenticated key destination (Some city) m2 r Hk H2 H).
      * destruct H3 as [-> | [ol [dl ->]]]; [destruct H |].
        destruct H as [<- | []]. now apply route_request_authenticated.
    + unfold run, plan_route. rewrite Hk. cbv zeta. rewrite Hc. intros [].
  - intros keywords city center radius polygon poi_id limit.
    destruct (poi_search_trace key up keywords city center radius polygon
                poi_id limit Hk)
      as [text [[_ ->] | (url & params & label & Hsel & ->)]].
    + intros [].
    + cbn [snd In]. intros [<- | []].
      apply authenticated_params; [assumption |].
      exact (poi_select_key _ _ _ _ _ _ _ _ _ _ _ Hsel).
Qed.

Lemma requests_are_authenticated_witness :
  authenticated (Some "key")
    (poi_request (Some "key") "故宫" (Some "北京")).
Proof.
  apply (proj1 (proj2 (requests_are_authenticated (Some "key") poi_listed
                         (poi_request (Some "key") "故宫" (Some "北京"))))
           "故宫" (Some "北京")).
  vm_compute. right. left. reflexivity.
Defined.

(** [plan_route] between two coordinate literals, for a mode of the table. *)
Lemma plan_route_literals key up origin destination mode city strategy cfg :
  configured key ->
  config_get (alias_mode mode) mode_config = Some cfg ->
  is_coordinate (strip origin) = true ->
  is_coordinate (strip destination) = true ->
  run (plan_route key origin destination mode city strategy) up
  = let q := route_request key cfg (alias_mode mode) city strategy
               (JStr (strip origin)) (JStr (strip destination)) in
    (match up [] q with
     | Raise e => Ok (request_error e)
     | Ok resp =>
         match resp_json resp with
         | Raise e => Ok (request_error e)
         | Ok raw =>
             match route_text cfg (alias_mode mode) (JStr origin)
                     (JStr destination) raw with
             | Ok text => Ok text
             | Raise e => Ok (request_error e)
             end
         end
     end, [q]).
Proof.
  intros Hk Hc Ho Hd.
  rewrite (plan_route_located key up origin destination mode city strategy cfg
             _ _ _ _ _ _ _ _ Hk Hc
             (resolve_literal key origin (Some city) up [] Ho)
             (resolve_literal key destination (Some city) up [] Hd)).
  rewrite (literal_truthy _ Ho), (literal_truthy _ Hd). reflexivity.
Qed.

(** X15. With the API key configured and coordinate literals as origin and
    destination, the one request of [plan_route] is, by mode: for transit
    (also [bus], [subway]) the integrated transit endpoint of v3, with the
    city of the call as [city] and [cityd], 北京 when the call gives none, and
    the strategy of the call; for walking (also [walk]) the walking endpoint
    of v3, with no strategy; for bicycling (also [bike], [ride], [cycling])
    the bicycling endpoint of v4, with the key and the two ends only. *)
Theorem plan_route_request_by_mode :
  forall key up origin destination mode city strategy,
    configured key ->
    is_coordinate (strip origin) = true ->
    is_coordinate (strip destination) = true ->
    let log :=
      snd (run (plan_route key origin destination mode city strategy) up) in
    let ends :=
      [("key", key_value key); ("origin", JStr (strip origin));
       ("destination", JStr (strip destination))] in
    (alias_mode mode = "transit" ->
     log = [Request "https://restapi.amap.com/v3/direction/transit/integrated"
              (ends ++ [("output", JStr "JSON"); ("extensions", JStr "all");
                        ("city", JStr (if nonempty city then city else "北京"));
                        ("cityd", JStr (if nonempty city then city else "北京"));
                        ("strategy", JInt strategy)])%list
              None]) /\
    (alias_mode mode = "walking" ->
     log = [Request "https://restapi.amap.com/v3/direction/walking"
              (ends ++ [("output", JStr "JSON"); ("extensions", JStr "all")])%list
              None]) /\
    (alias_mode mode = "bicycling" ->
     log = [Request "https://restapi.amap.com/v4/direction/bicycling" ends None]).
Proof.
  intros key up origin destination mode city strategy Hk Ho Hd log ends.
  subst log ends. repeat split; intros Hm.
  - rewrite (plan_route_literals key up origin destination mode city strategy
               (ModeEntry "v3" "/direction/transit/integrated") Hk
               ltac:(rewrite Hm; reflexivity) Ho Hd).
    rewrite Hm. reflexivity.
  - rewrite (plan_route_literals key up origin destination mode city strategy
               (ModeEntry "v3" "/direction/walking") Hk
               ltac:(rewrite Hm; reflexivity) Ho Hd).
    rewrite Hm. reflexivity.
  - rewrite (plan_route_literals key up origin destination mode city strategy
               (ModeEntry "v4" "/direction/bicycling") Hk
               ltac:(rewrite Hm; reflexivity) Ho Hd).
    rewrite Hm. reflexivity.
Qed.

Lemma plan_route_request_by_mode_witness :
  snd (run (plan_route (Some "key") "116.41,39.92" "116.45,39.95" "subway" "" 3)
         no_upstream)
  = [Request "https://restapi.amap.com/v3/direction/transit/integrated"
       [("key", JStr "key"); ("origin", JStr "116.41,39.92");
        ("destination", JStr "116.45,39.95"); ("output", JStr "JSON");
        ("extensions", JStr "all"); ("city", JStr "北京");
        ("cityd", JStr "北京"); ("strategy", JInt 3)]
       None].
Proof.
  apply (proj1 (plan_route_request_by_mode (Some "key") no_upstream
                  "116.41,39.92" "116.45,39.95" "subway" "" 3
                  eq_refl eq_refl eq_refl)).
  reflexivity.
Defined.

(** The resolver on an upstream that answers no request. *)
Lemma resolve_unreachable key input city up log e :
  (forall l r, up l r = Raise e) ->
  is_coordinate (strip input) = false ->
  exists log' name,
    _resolve_location key input city up log = (Ok (JNull, JNull, name), log').
Proof.
  intros Hup Hlit. destruct (nonempty input) eqn:Hne.
  - rewrite (resolve_asks key input city up log Hne Hlit). cbv zeta.
    rewrite !Hup. cbn [attempt_result]. eauto.
  - unfold _resolve_location. rewrite Hne. cbn [negb]. unfold ret. eauto.
Qed.

(** X16. When no request is answered (every one meets the same transport
    fault), [plan_route], with the API key configured and a mode of the
    table, tells the fault only when both ends are coordinate literals: its
    text is then [Request Error:] and the message of the fault.  As soon as
    one end is not a coordinate literal, the faults of the resolver are
    swallowed: the text is the one of an end that could not be located, and
    every request made went to the geocoder or to the POI text search, none
    to a direction endpoint. *)
Theorem plan_route_unreachable :
  forall key up origin destination mode city strategy cfg e,
    configured key ->
    config_get (alias_mode mode) mode_config = Some cfg ->
    (forall log r, up log r = Raise e) ->
    let outcome := run (plan_route key origin destination mode city strategy) up in
    (is_coordinate (strip origin) = true ->
     is_coordinate (strip destination) = true ->
     fst outcome = Ok ("Request Error: " ++ exn_text e)) /\
    (is_coordinate (strip origin) = false \/
     is_coordinate (strip destination) = false ->
     fst outcome
     = Ok ("无法定位起点(" ++ origin ++ ")或终点(" ++ destination ++ ")") /\
     forall r,
       In r (snd outcome) ->
       req_url r = "https://restapi.amap.com/v3/geocode/geo" \/
       req_url r = "https://restapi.amap.com/v3/place/text").
Proof.
  intros key up origin destination mode city strategy cfg e Hk Hc Hup outcome.
  subst outcome. split.
  - intros Ho Hd.
    rewrite (plan_route_literals key up origin destination mode city strategy
               cfg Hk Hc Ho Hd).
    cbv zeta. rewrite Hup. reflexivity.
  - intros Hside.
    destruct (resolve_trace key origin (Some city) up [])
      as [[[ol oc] on] [m1 [Ho H1]]].
    destruct (resolve_trace key destination (Some city) up ([] ++ m1)%list)
      as [[[dl dc] dn] [m2 [Hd H2]]].
    rewrite (plan_route_located _ _ _ _ _ _ _ _ _ _ _ _ _ _ _ _ Hk Hc Ho Hd).
    assert (Hun : negb (truthy ol) || negb (truthy dl) = true).
    { destruct Hside as [H | H].
      - destruct (resolve_unreachable key origin (Some city) up [] e Hup H)
          as (l & n & Hr). rewrite Hr in Ho. injection Ho as <- _ _ _.
        reflexivity.
      - destruct (resolve_unreachable key destination (Some city) up
                    ([] ++ m1)%list e Hup H) as (l & n & Hr).
        rewrite Hr in Hd. injection Hd as <- _ _ _.
        apply orb_true_r. }
    rewrite Hun. cbn [fst snd app]. split; [reflexivity |].
    intros r. rewrite in_app_iff.
    intros [H | H].
    + destruct H1 as [-> | [-> | ->]]; cbn [In] in H;
        intuition (subst r; auto).
    + destruct H2 as [-> | [-> | ->]]; cbn [In] in H;
        intuition (subst r; auto).
Qed.

Lemma plan_route_unreachable_witness :
  fst (run (plan_route (Some "key") "天安门" "116.45,39.95" "driving" "" 0)
         no_upstream)
  = Ok "无法定位起点(天安门)或终点(116.45,39.95)".
Proof.
  apply (proj2 (plan_route_unreachable (Some "key") no_upstream
                  "天安门" "116.45,39.95" "driving" "" 0
                  (ModeEntry "v3" "/direction/driving")
                  (Exn "ConnectError" "All connection attempts failed")
                  eq_refl eq_refl (fun _ _ => eq_refl))).
  left. reflexivity.
Defined.

(** X17. The transit narrator reads the fare of every plan it renders as a
    float.  When the fare of the first plan is no number (a list, as an empty
    field of the service comes, or an empty string), the narrator raises and
    no plan is rendered; [plan_route] then answers [Request Error:] with the
    message of that exception instead of a route. *)
Theorem transit_unreadable_fare :
  forall t ts duration dur cost e,
    get t "duration" (JInt 0) = Ok duration ->
    _fmt_time duration = Ok dur ->
    get t "cost" (JInt 0) = Ok cost ->
    float cost = Raise e ->
    _format_transit_text (JArr (t :: ts)) = Raise e /\
    (forall l, cost = JArr l ->
       exn_text e
       = "float() argument must be a string or a real number, not 'list'") /\
    (forall key up origin destination mode city strategy cfg
            ori_name des_name raw route,
       configured key ->
       route_answered key up origin destination mode city strategy cfg
         ori_name des_name raw ->
       alias_mode mode = "transit" ->
       get raw "status" JNull = Ok (JStr "1") ->
       get raw "route" (JObj []) = Ok route ->
       get route "transits" (JArr []) = Ok (JArr (t :: ts)) ->
       fst (run (plan_route key origin destination mode city strategy) up)
       = Ok ("Request Error: " ++ exn_text e)).
Proof.
  intros t ts duration dur cost e Hdur Hfmt Hcost Hfloat.
  assert (Hnarr : _format_transit_text (JArr (t :: ts)) = Raise e).
  { unfold _format_transit_text. cbn [truthy negb slice_to Py.bind firstn iterate].
    cbn [for_enumerate]. unfold transit_plan at 1.
    rewrite Hdur. cbn [Py.bind]. rewrite Hfmt. cbn [Py.bind].
    rewrite Hcost. cbn [Py.bind]. rewrite Hfloat. reflexivity. }
  split; [exact Hnarr |]. split.
  - intros l ->. cbn [float] in Hfloat. now injection Hfloat as <-.
  - intros key up origin destination mode city strategy cfg ori_name des_name
           raw route Hk Hans Hm Hstatus Hroute Htransits.
    rewrite (plan_route_answered _ _ _ _ _ _ _ _ _ _ _ Hk Hans).
    destruct Hans as [Hc _]. rewrite Hm in *.
    injection Hc as <-. unfold route_text.
    cbn [ver String.eqb Ascii.eqb Bool.eqb].
    rewrite Hstatus. cbn [Py.bind eq String.eqb Ascii.eqb Bool.eqb negb].
    rewrite Hroute. cbn [Py.bind]. rewrite Htransits. cbn [Py.bind].
    rewrite Hnarr. reflexivity.
Qed.

Lemma transit_unreadable_fare_witness :
  _format_transit_text (JArr [unpriced_plan; subway_plan "2700"])
  = Raise (Exn "TypeError"
             "float() argument must be a string or a real number, not 'list'").
Proof.
  apply (proj1 (transit_unreadable_fare unpriced_plan [subway_plan "2700"]
                  (JStr "2400") "40分钟" (JArr [])
                  (Exn "TypeError"
                     "float() argument must be a string or a real number, not 'list'")
                  eq_refl eq_refl eq_refl eq_refl)).
Defined.

(** ** The POI search: its answers *)

(** What [poi_search] does once a mode is selected. *)
Lemma poi_search_run key up keywords city center radius polygon poi_id limit
    url params label :
  configured key ->
  poi_select key keywords city center radius polygon poi_id limit
  = Go url params label ->
  run (poi_search key keywords city center radius polygon poi_id limit) up
  = (match up [] (search_request url params) with
     | Raise e => Ok (search_error e)
     | Ok resp =>
         match poi_results label resp with
         | Ok text => Ok text
         | Raise e => Ok (search_error e)
         end
     end, [search_request url params]).
Proof.
  intros Hk Hs. unfold run, poi_search. rewrite Hk, Hs.
  unfold try_except, Http.bind, lift, ret. rewrite http_get_step. cbn [app].
  fold (search_request url params).
  destruct (up [] (search_request url params)) as [resp | e]; [| reflexivity].
  destruct (poi_results label resp); reflexivity.
Qed.

(** X18. [poi_search] never raises, whatever the upstream does, and it makes
    at most one request. *)
Theorem poi_search_answers :
  forall key up keywords city center radius polygon poi_id limit,
    exists text log,
      run (poi_search key keywords city center radius polygon poi_id limit) up
      = (Ok text, log) /\
      (length log <= 1)%nat.
Proof.
  intros key up keywords city center radius polygon poi_id limit.
  destruct (key_missing key) eqn:Hk.
  - eexists _, []. unfold run, poi_search. rewrite Hk.
    split; [reflexivity | simpl; lia].
  - destruct (poi_search_trace key up keywords city center radius polygon
                poi_id limit Hk)
      as [text [[_ ->] | (url & params & label & _ & ->)]];
      eexists _, _; (split; [reflexivity | simpl; lia]).
Qed.

(** X19. With the API key configured and a search mode selected, [poi_search]
    turns every failure of its request into a text: a transport fault and a
    body that is not JSON into the text of an exception, a status code other
    than 200 into the text of an HTTP failure with that code, a status of the
    service other than ["1"] into the text of the service error with its
    field [info], and a success with no POI (no entry [pois], or an empty
    one) into the text that nothing was found, which names the search
    mode. *)
Theorem poi_search_failures :
  forall key up keywords city center radius polygon poi_id limit url params label,
    configured key ->
    poi_select key keywords city center radius polygon poi_id limit
    = Go url params label ->
    let q := search_request url params in
    let result :=
      fst (run (poi_search key keywords city center radius polygon poi_id limit)
             up) in
    (forall e, up [] q = Raise e -> result = Ok ("❌ 运行异常: " ++ exn_text e)) /\
    (forall e, up [] q = Ok (Response 200 (Raise e)) ->
       result = Ok ("❌ 运行异常: " ++ exn_text e)) /\
    (forall code body, up [] q = Ok (Response code body) -> code <> 200 ->
       result = Ok ("❌ HTTP请求失败: " ++ int_text code)) /\
    (forall data status info,
       up [] q = Ok (Response 200 (Ok data)) ->
       get data "status" JNull = Ok status -> eq status (JStr "1") = false ->
       get data "info" JNull = Ok info ->
       result = Ok ("❌ 高德API错误: " ++ str info)) /\
    (forall data pois,
       up [] q = Ok (Response 200 (Ok data)) ->
       get data "status" JNull = Ok (JStr "1") ->
       get data "pois" (JArr []) = Ok pois -> truthy pois = false ->
       result = Ok ("⚠️ 在[" ++ label ++ "]未找到相关结果。")).
Proof.
  intros key up keywords city center radius polygon poi_id limit url params label
         Hk Hs q result. subst q result.
  rewrite (poi_search_run _ _ _ _ _ _ _ _ _ _ _ _ Hk Hs). cbn [fst].
  repeat match goal with |- _ /\ _ => split end.
  - intros e ->. reflexivity.
  - intros e ->. reflexivity.
  - intros code body -> Hcode. unfold poi_results. cbn [status_code].
    apply Z.eqb_neq in Hcode. rewrite Hcode. reflexivity.
  - intros data status info -> Hstatus Hne Hinfo. unfold poi_results.
    cbn [status_code resp_json Z.eqb Pos.eqb negb Py.bind].
    rewrite Hstatus. cbn [Py.bind]. rewrite Hne. cbn [negb].
    rewrite Hinfo. reflexivity.
  - intros data pois -> Hstatus Hpois Hnone. unfold poi_results.
    cbn [status_code resp_json Z.eqb Pos.eqb negb Py.bind].
    rewrite Hstatus. cbn [Py.bind eq String.eqb Ascii.eqb Bool.eqb negb].
    rewrite Hpois. cbn [Py.bind]. rewrite Hnone. reflexivity.
Qed.

Lemma poi_search_failures_witness :
  fst (run (poi_search (Some "key") "咖啡" "北京" "" 3000 "" "" 10) quota_exceeded)
  = Ok "❌ 高德API错误: DAILY_QUERY_OVER_LIMIT".
Proof.
  apply (proj1 (proj2 (proj2 (proj2
           (poi_search_failures (Some "key") quota_exceeded "咖啡" "北京" "" 3000
              "" "" 10 _ _ _ eq_refl eq_refl))))
           (JObj [("status", JStr "0"); ("info", JStr "DAILY_QUERY_OVER_LIMIT");
                  ("infocode", JStr "10003")])
           (JStr "0") (JStr "DAILY_QUERY_OVER_LIMIT"));
    reflexivity.
Defined.

(** The entry that the loop of [poi_search] adds for one POI. *)
Lemma poi_entry_shape lines idx poi lines' :
  poi_entry lines idx poi = Ok lines' ->
  exists name distance dist_info rest,
    get poi "name" (JStr "未知") = Ok name /\
    get poi "distance" (JStr "") = Ok distance /\
    (if truthy distance
     then exists d, _fmt_dist distance = Ok d /\
                    dist_info = " (📏 距中心 " ++ d ++ ")"
     else dist_info = "") /\
    lines' = append lines (int_text idx ++ ". **" ++ str name ++ "**" ++ dist_info
                           ++ newline ++ rest).
Proof.
  unfold poi_entry. intros H.
  bind_in H as name Hname. bind_in H as addr0 Haddr0. bind_in H as addr Haddr.
  bind_in H as distance Hdistance. bind_in H as dist_info Hinfo.
  bind_in H as type Htype. bind_in H as p_type Hp_type.
  bind_in H as tel0 Htel0. bind_in H as tel Htel. bind_in H as p_id Hp_id.
  bind_in H as biz Hbiz. injection H as <-.
  exists name, distance, dist_info.
  assert (Hd : if truthy distance
               then exists d, _fmt_dist distance = Ok d /\
                              dist_info = " (📏 距中心 " ++ d ++ ")"
               else dist_info = "").
  { destruct (truthy distance).
    - bind_in Hinfo as d_val Hd_val. bind_in Hinfo as dist_str Hstr.
      injection Hinfo as <-. exists dist_str. split; [| reflexivity].
      unfold _fmt_dist. rewrite Hd_val. exact Hstr.
    - now injection Hinfo as <-. }
  destruct (truthy tel);
    (destruct biz as [| | | | | | items];
     [| | | | | |
      destruct (match lookup "rating" items with Some v => v | None => JNull end)
        as [| | | | r | |];
      [| | | |
       destruct (truthy (JStr r) && isdigit (remove_char "." r)) | |];
      destruct (truthy (match lookup "cost" items with Some v => v | None => JNull end)
                && negb (eq (match lookup "cost" items with
                             | Some v => v | None => JNull end) (JArr [])))];
     eexists; (split; [exact Hname | split; [exact Hdistance | split; [exact Hd |]]]);
     cbv zeta;
     repeat (progress (rewrite ?append_assoc; cbn [String.append newline]));
     reflexivity).
Qed.

Lemma prefix_app_app a b c : String.prefix (a ++ b) (a ++ b ++ c) = true.
Proof. rewrite <- append_assoc. apply prefix_app. Qed.

Lemma poi_entries items : forall idx lines lines',
  for_enumerate poi_entry idx items lines = Ok lines' ->
  exists entries,
    lines' = (lines ++ entries)%list /\
    length entries = length items /\
    forall i e, nth_error entries i = Some e ->
      startswith e (int_text (idx + Z.of_nat i) ++ ". **") = true.
Proof.
  induction items as [| poi items IH]; intros idx lines lines' H;
    cbn [for_enumerate] in H.
  - injection H as <-. exists []. rewrite app_nil_r.
    repeat split. intros [| i] e; discriminate.
  - bind_in H as lines1 Hentry.
    apply poi_entry_shape in Hentry.
    destruct Hentry as (name & distance & info & rest & _ & _ & _ & ->).
    apply IH in H. destruct H as (entries & -> & Hlen & Hnum).
    eexists (_ :: entries). unfold append. rewrite <- app_assoc.
    split; [reflexivity |]. split; [cbn [length]; now rewrite Hlen |].
    intros [| i] e He; cbn [nth_error] in He.
    + injection He as <-. rewrite Z.add_0_r. unfold startswith.
      apply (prefix_app_app (int_text idx) ". **").
    + apply Hnum in He. rewrite Nat2Z.inj_succ.
      now replace (idx + Z.succ (Z.of_nat i)) with (idx + 1 + Z.of_nat i) by lia.
Qed.

(** X20. When the search is answered with a non-empty list of POIs, the text
    of [poi_search] is a heading and one entry per POI, separated by blank
    lines: the heading tells the search mode and the number of POIs of the
    answer, which is the number of entries, and each entry begins with its
    number, counted from 1. *)
Theorem poi_search_listing :
  forall label resp data pois text,
    status_code resp = 200 ->
    resp_json resp = Ok data ->
    get data "status" JNull = Ok (JStr "1") ->
    get data "pois" (JArr []) = Ok (JArr pois) ->
    pois <> [] ->
    poi_results label resp = Ok text ->
    exists entries,
      text = join (newline ++ newline)
               (poi_heading label (Z.of_nat (length pois)) :: entries) /\
      length entries = length pois /\
      forall i e, nth_error entries i = Some e ->
        startswith e (int_text (Z.of_nat i + 1) ++ ". **") = true.
Proof.
  intros label resp data pois text Hcode Hjson Hstatus Hpois Hne H.
  unfold poi_results in H. rewrite Hcode, Hjson in H.
  cbn [Z.eqb Pos.eqb negb Py.bind] in H. rewrite Hstatus in H.
  cbn [Py.bind eq String.eqb Ascii.eqb Bool.eqb negb] in H.
  rewrite Hpois in H. cbn [Py.bind] in H.
  destruct pois as [| poi pois]; [now elim Hne |].
  cbn [truthy negb len Py.bind iterate] in H.
  bind_in H as lines Hlines. injection H as <-.
  apply poi_entries in Hlines. destruct Hlines as (entries & -> & Hlen & Hnum).
  exists entries. split; [reflexivity |]. split; [exact Hlen |].
  intros i e He. apply Hnum in He. now rewrite Z.add_comm.
Qed.

Lemma poi_search_listing_witness :
  exists entries,
    cafes_text
    = join (newline ++ newline) (poi_heading "周边3000米" 2 :: entries) /\
    length entries = 2%nat /\
    forall i e, nth_error entries i = Some e ->
      startswith e (int_text (Z.of_nat i + 1) ++ ". **") = true.
Proof.
  apply (poi_search_listing "周边3000米" cafes_found
           (JObj [("status", JStr "1"); ("count", JStr "2");
                  ("pois", JArr [cafe_near; cafe_far])])
           [cafe_near; cafe_far] cafes_text);
    reflexivity || discriminate.
Defined.

(** X21. In the entry of a POI the distance from the center is shown only
    when the POI has one (the field is there and is not empty), right after
    the name, and it reads as [_fmt_dist] renders that distance: whole meters
    below one kilometer, kilometers with one decimal from there on. *)
Theorem poi_entry_distance :
  forall lines idx poi lines' distance name,
    poi_entry lines idx poi = Ok lines' ->
    get poi "distance" (JStr "") = Ok distance ->
    get poi "name" (JStr "未知") = Ok name ->
    if truthy distance then
      exists d rest,
        _fmt_dist distance = Ok d /\
        lines' = append lines (int_text idx ++ ". **" ++ str name ++ "**"
                               ++ " (📏 距中心 " ++ d ++ ")" ++ newline ++ rest)
    else
      exists rest,
        lines' = append lines (int_text idx ++ ". **" ++ str name ++ "**"
                               ++ newline ++ rest).
Proof.
  intros lines idx poi lines' distance name H Hdist Hname.
  apply poi_entry_shape in H.
  destruct H as (name' & distance' & info & rest & Hname' & Hdist' & Hinfo & ->).
  rewrite Hdist in Hdist'. injection Hdist' as <-.
  rewrite Hname in Hname'. injection Hname' as <-.
  destruct (truthy distance).
  - destruct Hinfo as [d [Hd ->]]. exists d, rest. split; [exact Hd |].
    now rewrite !append_assoc.
  - subst info. now exists rest.
Qed.

Lemma poi_entry_distance_witness :
  exists d rest,
    _fmt_dist (JStr "1250") = Ok d /\
    [cafe_near_entry]
    = append [] (int_text 1 ++ ". **" ++ "星巴克(东方广场店)" ++ "**"
                 ++ " (📏 距中心 " ++ d ++ ")" ++ newline ++ rest).
Proof.
  apply (poi_entry_distance [] 1 cafe_near [cafe_near_entry] (JStr "1250")
           (JStr "星巴克(东方广场店)"));
    reflexivity.
Defined.

(** ** Decimal texts read back *)

Lemma digit_cases d :
  0 <= d <= 9 ->
  d = 0 \/ d = 1 \/ d = 2 \/ d = 3 \/ d = 4 \/ d = 5 \/ d = 6 \/ d = 7 \/
  d = 8 \/ d = 9.
Proof. lia. Qed.

Ltac each_digit d H :=
  destruct (digit_cases d H) as [-> | [-> | [-> | [-> | [-> | [-> | [-> | [-> |
    [-> | ->]]]]]]]]].

Lemma digit_char_value d :
  0 <= d <= 9 -> digit_value (String (digit_char d) "") = Some d.
Proof. intros H. each_digit d H; vm_compute; reflexivity. Qed.

Lemma digit_char_not_cont d : 0 <= d <= 9 -> is_cont (digit_char d) = false.
Proof. intros H. each_digit d H; reflexivity. Qed.

Lemma digit_char_not_space d :
  0 <= d <= 9 -> is_space (String (digit_char d) "") = false.
Proof.
  intros H. apply digit_not_space. unfold is_digit.
  now rewrite (digit_char_value d H).
Qed.

(** The digits that [pos_digits] puts before what it is given. *)
Lemma pos_digits_text fuel : forall n ds,
  (0 < fuel)%nat -> 0 <= n < 2 ^ Z.of_nat fuel ->
  exists ds',
    ds' <> [] /\ Forall (fun d => 0 <= d <= 9) ds' /\
    PyFloat.digits_value ds' = n /\
    pos_digits fuel n (digits_text ds) = digits_text (ds' ++ ds).
Proof.
  induction fuel as [| fuel IH]; intros n ds Hfuel Hn; [lia |].
  cbn [pos_digits].
  pose proof (Z.mod_pos_bound n 10 ltac:(lia)) as Hd.
  destruct (Z.ltb_spec n 10) as [Hsmall | Hbig].
  - exists [n]. rewrite Z.mod_small by lia.
    split; [discriminate |]. split; [constructor; [lia | constructor] |].
    split; [unfold PyFloat.digits_value; cbn [fold_left]; lia | reflexivity].
  - assert (Hq : 0 <= n / 10 < 2 ^ Z.of_nat fuel).
    { split; [apply Z.div_pos; lia |].
      apply Z.div_lt_upper_bound; [lia |].
      rewrite Nat2Z.inj_succ, Z.pow_succ_r in Hn by lia. lia. }
    assert (Hpos : (0 < fuel)%nat).
    { destruct fuel; [| lia]. cbn in Hq.
      assert (1 <= n / 10) by (apply Z.div_le_lower_bound; lia). lia. }
    destruct (IH (n / 10) (n mod 10 :: ds) Hpos Hq) as (ds' & Hne & Hall & Hval & Htext).
    exists (ds' ++ [n mod 10])%list.
    split; [| split; [| split]].
    + destruct ds'; discriminate.
    + apply Forall_app. split; [exact Hall |]. constructor; [lia | constructor].
    + unfold PyFloat.digits_value in *. rewrite fold_left_app. cbn [fold_left].
      rewrite Hval. pose proof (Z.div_mod n 10 ltac:(lia)). lia.
    + cbn [digits_text] in Htext. rewrite Htext, <- app_assoc. reflexivity.
Qed.

Lemma nat_text_digits n :
  0 <= n ->
  exists ds,
    ds <> [] /\ Forall (fun d => 0 <= d <= 9) ds /\
    PyFloat.digits_value ds = n /\ nat_text n = digits_text ds.
Proof.
  intros Hn. unfold nat_text.
  destruct (pos_digits_text (S (Z.to_nat (Z.log2 n))) n [] ltac:(lia))
    as (ds & Hne & Hall & Hval & Htext).
  - split; [lia |]. rewrite Nat2Z.inj_succ, Z2Nat.id by apply Z.log2_nonneg.
    destruct (Z.eq_dec n 0) as [-> | Hnz]; [reflexivity |].
    apply Z.log2_spec. lia.
  - exists ds. rewrite app_nil_r in Htext. auto.
Qed.

Lemma chars_digits_text ds :
  Forall (fun d => 0 <= d <= 9) ds ->
  chars (digits_text ds) = map (fun d => String (digit_char d) "") ds.
Proof.
  induction 1 as [| d ds Hd Hds IH]; [reflexivity |].
  cbn [digits_text chars map]. rewrite IH.
  destruct Hds as [| d' ds' Hd' _]; [reflexivity |].
  cbn [map starts_with_cont]. now rewrite (digit_char_not_cont d' Hd').
Qed.

Lemma chars_signed_text ds :
  Forall (fun d => 0 <= d <= 9) ds ->
  chars ("-" ++ digits_text ds)
  = "-" :: map (fun d => String (digit_char d) "") ds.
Proof.
  intros H. cbn [String.append chars]. rewrite (chars_digits_text ds H).
  destruct H as [| d' ds' Hd' _]; [reflexivity |].
  cbn [map starts_with_cont]. now rewrite (digit_char_not_cont d' Hd').
Qed.

Lemma digit_chars_not_space ds :
  Forall (fun d => 0 <= d <= 9) ds ->
  Forall (fun ch => is_space ch = false)
    (map (fun d => String (digit_char d) "") ds).
Proof.
  induction 1 as [| d ds Hd _ IH]; constructor;
    [now apply digit_char_not_space | exact IH].
Qed.

Lemma strip_clean s :
  Forall (fun ch => is_space ch = false) (chars s) -> strip s = s.
Proof.
  intros H. unfold strip.
  rewrite (drop_while_kept _ _ H), (drop_while_end_kept _ _ H).
  apply unchars_chars.
Qed.

Lemma map_digit_tokens ds :
  Forall (fun d => 0 <= d <= 9) ds ->
  map (fun ch => match digit_value ch with
                 | Some d => PyFloat.TDigit d
                 | None => PyFloat.TChar ch
                 end)
      (map (fun d => String (digit_char d) "") ds)
  = map PyFloat.TDigit ds.
Proof.
  induction 1 as [| d ds Hd _ IH]; [reflexivity |].
  cbn [map]. now rewrite (digit_char_value d Hd), IH.
Qed.

Lemma tokenize_digits_text ds :
  Forall (fun d => 0 <= d <= 9) ds ->
  PyFloat.tokenize (digits_text ds) = map PyFloat.TDigit ds.
Proof.
  intros H. unfold PyFloat.tokenize.
  rewrite strip_clean; rewrite (chars_digits_text ds H).
  - now apply map_digit_tokens.
  - now apply digit_chars_not_space.
Qed.

Lemma tokenize_signed_text ds :
  Forall (fun d => 0 <= d <= 9) ds ->
  PyFloat.tokenize ("-" ++ digits_text ds)
  = PyFloat.TChar "-" :: map PyFloat.TDigit ds.
Proof.
  intros H. unfold PyFloat.tokenize.
  rewrite strip_clean; rewrite (chars_signed_text ds H).
  - cbn [map]. now rewrite (map_digit_tokens ds H).
  - constructor; [reflexivity | now apply digit_chars_not_space].
Qed.

Lemma digit_run_digits ds :
  PyFloat.digit_run (map PyFloat.TDigit ds) = (ds, []).
Proof.
  induction ds as [| d ds IH]; [reflexivity |].
  cbn [map PyFloat.digit_run].
  destruct ds as [| d' ds']; [reflexivity |].
  cbn [map] in *. now rewrite IH.
Qed.

(** [int] reads the decimal text of an integer back. *)
Lemma int_of_text n : int (JStr (int_text n)) = Ok n.
Proof.
  unfold int, PyFloat.parse_int, int_text.
  destruct (Z.ltb_spec n 0) as [Hneg | Hpos].
  - destruct (nat_text_digits (- n) ltac:(lia)) as (ds & Hne & Hall & Hval & ->).
    rewrite (tokenize_signed_text ds Hall).
    cbn [PyFloat.read_sign String.eqb Ascii.eqb Bool.eqb].
    rewrite digit_run_digits. destruct ds as [| d ds]; [now elim Hne |].
    rewrite Hval. f_equal. lia.
  - destruct (nat_text_digits n Hpos) as (ds & Hne & Hall & Hval & ->).
    rewrite (tokenize_digits_text ds Hall).
    destruct ds as [| d ds]; [now elim Hne |].
    cbn [map PyFloat.read_sign].
    change (PyFloat.TDigit d :: map PyFloat.TDigit ds)
      with (map PyFloat.TDigit (d :: ds)).
    rewrite digit_run_digits. now rewrite Hval.
Qed.

(** ** The formatting helpers *)

(** X22. For a duration of [n >= 0] seconds of at most 4300 digits (more
    digits than that CPython does not convert between an integer and its
    text), given as a number or as its decimal text (as the service gives
    it), [_fmt_time] shows the whole minutes of the duration, the seconds
    left over being dropped: below one hour the minutes alone, from one hour
    on the hours and the minutes left, which are then fewer than 60. *)
Theorem fmt_time_whole_minutes :
  forall n,
    0 <= n ->
    n < 10 ^ int_max_str_digits ->
    let h := n / 3600 in
    let m := n / 60 mod 60 in
    let shown := if n <? 3600 then int_text m ++ "分钟"
                 else int_text h ++ "小时" ++ int_text m ++ "分钟" in
    _fmt_time (JInt n) = Ok shown /\
    _fmt_time (JStr (int_text n)) = Ok shown /\
    0 <= m < 60 /\
    ((n <? 3600) = true -> h = 0) /\
    0 <= n - 60 * (60 * h + m) < 60.
Proof.
  intros n Hn _ h m shown. subst h m shown.
  assert (Hdiv : n / 3600 = n / 60 / 60) by (now rewrite Z.div_div by lia).
  pose proof (Z.mod_pos_bound (n / 60) 60 ltac:(lia)) as Hm.
  pose proof (Z.div_mod (n / 60) 60 ltac:(lia)) as Hq.
  pose proof (Z.div_mod n 60 ltac:(lia)) as Hs.
  pose proof (Z.mod_pos_bound n 60 ltac:(lia)) as Hr.
  assert (Hlt : (n / 60 <? 60) = (n <? 3600)).
  { destruct (Z.ltb_spec n 3600) as [H | H].
    - apply Z.ltb_lt. apply Z.div_lt_upper_bound; lia.
    - apply Z.ltb_ge. apply Z.div_le_lower_bound; lia. }
  assert (Hnum : _fmt_time (JInt n)
                 = Ok (if n <? 3600 then int_text (n / 60 mod 60) ++ "分钟"
                       else int_text (n / 3600) ++ "小时"
                            ++ int_text (n / 60 mod 60) ++ "分钟")).
  { unfold _fmt_time. cbn [int Py.bind]. cbv zeta. rewrite Hlt.
    destruct (Z.ltb_spec n 3600) as [H | H].
    - rewrite Z.mod_small; [reflexivity |].
      split; [apply Z.div_pos; lia | apply Z.div_lt_upper_bound; lia].
    - now rewrite Hdiv. }
  split; [exact Hnum |]. split.
  - rewrite <- Hnum. unfold _fmt_time. now rewrite int_of_text.
  - repeat split; lia.
Qed.

Lemma fmt_time_whole_minutes_witness :
  _fmt_time (JStr (int_text 3725)) = Ok "1小时2分钟".
Proof.
  apply (proj1 (proj2 (fmt_time_whole_minutes 3725 ltac:(lia)
                         ltac:(vm_compute; reflexivity)))).
Defined.

(** The helper on every whole number of meters below 1000, given as a
    number and as its decimal text. *)
Lemma fmt_dist_meters_table :
  forallb (fun k =>
             let n := Z.of_nat k in
             says (_fmt_dist (JInt n)) (int_text n ++ "米") &&
             says (_fmt_dist (JStr (int_text n))) (int_text n ++ "米"))
          (seq 0 1000) = true.
Proof. vm_compute. reflexivity. Qed.

Lemma says_ok r text : says r text = true -> r = Ok text.
Proof.
  destruct r as [t | e]; cbn [says]; [| discriminate].
  intros H. apply String.eqb_eq in H. now subst.
Qed.

(** X23. A distance of [n] whole meters below one kilometer, given as a
    number or as its decimal text (as the service gives it), is shown by
    [_fmt_dist] as that number of meters. *)
Theorem fmt_dist_below_kilometer :
  forall n,
    0 <= n < 1000 ->
    _fmt_dist (JInt n) = Ok (int_text n ++ "米") /\
    _fmt_dist (JStr (int_text n)) = Ok (int_text n ++ "米").
Proof.
  intros n Hn.
  pose proof (proj1 (forallb_forall _ _) fmt_dist_meters_table (Z.to_nat n)) as H.
  cbv beta zeta in H. rewrite Z2Nat.id in H by lia.
  assert (Hin : In (Z.to_nat n) (seq 0 1000)) by (apply in_seq; lia).
  apply H in Hin. apply andb_true_iff in Hin. destruct Hin as [H1 H2].
  split; now apply says_ok.
Qed.

Lemma fmt_dist_below_kilometer_witness :
  _fmt_dist (JStr (int_text 850)) = Ok (int_text 850 ++ "米").
Proof.
  apply (proj2 (fmt_dist_below_kilometer 850 ltac:(lia))).
Defined.

(** ** Parameters that do not matter *)

(** X24. A travel mode given by an alias behaves in every respect as the mode
    it stands for: the requests made and the text returned are the same. *)
Theorem plan_route_alias_behaves :
  forall key up origin destination mode city strategy,
    run (plan_route key origin destination mode city strategy) up
    = run (plan_route key origin destination (alias_mode mode) city strategy) up.
Proof.
  intros key up origin destination mode city strategy.
  unfold run, plan_route. cbv zeta. now rewrite alias_mode_idempotent.
Qed.

Lemma route_params_strategy key cfg mode city s1 s2 ori_loc des_loc :
  String.eqb mode "transit" = false ->
  route_params key cfg mode city s1 ori_loc des_loc
  = route_params key cfg mode city s2 ori_loc des_loc.
Proof. intros H. unfold route_params. now rewrite H. Qed.

(** X25. The argument [strategy] of [plan_route] matters for transit only:
    for every other mode the requests made and the text returned do not
    depend on it. *)
Theorem plan_route_strategy_only_transit :
  forall key up origin destination mode city s1 s2,
    alias_mode mode <> "transit" ->
    run (plan_route key origin destination mode city s1) up
    = run (plan_route key origin destination mode city s2) up.
Proof.
  intros key up origin destination mode city s1 s2 Hm.
  apply String.eqb_neq in Hm.
  unfold run, plan_route. cbv zeta.
  destruct (key_missing key); [reflexivity |].
  destruct (config_get (alias_mode mode) mode_config) as [cfg |]; [| reflexivity].
  unfold try_except, Http.bind.
  destruct (_resolve_location key origin (Some city) up [])
    as [[[[ol oc] on] | e] log1]; [| reflexivity].
  destruct (_resolve_location key destination (Some city) up log1)
    as [[[[dl dc] dn] | e] log2]; [| reflexivity].
  destruct (negb (truthy ol) || negb (truthy dl)); [reflexivity |].
  now rewrite (route_params_strategy key cfg _ city s1 s2 ol dl Hm).
Qed.

Lemma plan_route_strategy_only_transit_witness :
  run (plan_route (Some "key") "116.41,39.92" "116.45,39.95" "bike" "" 0)
    driving_found
  = run (plan_route (Some "key") "116.41,39.92" "116.45,39.95" "bike" "" 7)
      driving_found.
Proof.
  apply (plan_route_strategy_only_transit (Some "key") driving_found
           "116.41,39.92" "116.45,39.95" "bike" "" 0 7).
  discriminate.
Defined.

(** X26. [poi_search] reads only the parameters of the mode it selects.  With
    a POI id, no other parameter matters; in the polygon search the city, the
    center and the radius do not matter; in the search around a center the
    city does not; in the text search the radius does not.  In each case the
    requests made and the text returned are the same. *)
Theorem poi_search_reads_its_mode :
  forall key up keywords city center radius polygon poi_id limit,
    (nonempty poi_id = true ->
     forall keywords' city' center' radius' polygon' limit',
       run (poi_search key keywords city center radius polygon poi_id limit) up
       = run (poi_search key keywords' city' center' radius' polygon' poi_id
                limit') up) /\
    (nonempty poi_id = false -> nonempty polygon = true ->
     forall city' center' radius',
       run (poi_search key keywords city center radius polygon poi_id limit) up
       = run (poi_search key keywords city' center' radius' polygon poi_id
                limit) up) /\
    (nonempty poi_id = false -> nonempty polygon = false ->
     nonempty center = true ->
     forall city',
       run (poi_search key keywords city center radius polygon poi_id limit) up
       = run (poi_search key keywords city' center radius polygon poi_id limit)
           up) /\
    (nonempty poi_id = false -> nonempty polygon = false ->
     nonempty center = false ->
     forall radius',
       run (poi_search key keywords city center radius polygon poi_id limit) up
       = run (poi_search key keywords city center radius' polygon poi_id limit)
           up).
Proof.
  intros key up keywords city center radius polygon poi_id limit.
  repeat split; intros; unfold run, poi_search, poi_select;
    repeat match goal with H : nonempty _ = _ |- _ => rewrite H; clear H end;
    reflexivity.
Qed.

Lemma poi_search_reads_its_mode_witness :
  run (poi_search (Some "key") "咖啡" "北京" "" 3000 "" "" 10) quota_exceeded
  = run (poi_search (Some "key") "咖啡" "北京" "" 500 "" "" 10) quota_exceeded.
Proof.
  apply (proj2 (proj2 (proj2
           (poi_search_reads_its_mode (Some "key") quota_exceeded "咖啡" "北京"
              "" 3000 "" "" 10))));
    reflexivity.
Defined.

(** ** The navigation narrator: its layout *)

Lemma nav_step_line lines i s lines' :
  nav_step lines i s = Ok lines' ->
  exists desc, lines' = append lines (int_text (i + 1) ++ ". " ++ desc).
Proof.
  unfold nav_step. intros H. repeat inv_bind H. injection H as <-.
  eexists. reflexivity.
Qed.

Lemma nav_steps_numbered steps : forall i lines lines',
  for_enumerate nav_step i steps lines = Ok lines' ->
  exists more,
    lines' = (lines ++ more)%list /\
    length more = length steps /\
    forall k l, nth_error more k = Some l ->
      startswith l (int_text (i + Z.of_nat k + 1) ++ ". ") = true.
Proof.
  induction steps as [| s steps IH]; intros i lines lines' H;
    cbn [for_enumerate] in H.
  - injection H as <-. exists []. rewrite app_nil_r.
    repeat split. intros [| k] l; discriminate.
  - inv_bind H. apply nav_step_line in Hv. destruct Hv as [desc ->].
    apply IH in H. destruct H as (more & -> & Hlen & Hnum).
    eexists (_ :: more). unfold append. rewrite <- app_assoc.
    split; [reflexivity |]. split; [cbn [length]; now rewrite Hlen |].
    intros [| k] l Hl; cbn [nth_error] in Hl.
    + injection Hl as <-. rewrite Z.add_0_r. unfold startswith.
      apply (prefix_app_app (int_text (i + 1)) ". ").
    + apply Hnum in Hl. rewrite Nat2Z.inj_succ.
      now replace (i + Z.succ (Z.of_nat k) + 1) with (i + 1 + Z.of_nat k + 1)
        by lia.
Qed.

(** X27. A narration of [_format_nav_text] is made of four opening lines (the
    title of the mode, the summary, a rule and the heading of the steps) and
    one line per step of the path, each beginning with its number, counted
    from 1.  The summary tells the duration and the
    distance of the path as [_fmt_time] and [_fmt_dist] render them (0 when
    the path has none); for driving, and for no other mode, it goes on with
    the traffic lights and the tolls (["0"] when the path has none) and,
    exactly when the field [restriction] is ["1"], with the warning of a
    restricted area. *)
Theorem nav_text_layout :
  forall mode path text,
    _format_nav_text mode path = Ok text ->
    exists duration dur distance dist lights tolls restriction steps more,
      get path "duration" (JInt 0) = Ok duration /\ _fmt_time duration = Ok dur /\
      get path "distance" (JInt 0) = Ok distance /\ _fmt_dist distance = Ok dist /\
      get path "traffic_lights" (JStr "0") = Ok lights /\
      get path "tolls" (JStr "0") = Ok tolls /\
      get path "restriction" JNull = Ok restriction /\
      Py.bind (get path "steps" (JArr [])) iterate = Ok steps /\
      text = join newline
               ((nav_icon mode ++ " 【" ++ mode ++ "导航】")
                :: nav_summary mode dur dist lights tolls restriction
                :: "--------------------" :: "📝 详细路线:" :: more) /\
      length more = length steps /\
      forall k l, nth_error more k = Some l ->
        startswith l (int_text (Z.of_nat k + 1) ++ ". ") = true.
Proof.
  intros mode path text H. unfold _format_nav_text in H.
  bind_in H as duration Hduration. bind_in H as dur Hdur.
  bind_in H as distance Hdistance. bind_in H as dist Hdist.
  destruct (get_of_object _ _ _ _ Hduration) as [items ->].
  cbv zeta in H. bind_in H as summary Hsummary.
  bind_in H as steps0 Hsteps0. bind_in H as steps Hsteps.
  bind_in H as lines Hlines. injection H as <-.
  apply nav_steps_numbered in Hlines.
  destruct Hlines as (more & -> & Hlen & Hnum).
  exists duration, dur, distance, dist. eexists _, _, _, steps, more.
  repeat (split; [first [eassumption | reflexivity] |]).
  split; [rewrite Hsteps0; exact Hsteps |].
  split; [| split; [exact Hlen | exact Hnum]].
  cbn [app]. unfold nav_summary.
  destruct (String.eqb mode "driving").
  - cbn [get Py.bind] in Hsummary.
    destruct (eq _ (JStr "1")); injection Hsummary as <-;
      repeat (progress (rewrite ?append_assoc; cbn [String.append]));
      reflexivity.
  - injection Hsummary as <-. now rewrite append_nil_r.
Qed.

Lemma nav_text_layout_witness :
  exists duration dur distance dist lights tolls restriction steps more,
    get short_drive "duration" (JInt 0) = Ok duration /\
    _fmt_time duration = Ok dur /\
    get short_drive "distance" (JInt 0) = Ok distance /\
    _fmt_dist distance = Ok dist /\
    get short_drive "traffic_lights" (JStr "0") = Ok lights /\
    get short_drive "tolls" (JStr "0") = Ok tolls /\
    get short_drive "restriction" JNull = Ok restriction /\
    Py.bind (get short_drive "steps" (JArr [])) iterate = Ok steps /\
    short_drive_text
    = join newline
        ((nav_icon "driving" ++ " 【" ++ "driving" ++ "导航】")
         :: nav_summary "driving" dur dist lights tolls restriction
         :: "--------------------" :: "📝 详细路线:" :: more) /\
    length more = length steps /\
    forall k l, nth_error more k = Some l ->
      startswith l (int_text (Z.of_nat k + 1) ++ ". ") = true.
Proof.
  apply (nav_text_layout "driving" short_drive).
  vm_compute. reflexivity.
Defined.
